(** * RETINA: batch image classifier and prediction consistency checker

    A shallow embedding of [classify_images.py] and
    [test_prediction_consistency.py].

    Both scripts are orchestration code around a prediction service
    ([dr_service]) and the file system.  The service is a parameter of the
    development (a list of class labels and a function from the bytes of an
    image to a response); the file system is an explicit tree rooted at the
    directory that holds the scripts; the logger and the standard output are
    lists of records.  Python exceptions are values of type [exn] carried by
    the [Raise] outcome of the monad [M].

    Modelling conventions.
    - A path is the list of its components below the script directory, and
      [p / name] adds one component: the names joined to a path (file names
      returned by [os.walk], class labels used as directory names) are taken
      to be plain file names, without separator.
    - A directory is the list of its entries, in the order [os.scandir]
      enumerates them.  Symbolic links and access rights are not modelled.
    - The service is a function of the bytes it reads.
    - The relative paths of the consistency checker are resolved in the
      script directory.
    - Strings are byte strings and [str.lower] acts on ASCII letters.
    - Numbers returned by the service are rationals; [x / 100.0] is exact. *)

From Stdlib Require Import String Ascii List Bool Arith ZArith NArith QArith Lia.
Import ListNotations.
Close Scope Q_scope.
Open Scope nat_scope.
Open Scope string_scope.
Open Scope list_scope.
Set Warnings "-register-all".

Set Implicit Arguments.

(** ** Association lists (Python dicts, directory listings) *)

Section Assoc.
Variable A : Type.

Fixpoint assoc (k : string) (l : list (string * A)) : option A :=
  match l with
  | [] => None
  | (k', v) :: t => if String.eqb k k' then Some v else assoc k t
  end.

(* [d[k] = v]: replace in place, or add at the end. *)
Fixpoint upsert (k : string) (v : A) (l : list (string * A)) : list (string * A) :=
  match l with
  | [] => [(k, v)]
  | (k', v') :: t =>
      if String.eqb k k' then (k, v) :: t else (k', v') :: upsert k v t
  end.

Fixpoint remove_key (k : string) (l : list (string * A)) : list (string * A) :=
  match l with
  | [] => []
  | (k', v') :: t =>
      if String.eqb k k' then remove_key k t else (k', v') :: remove_key k t
  end.

Definition keys (l : list (string * A)) : list string := map fst l.
End Assoc.

(** ** The file system *)

(* What [shutil.copystat] carries over. *)
Record stat := { st_mode : N; st_atime : Z; st_mtime : Z }.

Record file := { f_bytes : string; f_stat : stat }.

Inductive node :=
| File (f : file)
| Dir (entries : list (string * node)).

Definition path := list string.

(* [p / name] *)
Definition path_join (p : path) (name : string) : path := p ++ [name].

(* [p.name] *)
Definition path_name (p : path) : string := last p "".

(* [p.parent] *)
Definition path_parent (p : path) : path := removelast p.

Fixpoint lookup (p : path) (n : node) : option node :=
  match p with
  | [] => Some n
  | c :: p' =>
      match n with
      | File _ => None
      | Dir es =>
          match assoc c es with
          | Some m => lookup p' m
          | None => None
          end
      end
  end.

(* Bind the node [new] at path [p]; every proper prefix of [p] must be a
   directory. *)
Fixpoint put (p : path) (new : node) (n : node) : option node :=
  match p with
  | [] => Some new
  | c :: p' =>
      match n with
      | File _ => None
      | Dir es =>
          match p' with
          | [] => Some (Dir (upsert c new es))
          | _ :: _ =>
              match assoc c es with
              | Some m =>
                  match put p' new m with
                  | Some m' => Some (Dir (upsert c m' es))
                  | None => None
                  end
              | None => None
              end
          end
      end
  end.

(* Unbind the entry at path [p], with everything below it. *)
Fixpoint unlink (p : path) (n : node) : option node :=
  match p with
  | [] => None
  | c :: p' =>
      match n with
      | File _ => None
      | Dir es =>
          match p' with
          | [] => Some (Dir (remove_key c es))
          | _ :: _ =>
              match assoc c es with
              | Some m =>
                  match unlink p' m with
                  | Some m' => Some (Dir (upsert c m' es))
                  | None => None
                  end
              | None => None
              end
          end
      end
  end.

Definition is_dir (o : option node) : bool :=
  match o with Some (Dir _) => true | _ => false end.

Definition is_file (o : option node) : bool :=
  match o with Some (File _) => true | _ => false end.

Definition is_some {A} (o : option A) : bool :=
  match o with Some _ => true | None => false end.

(** ** [pathlib] suffixes and the extension allow-list *)

Fixpoint rfind (c : ascii) (s : string) : option nat :=
  match s with
  | EmptyString => None
  | String a t =>
      match rfind c t with
      | Some i => Some (S i)
      | None => if Ascii.eqb a c then Some 0 else None
      end
  end.

(* [PurePath.suffix]: from the last dot on, unless the dot is the first or
   the last character of the name. *)
Definition suffix (name : string) : string :=
  match rfind "."%char name with
  | Some i =>
      if ((0 <? i) && (i <? String.length name - 1))%nat
      then substring i (String.length name - i)%nat name
      else ""
  | None => ""
  end.

Definition lower_ascii (c : ascii) : ascii :=
  let n := nat_of_ascii c in
  if ((65 <=? n) && (n <=? 90))%nat then ascii_of_nat (n + 32) else c.

Fixpoint lower (s : string) : string :=
  match s with
  | EmptyString => EmptyString
  | String a t => String (lower_ascii a) (lower t)
  end.

Definition image_extensions : list string :=
  [".jpg"; ".jpeg"; ".png"; ".bmp"; ".tiff"; ".tif"].

Definition mem (s : string) (l : list string) : bool :=
  existsb (String.eqb s) l.

(* [Path(file).suffix.lower() in image_extensions] *)
Definition is_image_name (name : string) : bool :=
  mem (lower (suffix name)) image_extensions.

(** ** [os.walk] *)

Definition dirnames (es : list (string * node)) : list string :=
  keys (filter (fun e => match snd e with Dir _ => true | File _ => false end) es).

Definition filenames (es : list (string * node)) : list string :=
  keys (filter (fun e => match snd e with Dir _ => false | File _ => true end) es).

(* Top-down walk below the directory [n] found at [root]: the triple of the
   directory itself, then the walks of its sub-directories in listing
   order. *)
Fixpoint walk_dir (root : path) (n : node) {struct n}
  : list (path * list string * list string) :=
  match n with
  | File _ => []
  | Dir es =>
      (root, dirnames es, filenames es) ::
      (fix walk_entries (l : list (string * node)) :=
         match l with
         | [] => []
         | (name, child) :: t =>
             walk_dir (path_join root name) child ++ walk_entries t
         end) es
  end.

(* [os.walk(top)] yields nothing when [top] is missing or is not a
   directory. *)
Definition os_walk (top : path) (fs : node) : list (path * list string * list string) :=
  match lookup top fs with
  | Some n => walk_dir top n
  | None => []
  end.

(** ** Exceptions, the world and the monad of the scripts *)

Inductive exn :=
| FileNotFoundError (p : path)
| NotADirectoryError (p : path)
| IsADirectoryError (p : path)
| FileExistsError (p : path)
| SameFileError (p : path)
| OSError (p : path)
| UnidentifiedImageError (p : path)
| KeyError (k : string)
| TypeError
| ServiceError (msg : string).

(* Calls that may change the file system, in the order they are made. *)
Inductive syscall :=
| Rmtree (p : path)
| Mkdir (p : path)
| Copy2 (src dst : path).

Inductive level := INFO | WARNING | ERROR.

(* The records of [classify_images.py]'s logger. *)
Inductive message :=
| MsgStarting
| MsgRule
| MsgSourceNotFound (p : path)
| MsgPleaseAdd
| MsgNoImages (p : path)
| MsgFound (n : nat)
| MsgCreatedOutput (p : path)
| MsgClassLabels (labels : list string)
| MsgProcessing (name : string)
| MsgPredictionFailed (p : path) (err : string)
| MsgErrorPredicting (p : path) (e : exn)
| MsgClassifiedAs (label : string) (confidence : Q)
| MsgFailedToClassify (name : string)
| MsgComplete
| MsgTotal (processed : nat)
| MsgResults
| MsgClassCount (label : string) (count : nat)
| MsgSavedTo (p : path)
| MsgMatchesWebApp.

(* The lines [test_prediction_consistency.py] prints. *)
Inductive line :=
| PTesting
| PRule
| PNotFound (img_path : string)
| PTestingFrom (folder_name : string)
| PImage (name : string)
| PErrorPreprocessing (img_path : string) (e : exn)
| PFailedPreprocess
| PPredictionFailed (err : string)
| PPredicted (prediction : string)
| PConfidence (confidence : Q)
| PMatch
| PMismatch (expected_folder prediction : string)
| PErrorGetting (e : exn)
| PComplete.

Record world := {
  w_fs : node;
  w_calls : list syscall;
  w_log : list (level * message);
  w_stdout : list line
}.

Definition set_fs (fs : node) (w : world) : world :=
  {| w_fs := fs; w_calls := w_calls w; w_log := w_log w; w_stdout := w_stdout w |}.

Inductive outcome (A : Type) :=
| Ok (a : A)
| Raise (e : exn).

Arguments Ok {A} a.
Arguments Raise {A} e.

Definition M (A : Type) : Type := world -> outcome A * world.

Definition ret {A} (a : A) : M A := fun w => (Ok a, w).

Definition bind {A B} (m : M A) (k : A -> M B) : M B :=
  fun w =>
    match m w with
    | (Ok a, w') => k a w'
    | (Raise e, w') => (Raise e, w')
    end.

Definition raise {A} (e : exn) : M A := fun w => (Raise e, w).

(* [try: m except Exception as e: h e] *)
Definition try_catch {A} (m : M A) (h : exn -> M A) : M A :=
  fun w =>
    match m w with
    | (Ok a, w') => (Ok a, w')
    | (Raise e, w') => h e w'
    end.

Declare Scope py_scope.
Delimit Scope py_scope with py.
Notation "x <- m ;; k" := (bind m (fun x => k))
  (at level 100, m at next level, right associativity) : py_scope.
Notation "m ;; k" := (bind m (fun _ => k))
  (at level 100, right associativity) : py_scope.
Open Scope py_scope.

(* [for x in l: s = body x s] *)
Fixpoint for_each {A S} (body : A -> S -> M S) (l : list A) (s : S) : M S :=
  match l with
  | [] => ret s
  | x :: t => s' <- body x s ;; for_each body t s'
  end.

(* [for x in l: body x] *)
Fixpoint for_in {A} (body : A -> M unit) (l : list A) : M unit :=
  match l with
  | [] => ret tt
  | x :: t => body x ;; for_in body t
  end.

Definition logger (lv : level) (m : message) : M unit :=
  fun w => (Ok tt, {| w_fs := w_fs w; w_calls := w_calls w;
                      w_log := w_log w ++ [(lv, m)]; w_stdout := w_stdout w |}).

Definition print (l : line) : M unit :=
  fun w => (Ok tt, {| w_fs := w_fs w; w_calls := w_calls w;
                      w_log := w_log w; w_stdout := w_stdout w ++ [l] |}).

Definition record_call (c : syscall) : M unit :=
  fun w => (Ok tt, {| w_fs := w_fs w; w_calls := w_calls w ++ [c];
                      w_log := w_log w; w_stdout := w_stdout w |}).

(* [d[k]] *)
Definition getitem {A} (k : string) (o : option A) : M A :=
  match o with
  | Some v => ret v
  | None => raise (KeyError k)
  end.

(* [d.get(k, default)] *)
Definition get_default {A} (o : option A) (default : A) : A :=
  match o with
  | Some v => v
  | None => default
  end.

(** ** File system calls *)

Fixpoint path_eqb (p q : path) : bool :=
  match p, q with
  | [], [] => true
  | a :: p', b :: q' => String.eqb a b && path_eqb p' q'
  | _, _ => false
  end.

(* [Path.exists] *)
Definition path_exists (p : path) : M bool :=
  fun w => (Ok (is_some (lookup p (w_fs w))), w).

(* [open(p, 'rb')] followed by a read of the whole file *)
Definition open_rb (p : path) : M string :=
  fun w =>
    match lookup p (w_fs w) with
    | Some (File f) => (Ok (f_bytes f), w)
    | Some (Dir _) => (Raise (IsADirectoryError p), w)
    | None => (Raise (FileNotFoundError p), w)
    end.

(* Write [new] at [p], whose parent must be a directory. *)
Definition create (p : path) (new : node) : M unit :=
  fun w =>
    match lookup (path_parent p) (w_fs w) with
    | Some (Dir _) =>
        match put p new (w_fs w) with
        | Some fs' => (Ok tt, set_fs fs' w)
        | None => (Raise (OSError p), w)
        end
    | Some (File _) => (Raise (NotADirectoryError p), w)
    | None => (Raise (FileNotFoundError p), w)
    end.

(* [shutil.rmtree(p)] *)
Definition rmtree (p : path) : M unit :=
  record_call (Rmtree p) ;;
  fun w =>
    match lookup p (w_fs w) with
    | Some (Dir _) =>
        match unlink p (w_fs w) with
        | Some fs' => (Ok tt, set_fs fs' w)
        | None => (Raise (OSError p), w)
        end
    | Some (File _) => (Raise (NotADirectoryError p), w)
    | None => (Raise (FileNotFoundError p), w)
    end.

(* [p.mkdir(exist_ok=True)] *)
Definition mkdir_exist_ok (p : path) : M unit :=
  record_call (Mkdir p) ;;
  fun w =>
    match lookup p (w_fs w) with
    | Some (Dir _) => (Ok tt, w)
    | Some (File _) => (Raise (FileExistsError p), w)
    | None => create p (Dir []) w
    end.

(* [shutil.copy2(src, dst)]: the bytes and the stat of [src] are written at
   [dst], or inside [dst] under the name of [src] when [dst] is a
   directory. *)
Definition copy2 (src dst : path) : M unit :=
  record_call (Copy2 src dst) ;;
  fun w =>
    match lookup src (w_fs w) with
    | None => (Raise (FileNotFoundError src), w)
    | Some (Dir _) => (Raise (IsADirectoryError src), w)
    | Some (File f) =>
        let dst' :=
          if is_dir (lookup dst (w_fs w)) then path_join dst (path_name src) else dst in
        if path_eqb src dst' then (Raise (SameFileError src), w)
        else if is_dir (lookup dst' (w_fs w)) then (Raise (IsADirectoryError dst'), w)
        else create dst' (File f) w
    end.

(** ** The prediction service *)

(* The dict returned by [dr_service.process_image]; a key may be absent. *)
Record result := {
  r_success : option bool;
  r_error : option string;
  r_prediction : option string;
  r_confidence : option Q
}.

Inductive response :=
| Returns (r : result)
| Raises (msg : string).

(* [prediction.services.dr_service], which is not part of the two scripts. *)
Record service := {
  class_labels : list string;
  process_image : string -> response
}.

(* Truth value of a string. *)
Definition truthy (s : string) : bool := negb (String.eqb s "").

(** ** classify_images.py *)

Definition SOURCE_DIR : path := ["colored_images"].
Definition OUTPUT_DIR : path := ["classified_images"].

(* [{class_name: 0 for class_name in labels}] *)
Definition zero_tally (labels : list string) : list (string * nat) :=
  fold_left (fun d class_name => upsert class_name 0 d) labels [].

Definition find_image_files_in (directory : path) (fs : node) : list path :=
  flat_map
    (fun t : path * list string * list string =>
       let '(root, _, files) := t in
       map (path_join root) (filter is_image_name files))
    (os_walk directory fs).

Definition find_image_files (directory : path) : M (list path) :=
  fun w => (Ok (find_image_files_in directory (w_fs w)), w).

(* [f"{confidence:.2%}"] *)
Definition format_percent (confidence : option Q) : M Q :=
  match confidence with
  | Some c => ret c
  | None => raise TypeError
  end.

Section Scripts.
Variable dr_service : service.

Definition call_service (img_bytes : string) : M result :=
  match process_image dr_service img_bytes with
  | Returns r => ret r
  | Raises msg => raise (ServiceError msg)
  end.

Definition setup_output_directory : M unit :=
  out_exists <- path_exists OUTPUT_DIR ;;
  (if out_exists then rmtree OUTPUT_DIR else ret tt) ;;
  mkdir_exist_ok OUTPUT_DIR ;;
  for_in (fun class_name => mkdir_exist_ok (path_join OUTPUT_DIR class_name))
         (class_labels dr_service) ;;
  logger INFO (MsgCreatedOutput OUTPUT_DIR) ;;
  logger INFO (MsgClassLabels (class_labels dr_service)).

Definition predict_image_using_django_service (img_path : path)
  : M (option string * option Q) :=
  try_catch
    (img_bytes <- open_rb img_path ;;
     result <- call_service img_bytes ;;
     if negb (get_default (r_success result) false) then
       logger ERROR (MsgPredictionFailed img_path
                       (get_default (r_error result) "Unknown error")) ;;
       ret (None, None)
     else
       prediction <- getitem "prediction" (r_prediction result) ;;
       confidence <- getitem "confidence" (r_confidence result) ;;
       ret (Some prediction, Some (confidence / 100)%Q))
    (fun e =>
       logger ERROR (MsgErrorPredicting img_path e) ;;
       ret (None, None)).

(* The body of the loop of [classify_images], on the locals [results] and
   [processed]. *)
Definition classify_one (img_path : path) (st : list (string * nat) * nat)
  : M (list (string * nat) * nat) :=
  let '(results, processed) := st in
  logger INFO (MsgProcessing (path_name img_path)) ;;
  pc <- predict_image_using_django_service img_path ;;
  let '(predicted_class, confidence) := pc in
  let skip :=
    logger WARNING (MsgFailedToClassify (path_name img_path)) ;;
    ret (results, processed) in
  match predicted_class with
  | Some l =>
      if truthy l then
        let dest_path := path_join (path_join OUTPUT_DIR l) (path_name img_path) in
        copy2 img_path dest_path ;;
        n <- getitem l (assoc l results) ;;
        let results := upsert l (n + 1) results in
        let processed := processed + 1 in
        c <- format_percent confidence ;;
        logger INFO (MsgClassifiedAs l c) ;;
        ret (results, processed)
      else skip
  | None => skip
  end.

(* Returns [None] for the two early returns, and otherwise the final values
   of the locals [results] and [processed], which the summary logs. *)
Definition classify_images : M (option (list (string * nat) * nat)) :=
  logger INFO MsgStarting ;;
  logger INFO MsgRule ;;
  src_exists <- path_exists SOURCE_DIR ;;
  if negb src_exists then
    logger ERROR (MsgSourceNotFound SOURCE_DIR) ;;
    logger INFO MsgPleaseAdd ;;
    ret None
  else
    image_files <- find_image_files SOURCE_DIR ;;
    match image_files with
    | [] =>
        logger WARNING (MsgNoImages SOURCE_DIR) ;;
        logger INFO MsgPleaseAdd ;;
        ret None
    | _ :: _ =>
        logger INFO (MsgFound (List.length image_files)) ;;
        setup_output_directory ;;
        st <- for_each classify_one image_files
                (zero_tally (class_labels dr_service), 0) ;;
        logger INFO MsgComplete ;;
        logger INFO (MsgTotal (snd st)) ;;
        logger INFO MsgResults ;;
        for_in (fun item : string * nat => logger INFO (MsgClassCount (fst item) (snd item)))
               (fst st) ;;
        logger INFO (MsgSavedTo OUTPUT_DIR) ;;
        logger INFO MsgMatchesWebApp ;;
        ret (Some st)
    end.
End Scripts.

(** ** test_prediction_consistency.py *)

(* [Path(s)] for a relative path written with slashes; empty components and
   single dots are dropped, as [pathlib] does. *)
Fixpoint split_path (acc : string) (s : string) : list string :=
  match s with
  | EmptyString => [acc]
  | String c t =>
      if Ascii.eqb c "/"%char then acc :: split_path "" t
      else split_path (acc ++ String c "") t
  end.

Definition Path (s : string) : path :=
  filter (fun c => negb (String.eqb c "" || String.eqb c ".")) (split_path "" s).

Definition test_cases : list (string * string) :=
  [("classified_images/Mild/0773a1c326ad.png", "Mild");
   ("classified_images/No_DR/0151781fe50b.png", "No_DR");
   ("classified_images/Moderate/000c1434d8d7.png", "Moderate")].

Section Checker.
Variable dr_service : service.

(* The array computed by PIL and numpy (decode, convert to RGB, resize to
   224 x 224, add the batch dimension, divide by 255); [None] when one of
   these steps raises. *)
Variable array : Type.
Variable pil_pipeline : string -> option array.

Definition preprocess_image (img_path : string) : M (option array) :=
  try_catch
    (img_bytes <- open_rb (Path img_path) ;;
     match pil_pipeline img_bytes with
     | Some img_array => ret (Some img_array)
     | None => raise (UnidentifiedImageError (Path img_path))
     end)
    (fun e =>
       print (PErrorPreprocessing img_path e) ;;
       ret None).

(* The body of the loop of [test_prediction_consistency]. *)
Definition check_case (tc : string * string) : M unit :=
  let '(img_path, expected_folder) := tc in
  found <- path_exists (Path img_path) ;;
  if negb found then print (PNotFound img_path)
  else
    let folder_name := path_name (path_parent (Path img_path)) in
    print (PTestingFrom folder_name) ;;
    print (PImage (path_name (Path img_path))) ;;
    img_array <- preprocess_image img_path ;;
    match img_array with
    | None => print PFailedPreprocess
    | Some _ =>
        try_catch
          (img_bytes <- open_rb (Path img_path) ;;
           result <- call_service dr_service img_bytes ;;
           if negb (get_default (r_success result) false) then
             print (PPredictionFailed (get_default (r_error result) "Unknown error"))
           else
             prediction <- getitem "prediction" (r_prediction result) ;;
             confidence <- getitem "confidence" (r_confidence result) ;;
             let confidence := (confidence / 100)%Q in
             print (PPredicted prediction) ;;
             print (PConfidence confidence) ;;
             if String.eqb prediction expected_folder then print PMatch
             else print (PMismatch expected_folder prediction))
          (fun e => print (PErrorGetting e))
    end.

Definition run_cases (cases : list (string * string)) : M unit :=
  print PTesting ;;
  print PRule ;;
  for_in check_case cases ;;
  print PRule ;;
  print PComplete.

Definition test_prediction_consistency : M unit := run_cases test_cases.
End Checker.

(** ** Notions used to state the properties *)

(* What the service answers for the file found at [p]: the label and the
   confidence as a fraction, when the file can be read, the call returns, the
   dict says success and holds both keys. *)
Definition service_answer (dr_service : service) (fs : node) (p : path)
  : option (string * Q) :=
  match lookup p fs with
  | Some (File f) =>
      match process_image dr_service (f_bytes f) with
      | Returns r =>
          if get_default (r_success r) false then
            match r_prediction r, r_confidence r with
            | Some l, Some c => Some (l, (c / 100)%Q)
            | _, _ => None
            end
          else None
      | Raises _ => None
      end
  | _ => None
  end.

(* The service returned a dict whose [success] is [True]. *)
Definition reports_success (dr_service : service) (fs : node) (p : path) : bool :=
  match lookup p fs with
  | Some (File f) =>
      match process_image dr_service (f_bytes f) with
      | Returns r => get_default (r_success r) false
      | Raises _ => false
      end
  | _ => false
  end.

(* The prediction attempt on [p] fails: the file cannot be opened, the call
   raises, the dict does not say success, or reading a key of it raises. *)
Inductive attempt_fails (dr_service : service) (fs : node) (p : path) : Prop :=
| cannot_open :
    is_file (lookup p fs) = false -> attempt_fails dr_service fs p
| service_raises f msg :
    lookup p fs = Some (File f) ->
    process_image dr_service (f_bytes f) = Raises msg ->
    attempt_fails dr_service fs p
| reports_failure f r :
    lookup p fs = Some (File f) ->
    process_image dr_service (f_bytes f) = Returns r ->
    get_default (r_success r) false = false ->
    attempt_fails dr_service fs p
| key_missing f r :
    lookup p fs = Some (File f) ->
    process_image dr_service (f_bytes f) = Returns r ->
    r_prediction r = None \/ r_confidence r = None ->
    attempt_fails dr_service fs p.

(* The loop of [classify_images] takes its success branch on [p]. *)
Definition labelled (dr_service : service) (fs : node) (p : path) : bool :=
  match service_answer dr_service fs p with
  | Some (l, _) => truthy l
  | None => false
  end.

Definition count_where {A} (f : A -> bool) (l : list A) : nat :=
  List.length (filter f l).

(* [sum(results.values())] *)
Definition sum_tally (results : list (string * nat)) : nat :=
  fold_right (fun item acc => snd item + acc) 0 results.

(* The tree [n] holds the file [f] at the relative path [q]. *)
Inductive file_at : path -> node -> file -> Prop :=
| file_here f : file_at [] (File f) f
| file_below c q es m f :
    In (c, m) es -> file_at q m f -> file_at (c :: q) (Dir es) f.

(* Two paths part ways at some component. *)
Fixpoint diverge (p q : path) : Prop :=
  match p, q with
  | a :: p', b :: q' => a <> b \/ diverge p' q'
  | _, _ => False
  end.

(* The output directory seen as a dict from class folder to the files it
   holds. *)
Definition map_vals {A B} (g : A -> B) (l : list (string * A)) : list (string * B) :=
  map (fun e => (fst e, g (snd e))) l.

Definition out_tree (classes : list (string * list (string * file))) : node :=
  Dir (map_vals (fun files => Dir (map_vals File files)) classes).

(* A script directory whose last entry is the output directory. *)
Definition root_with (others : list (string * node))
           (classes : list (string * list (string * file))) : node :=
  Dir (others ++ [("classified_images", out_tree classes)]).

(* [{k: v for k in labels}] *)
Definition const_dict {A} (v : A) (labels : list string) : list (string * A) :=
  fold_left (fun d k => upsert k v d) labels [].

(* The calls made by [setup_output_directory]. *)
Definition setup_calls (out_existed : bool) (labels : list string) : list syscall :=
  (if out_existed then [Rmtree OUTPUT_DIR] else [])
  ++ Mkdir OUTPUT_DIR :: map (fun l => Mkdir (path_join OUTPUT_DIR l)) labels.

Definition add_log (extra : list (level * message)) (w : world) : world :=
  {| w_fs := w_fs w; w_calls := w_calls w;
     w_log := w_log w ++ extra; w_stdout := w_stdout w |}.

Definition add_stdout (extra : list line) (w : world) : world :=
  {| w_fs := w_fs w; w_calls := w_calls w;
     w_log := w_log w; w_stdout := w_stdout w ++ extra |}.

(* The two records by which [predict_image_using_django_service] reports a
   failure. *)
Definition error_message (m : message) : bool :=
  match m with
  | MsgPredictionFailed _ _ | MsgErrorPredicting _ _ => true
  | _ => false
  end.

(* A copy of a file into a folder of the output directory, under the base
   name of the file. *)
Definition copy_by_base_name (c : syscall) : Prop :=
  match c with
  | Copy2 src dst =>
      exists l, dst = path_join (path_join OUTPUT_DIR l) (path_name src)
  | _ => False
  end.

(* What holds of the locals [results] and [processed] and of the world in
   the loop of [classify_images], once the images [done] are handled. *)
Definition loop_inv (dr_service : service) (others : list (string * node))
           (done : list path) (st : list (string * nat) * nat) (w : world) : Prop :=
  exists classes,
    w_fs w = root_with others classes
    /\ keys classes = keys (zero_tally (class_labels dr_service))
    /\ keys (fst st) = keys (zero_tally (class_labels dr_service))
    /\ sum_tally (fst st) = snd st
    /\ snd st = count_where (labelled dr_service (Dir others)) done
    /\ forall l files, assoc l classes = Some files ->
         NoDup (keys files)
         /\ (forall name, In name (keys files) ->
             exists img, In img done /\ path_name img = name)
         /\ exists n, assoc l (fst st) = Some n /\ List.length files <= n.

(* What holds of the world in the loop whatever its end: the output
   directory stays in place with its class folders, whose entries have
   distinct names, only copies are attempted, and a confidence is logged only
   as the service answered it. *)
Definition loop_frame (dr_service : service) (others : list (string * node))
           (calls0 : list syscall) (log0 : list (level * message)) (w : world) : Prop :=
  (exists classes,
      w_fs w = root_with others classes
      /\ keys classes = keys (zero_tally (class_labels dr_service))
      /\ forall l files, assoc l classes = Some files -> NoDup (keys files))
  /\ (exists cs, w_calls w = calls0 ++ cs /\ Forall copy_by_base_name cs)
  /\ forall lv l c,
       In (lv, MsgClassifiedAs l c) (w_log w) ->
       In (lv, MsgClassifiedAs l c) log0
       \/ exists x, service_answer dr_service (Dir others) x = Some (l, c).

(* The records of the summary that ends [classify_images]. *)
Definition summary_log (st : list (string * nat) * nat) : list (level * message) :=
  (INFO, MsgComplete) :: (INFO, MsgTotal (snd st)) :: (INFO, MsgResults)
  :: map (fun item : string * nat => (INFO, MsgClassCount (fst item) (snd item))) (fst st)
  ++ [(INFO, MsgSavedTo OUTPUT_DIR); (INFO, MsgMatchesWebApp)].

(* The records logged before each of the two early returns. *)
Definition source_missing_log : list (level * message) :=
  [(INFO, MsgStarting); (INFO, MsgRule);
   (ERROR, MsgSourceNotFound SOURCE_DIR); (INFO, MsgPleaseAdd)].

Definition no_images_log : list (level * message) :=
  [(INFO, MsgStarting); (INFO, MsgRule);
   (WARNING, MsgNoImages SOURCE_DIR); (INFO, MsgPleaseAdd)].

(* The records logged before the set-up, when [n] images were found. *)
Definition found_log (n : nat) : list (level * message) :=
  [(INFO, MsgStarting); (INFO, MsgRule); (INFO, MsgFound n)].

(* The run of [classify_images] started in [w], up to the point of its loop
   where the images [done] are handled. *)
Definition loop_state (dr_service : service) (w : world) (done : list path)
  : outcome (list (string * nat) * nat) * world :=
  (setup_output_directory dr_service ;;
   for_each (classify_one dr_service) done
     (zero_tally (class_labels dr_service), 0))
    (add_log (found_log (List.length (find_image_files_in SOURCE_DIR (w_fs w)))) w).

(* The run of [classify_images] started in [w] is in its loop: the images
   [done] are handled, the locals are [st] and the world is [w2]; the run
   goes on from there with the remaining images ([run_passes_through]). *)
Definition in_loop (dr_service : service) (w : world) (done : list path)
           (st : list (string * nat) * nat) (w2 : world) : Prop :=
  exists rest,
    find_image_files_in SOURCE_DIR (w_fs w) = done ++ rest
    /\ done ++ rest <> []
    /\ loop_state dr_service w done = (Ok st, w2).

(* The lines printed by [check_case], read off the file system and the
   service. *)
Definition case_lines (dr_service : service) {array : Type}
           (pil_pipeline : string -> option array) (fs : node)
           (tc : string * string) : list line :=
  let p := Path (fst tc) in
  match lookup p fs with
  | None => [PNotFound (fst tc)]
  | Some n =>
      PTestingFrom (path_name (path_parent p)) :: PImage (path_name p) ::
      match n with
      | Dir _ =>
          [PErrorPreprocessing (fst tc) (IsADirectoryError p); PFailedPreprocess]
      | File f =>
          match pil_pipeline (f_bytes f) with
          | None =>
              [PErrorPreprocessing (fst tc) (UnidentifiedImageError p);
               PFailedPreprocess]
          | Some _ =>
              match process_image dr_service (f_bytes f) with
              | Raises msg => [PErrorGetting (ServiceError msg)]
              | Returns r =>
                  if get_default (r_success r) false then
                    match r_prediction r, r_confidence r with
                    | None, _ => [PErrorGetting (KeyError "prediction")]
                    | Some _, None => [PErrorGetting (KeyError "confidence")]
                    | Some l, Some c =>
                        [PPredicted l; PConfidence (c / 100)%Q;
                         if String.eqb l (snd tc) then PMatch
                         else PMismatch (snd tc) l]
                    end
                  else [PPredictionFailed (get_default (r_error r) "Unknown error")]
              end
          end
      end
  end.

(* A line that reports a pass or a fail of the comparison. *)
Definition is_verdict (l : line) : bool :=
  match l with
  | PMatch | PMismatch _ _ => true
  | _ => false
  end.

(* A line that reports that no prediction was obtained. *)
Definition is_failure_report (l : line) : bool :=
  match l with
  | PFailedPreprocess | PPredictionFailed _ | PErrorGetting _ => true
  | _ => false
  end.

(* A partial-correctness triple: [Q] after a normal end, [E] after an
   exception. *)
Definition triple {A} (P : world -> Prop) (m : M A)
           (Q : A -> world -> Prop) (E : exn -> world -> Prop) : Prop :=
  forall w, P w ->
    match m w with
    | (Ok a, w') => Q a w'
    | (Raise e, w') => E e w'
    end.

(* [m] sees of the world only the file system. *)
Definition fs_only {A} (m : M A) : Prop :=
  forall w1 w2, w_fs w1 = w_fs w2 ->
    fst (m w1) = fst (m w2) /\ w_fs (snd (m w1)) = w_fs (snd (m w2)).

(** ** Notions used for the further properties *)

(* The service answers the non-empty label [l] for the file at [p]. *)
Definition answered (dr_service : service) (fs : node) (l : string) (p : path) : bool :=
  match service_answer dr_service fs p with
  | Some (l', _) => truthy l' && String.eqb l' l
  | None => false
  end.

(* What holds of each tally and of each file of the output directory in the
   loop of [classify_images], once the images [done] are handled. *)
Definition loop_account (dr_service : service) (others : list (string * node))
           (done : list path) (st : list (string * nat) * nat) (w : world) : Prop :=
  exists classes,
    w_fs w = root_with others classes
    /\ keys classes = keys (zero_tally (class_labels dr_service))
    /\ keys (fst st) = keys (zero_tally (class_labels dr_service))
    /\ (forall l n, assoc l (fst st) = Some n ->
          n = count_where (answered dr_service (Dir others) l) done)
    /\ (forall l files name f,
          assoc l classes = Some files -> assoc name files = Some f ->
          exists img,
            In img done /\ path_name img = name
            /\ lookup img (Dir others) = Some (File f)
            /\ answered dr_service (Dir others) l img = true)
    /\ (forall img l,
          In img done -> answered dr_service (Dir others) l img = true ->
          exists files f,
            assoc l classes = Some files /\ assoc (path_name img) files = Some f).

(* The exception [e] is the failure of the copy of an image for which the
   service answered a non-empty label that it does not list. *)
Definition stray_answer (dr_service : service) (fs : node) (images : list path)
           (e : exn) : Prop :=
  exists x l c,
    In x images
    /\ service_answer dr_service fs x = Some (l, c)
    /\ truthy l = true
    /\ ~ In l (class_labels dr_service)
    /\ e = FileNotFoundError (path_join (path_join OUTPUT_DIR l) (path_name x)).

(* A record of the loop of [classify_images] that tells what became of an
   image. *)
Definition progress (r : level * message) : bool :=
  match snd r with
  | MsgProcessing _ | MsgClassifiedAs _ _ | MsgFailedToClassify _ => true
  | _ => false
  end.

(* The progress records of one image: its name, and then either the label
   and the confidence answered for it or the warning that it was skipped. *)
Definition image_records (dr_service : service) (fs : node) (x : path)
  : list (level * message) :=
  (INFO, MsgProcessing (path_name x)) ::
  match service_answer dr_service fs x with
  | Some (l, c) =>
      if truthy l then [(INFO, MsgClassifiedAs l c)]
      else [(WARNING, MsgFailedToClassify (path_name x))]
  | None => [(WARNING, MsgFailedToClassify (path_name x))]
  end.

(* A line that closes a test case of the checker: the image is missing, no
   prediction was obtained, or the comparison passed or failed. *)
Definition is_outcome (l : line) : bool :=
  match l with
  | PNotFound _ => true
  | _ => is_failure_report l || is_verdict l
  end.

(** ** Sample inputs *)

Definition sample_stat : stat :=
  {| st_mode := 420%N; st_atime := 1700000000%Z; st_mtime := 1600000000%Z |}.

Definition sample_file (b : string) : file :=
  {| f_bytes := b; f_stat := sample_stat |}.

Definition success_result (label : string) (confidence : Q) : result :=
  {| r_success := Some true; r_error := None;
     r_prediction := Some label; r_confidence := Some confidence |}.

Definition failure_result (err : string) : result :=
  {| r_success := Some false; r_error := Some err;
     r_prediction := None; r_confidence := None |}.

Definition dr_labels : list string :=
  ["Mild"; "Moderate"; "No_DR"; "Proliferate_DR"; "Severe"].

(* A service that recognises two images, raises on a third and reports a
   failure on anything else. *)
Definition sample_service : service :=
  {| class_labels := dr_labels;
     process_image := fun b =>
       if String.eqb b "mild fundus" then Returns (success_result "Mild" 87)
       else if String.eqb b "healthy fundus" then Returns (success_result "No_DR" (199 # 2))
       else if String.eqb b "truncated" then Raises "cannot identify image file"
       else Returns (failure_result "not a fundus image") |}.


(* A service whose successful result has no confidence. *)
Definition keyless_service : service :=
  {| class_labels := dr_labels;
     process_image := fun _ =>
       Returns {| r_success := Some true; r_error := None;
                  r_prediction := Some "Mild"; r_confidence := None |} |}.

(* A service that answers a label it does not list. *)
Definition stray_service : service :=
  {| class_labels := dr_labels;
     process_image := fun _ => Returns (success_result "Unknown" 50) |}.

Definition start (fs : node) : world :=
  {| w_fs := fs; w_calls := []; w_log := []; w_stdout := [] |}.

(* [colored_images/a.png] and [colored_images/b.jpg], with other files, and
   an output directory left by an earlier run. *)
Definition sample_fs : node :=
  Dir [("classify_images.py", File (sample_file "#!/usr/bin/env python3"));
       ("classified_images",
        Dir [("Mild", Dir [("old.png", File (sample_file "healthy fundus"))])]);
       ("colored_images",
        Dir [("a.png", File (sample_file "mild fundus"));
             ("b.jpg", File (sample_file "healthy fundus"));
             ("notes.txt", File (sample_file "mild fundus"));
             ("c.PNG", File (sample_file "truncated"));
             ("d.bmp", File (sample_file "a cat"))])].

(* Two images with the same base name in two sub-directories. *)
Definition twin_fs : node :=
  Dir [("colored_images",
        Dir [("left", Dir [("eye.png", File (sample_file "mild fundus"))]);
             ("right",
              Dir [("eye.png",
                    File {| f_bytes := "mild fundus";
                            f_stat := {| st_mode := 384%N; st_atime := 5%Z;
                                         st_mtime := 7%Z |} |})])])].

(* No source directory, and a source directory without any image. *)
Definition bare_fs : node :=
  Dir [("classified_images", Dir [("Mild", Dir [])])].

Definition imageless_fs : node :=
  Dir [("colored_images",
        Dir [("README.md", File (sample_file "text"));
             (".png", File (sample_file "mild fundus"));
             ("sub", Dir [("scan.pdf", File (sample_file "mild fundus"))])]);
       ("classified_images", Dir [("Mild", Dir [])])].


(** * Properties *)

Unset Implicit Arguments.

(** ** Names and paths *)

Example suffix_examples :
  suffix "a.tar.gz" = ".gz" /\ suffix "scan.PNG" = ".PNG"
  /\ suffix ".png" = "" /\ suffix "scan." = "" /\ suffix "scan" = "".
Proof. repeat split. Qed.

Example is_image_name_examples :
  is_image_name "0773a1c326ad.png" = true /\ is_image_name "IMG_01.JPeG" = true
  /\ is_image_name "eye.tiff" = true /\ is_image_name "eye.gif" = false
  /\ is_image_name ".png" = false /\ is_image_name "png" = false.
Proof. repeat split. Qed.

Example Path_examples :
  Path "classified_images/Mild/0773a1c326ad.png"
  = ["classified_images"; "Mild"; "0773a1c326ad.png"]
  /\ Path "./a//b" = ["a"; "b"]
  /\ path_name (Path "classified_images/Mild/0773a1c326ad.png") = "0773a1c326ad.png"
  /\ path_name (path_parent (Path "classified_images/Mild/0773a1c326ad.png")) = "Mild".
Proof. repeat split. Qed.

Example find_image_files_example :
  find_image_files_in SOURCE_DIR twin_fs
  = [["colored_images"; "left"; "eye.png"]; ["colored_images"; "right"; "eye.png"]]
  /\ find_image_files_in SOURCE_DIR sample_fs
     = [["colored_images"; "a.png"]; ["colored_images"; "b.jpg"];
        ["colored_images"; "c.PNG"]; ["colored_images"; "d.bmp"]].
Proof. split; reflexivity. Qed.

(* The example of the specification: [a.png] predicted Mild with confidence
   87 and [b.jpg] predicted No_DR with confidence 99.5. *)
Example classify_images_example :
  fst (classify_images sample_service (start sample_fs))
  = Ok (Some ([("Mild", 1); ("Moderate", 0); ("No_DR", 1);
               ("Proliferate_DR", 0); ("Severe", 0)], 2))
  /\ lookup OUTPUT_DIR (w_fs (snd (classify_images sample_service (start sample_fs))))
     = Some (Dir [("Mild", Dir [("a.png", File (sample_file "mild fundus"))]);
                  ("Moderate", Dir []);
                  ("No_DR", Dir [("b.jpg", File (sample_file "healthy fundus"))]);
                  ("Proliferate_DR", Dir []);
                  ("Severe", Dir [])]).
Proof. split; vm_compute; reflexivity. Qed.

(** ** The monad *)

Lemma bind_ok A B (m : M A) (k : A -> M B) w a w' :
  m w = (Ok a, w') -> bind m k w = k a w'.
Proof. intros H. unfold bind. now rewrite H. Qed.

Lemma bind_raise A B (m : M A) (k : A -> M B) w e w' :
  m w = (Raise e, w') -> bind m k w = (Raise e, w').
Proof. intros H. unfold bind. now rewrite H. Qed.

Lemma bind_inv_ok A B (m : M A) (k : A -> M B) w b w2 :
  bind m k w = (Ok b, w2) ->
  exists a w1, m w = (Ok a, w1) /\ k a w1 = (Ok b, w2).
Proof.
  unfold bind. destruct (m w) as [[a|e] w1]; intros H; [eauto | discriminate].
Qed.

Lemma bind_ext A B (m : M A) (k1 k2 : A -> M B) w :
  (forall a w', k1 a w' = k2 a w') -> bind m k1 w = bind m k2 w.
Proof.
  intros H. unfold bind. destruct (m w) as [[a|e] w']; [apply H | reflexivity].
Qed.

Lemma triple_ret A (a : A) (Q : A -> world -> Prop) E :
  triple (Q a) (ret a) Q E.
Proof. intros w H. exact H. Qed.

Lemma triple_bind A B (m : M A) (k : A -> M B) P R Q E :
  triple P m R E -> (forall a, triple (R a) (k a) Q E) ->
  triple P (bind m k) Q E.
Proof.
  intros Hm Hk w HP. specialize (Hm w HP). unfold bind.
  destruct (m w) as [[a|e] w']; [apply (Hk a w' Hm) | exact Hm].
Qed.

(* The loop rule: an invariant indexed by the items already handled. *)
Lemma triple_for_each A S (body : A -> S -> M S)
      (I : list A -> S -> world -> Prop) (E : exn -> world -> Prop) l :
  (forall done x s, In x l -> triple (I done s) (body x s) (I (done ++ [x])) E) ->
  forall done s, triple (I done s) (for_each body l s) (I (done ++ l)) E.
Proof.
  induction l as [|x t IH]; intros Hbody done s.
  - rewrite app_nil_r. apply triple_ret.
  - cbn [for_each]. eapply triple_bind; [apply Hbody; now left |].
    intros s'. replace (done ++ x :: t) with ((done ++ [x]) ++ t)
      by (now rewrite <- app_assoc).
    apply IH. intros done' y s0 Hy. apply Hbody. now right.
Qed.

(** ** Predicting one image *)

Lemma add_log_app a b w : add_log b (add_log a w) = add_log (a ++ b) w.
Proof. unfold add_log. simpl. now rewrite app_assoc. Qed.

Lemma add_stdout_app a b w : add_stdout b (add_stdout a w) = add_stdout (a ++ b) w.
Proof. unfold add_stdout. simpl. now rewrite app_assoc. Qed.

Lemma predict_some svc p w l c :
  service_answer svc (w_fs w) p = Some (l, c) ->
  predict_image_using_django_service svc p w = (Ok (Some l, Some c), w).
Proof.
  unfold service_answer, predict_image_using_django_service, try_catch, bind,
    open_rb, call_service.
  destruct (lookup p (w_fs w)) as [[f|es]|]; try discriminate.
  destruct (process_image svc (f_bytes f)) as [r|msg]; try discriminate.
  simpl. destruct (get_default (r_success r) false); try discriminate.
  destruct (r_prediction r) as [l'|]; try discriminate.
  destruct (r_confidence r) as [c'|]; try discriminate.
  simpl. intros H. now inversion H.
Qed.

Lemma predict_none svc p w :
  service_answer svc (w_fs w) p = None ->
  exists m, predict_image_using_django_service svc p w
            = (Ok (None, None), add_log [(ERROR, m)] w)
            /\ error_message m = true.
Proof.
  unfold service_answer, predict_image_using_django_service, try_catch, bind,
    open_rb, call_service.
  destruct (lookup p (w_fs w)) as [[f|es]|]; simpl;
    try (intros _; eexists; split; reflexivity).
  destruct (process_image svc (f_bytes f)) as [r|msg]; simpl;
    try (intros _; eexists; split; reflexivity).
  destruct (get_default (r_success r) false); simpl;
    try (intros _; eexists; split; reflexivity).
  destruct (r_prediction r) as [l'|]; simpl;
    try (intros _; eexists; split; reflexivity).
  destruct (r_confidence r) as [c'|]; simpl;
    try (intros _; eexists; split; reflexivity).
  discriminate.
Qed.

(* The answer returned by the function is the answer of the service. *)
Lemma predict_answer svc p w l c :
  fst (predict_image_using_django_service svc p w) = Ok (Some l, Some c) <->
  service_answer svc (w_fs w) p = Some (l, c).
Proof.
  split.
  - destruct (service_answer svc (w_fs w) p) as [[l' c']|] eqn:Ha.
    + rewrite (predict_some _ _ _ _ _ Ha). simpl. intros H. now inversion H.
    + destruct (predict_none _ _ _ Ha) as [m [Hm _]]. rewrite Hm. discriminate.
  - intros Ha. now rewrite (predict_some _ _ _ _ _ Ha).
Qed.

Lemma attempt_fails_answer svc fs p :
  attempt_fails svc fs p <-> service_answer svc fs p = None.
Proof.
  unfold service_answer. split.
  - intros [H | f msg H1 H2 | f r H1 H2 H3 | f r H1 H2 H3].
    + destruct (lookup p fs) as [[f|es]|]; [discriminate | reflexivity..].
    + now rewrite H1, H2.
    + now rewrite H1, H2, H3.
    + rewrite H1, H2. destruct (get_default (r_success r) false); [| reflexivity].
      destruct H3 as [-> | ->]; [reflexivity |].
      now destruct (r_prediction r).
  - destruct (lookup p fs) as [[f|es]|] eqn:Hp;
      try (intros _; apply cannot_open; now rewrite Hp).
    destruct (process_image svc (f_bytes f)) as [r|msg] eqn:Hr;
      [| intros _; now apply service_raises with f msg].
    destruct (get_default (r_success r) false) eqn:Hs;
      [| intros _; now apply reports_failure with f r].
    destruct (r_prediction r) as [l|] eqn:Hl;
      [| intros _; apply key_missing with f r; auto].
    destruct (r_confidence r) as [c|] eqn:Hc;
      [discriminate | intros _; apply key_missing with f r; auto].
Qed.

Lemma classify_one_skip svc p results processed w :
  labelled svc (w_fs w) p = false ->
  exists extra,
    classify_one svc p (results, processed) w
    = (Ok (results, processed),
       add_log ((INFO, MsgProcessing (path_name p)) :: extra
                ++ [(WARNING, MsgFailedToClassify (path_name p))]) w)
    /\ match service_answer svc (w_fs w) p with
       | Some _ => extra = []
       | None => exists m, extra = [(ERROR, m)] /\ error_message m = true
       end.
Proof.
  unfold labelled. intros Hl. unfold classify_one.
  set (w1 := add_log [(INFO, MsgProcessing (path_name p))] w).
  assert (Hfs : w_fs w1 = w_fs w) by reflexivity.
  destruct (service_answer svc (w_fs w) p) as [[l c]|] eqn:Ha.
  - exists []. split; [| reflexivity].
    rewrite <- Hfs in Ha.
    unfold bind at 1. change (logger INFO (MsgProcessing (path_name p)) w)
      with (Ok tt, w1).
    cbv beta iota. unfold bind at 1. rewrite (predict_some _ _ _ _ _ Ha).
    cbv beta iota. rewrite Hl. unfold bind, logger, ret. simpl.
    unfold add_log. simpl. now rewrite <- app_assoc.
  - rewrite <- Hfs in Ha. destruct (predict_none _ _ _ Ha) as [m [Hm Herr]].
    exists [(ERROR, m)]. split; [| now exists m].
    unfold bind at 1. change (logger INFO (MsgProcessing (path_name p)) w)
      with (Ok tt, w1).
    cbv beta iota. unfold bind at 1. rewrite Hm.
    cbv beta iota. unfold bind, logger, ret. simpl.
    unfold add_log. simpl. now rewrite <- !app_assoc.
Qed.

(** C4.  When the prediction attempt on an image fails (the file cannot be
    opened, the service raises, or its result does not report success), the
    loop body logs an error and a warning for that image and ends normally:
    the file system is unchanged, no copy is attempted, the tallies and the
    processed count are unchanged, and the loop goes on with the next
    image. *)
Theorem failed_prediction_is_skipped svc img_path rest results processed w :
  attempt_fails svc (w_fs w) img_path ->
  exists m w',
    classify_one svc img_path (results, processed) w = (Ok (results, processed), w')
    /\ w_fs w' = w_fs w
    /\ w_calls w' = w_calls w
    /\ w_log w' = w_log w ++ [(INFO, MsgProcessing (path_name img_path));
                              (ERROR, m);
                              (WARNING, MsgFailedToClassify (path_name img_path))]
    /\ for_each (classify_one svc) (img_path :: rest) (results, processed) w
       = for_each (classify_one svc) rest (results, processed) w'.
Proof.
  intros Hf. apply attempt_fails_answer in Hf. rename Hf into Ha.
  assert (Hl : labelled svc (w_fs w) img_path = false)
    by (unfold labelled; now rewrite Ha).
  destruct (classify_one_skip svc img_path results processed w Hl)
    as [extra [Hrun Hextra]].
  rewrite Ha in Hextra. destruct Hextra as [m [-> _]].
  eexists m, _. split; [exact Hrun |].
  repeat split.
  cbn [for_each]. erewrite bind_ok; [reflexivity | exact Hrun].
Qed.

Lemma failed_prediction_is_skipped_witness :
  attempt_fails sample_service sample_fs ["colored_images"; "d.bmp"]
  /\ exists w',
       classify_one sample_service ["colored_images"; "d.bmp"] ([("Mild", 1)], 1)
         (start sample_fs)
       = (Ok ([("Mild", 1)], 1), w')
       /\ w_fs w' = sample_fs
       /\ w_calls w' = [].
Proof.
  assert (H : attempt_fails sample_service (w_fs (start sample_fs))
                ["colored_images"; "d.bmp"]).
  { apply reports_failure with (f := sample_file "a cat")
                               (r := failure_result "not a fundus image");
      reflexivity. }
  split; [exact H |].
  destruct (failed_prediction_is_skipped sample_service ["colored_images"; "d.bmp"]
              [] [("Mild", 1)] 1 (start sample_fs) H)
    as (m & w' & Hrun & Hfs & Hcalls & _).
  exists w'. split; [exact Hrun |]. split; [exact Hfs | exact Hcalls].
Defined.

(** ** Association lists *)

Section AssocFacts.
Variable A : Type.
Implicit Types (l : list (string * A)) (k : string) (v : A).

Lemma assoc_upsert_same k v l : assoc k (upsert k v l) = Some v.
Proof.
  induction l as [|[k' v'] t IH]; simpl.
  - now rewrite String.eqb_refl.
  - destruct (String.eqb k k') eqn:E; simpl.
    + now rewrite String.eqb_refl.
    + now rewrite E.
Qed.

Lemma assoc_upsert_other k k' v l :
  k <> k' -> assoc k' (upsert k v l) = assoc k' l.
Proof.
  intros Hne. induction l as [|[k0 v0] t IH]; simpl.
  - apply not_eq_sym in Hne. apply String.eqb_neq in Hne. now rewrite Hne.
  - destruct (String.eqb k k0) eqn:E; simpl.
    + apply String.eqb_eq in E. subst k0.
      apply not_eq_sym in Hne. apply String.eqb_neq in Hne. now rewrite Hne.
    + now rewrite IH.
Qed.

Lemma assoc_remove_key_same k l : assoc k (remove_key k l) = None.
Proof.
  induction l as [|[k' v'] t IH]; simpl; [reflexivity |].
  destruct (String.eqb k k') eqn:E; simpl; [exact IH | now rewrite E].
Qed.

Lemma assoc_remove_key_other k k' l :
  k <> k' -> assoc k' (remove_key k l) = assoc k' l.
Proof.
  intros Hne. induction l as [|[k0 v0] t IH]; simpl; [reflexivity |].
  destruct (String.eqb k k0) eqn:E; simpl.
  - apply String.eqb_eq in E. subst k0.
    apply not_eq_sym in Hne. apply String.eqb_neq in Hne. now rewrite Hne.
  - now rewrite IH.
Qed.

Lemma remove_key_absent k l : assoc k l = None -> remove_key k l = l.
Proof.
  induction l as [|[k' v'] t IH]; simpl; [reflexivity |].
  destruct (String.eqb k k'); [discriminate |].
  intros H. now rewrite IH.
Qed.

Lemma remove_key_idem k l : remove_key k (remove_key k l) = remove_key k l.
Proof. apply remove_key_absent, assoc_remove_key_same. Qed.

Lemma upsert_absent k v l : assoc k l = None -> upsert k v l = l ++ [(k, v)].
Proof.
  induction l as [|[k' v'] t IH]; simpl; [reflexivity |].
  destruct (String.eqb k k'); [discriminate |].
  intros H. now rewrite IH.
Qed.

Lemma assoc_app_absent k k' v l :
  assoc k' (l ++ [(k, v)])
  = match assoc k' l with
    | Some x => Some x
    | None => if String.eqb k' k then Some v else None
    end.
Proof.
  induction l as [|[k0 v0] t IH]; simpl; [reflexivity |].
  destruct (String.eqb k' k0); [reflexivity | exact IH].
Qed.

Lemma upsert_last k v v0 l :
  assoc k l = None -> upsert k v (l ++ [(k, v0)]) = l ++ [(k, v)].
Proof.
  induction l as [|[k' v'] t IH]; simpl.
  - now rewrite String.eqb_refl.
  - destruct (String.eqb k k'); [discriminate |].
    intros H. now rewrite IH.
Qed.

Lemma remove_key_last k v l :
  assoc k l = None -> remove_key k (l ++ [(k, v)]) = l.
Proof.
  induction l as [|[k' v'] t IH]; simpl.
  - now rewrite String.eqb_refl.
  - destruct (String.eqb k k'); [discriminate |].
    intros H. now rewrite IH.
Qed.

Lemma assoc_in_keys k l : assoc k l <> None <-> In k (keys l).
Proof.
  induction l as [|[k' v'] t IH]; simpl.
  - split; [congruence | tauto].
  - destruct (String.eqb k k') eqn:E.
    + apply String.eqb_eq in E. subst. split; [auto | discriminate].
    + apply String.eqb_neq in E. rewrite IH. split; [auto |].
      intros [H | H]; [congruence | exact H].
Qed.

Lemma assoc_absent_keys k l : assoc k l = None <-> ~ In k (keys l).
Proof.
  rewrite <- assoc_in_keys. destruct (assoc k l); split; intros H;
    try congruence; try (intros H'; congruence). exfalso. apply H. discriminate.
Qed.

Lemma keys_upsert_present k v l :
  assoc k l <> None -> keys (upsert k v l) = keys l.
Proof.
  induction l as [|[k' v'] t IH]; simpl; [congruence |].
  destruct (String.eqb k k') eqn:E; simpl.
  - apply String.eqb_eq in E. now subst.
  - intros H. now rewrite IH.
Qed.

Lemma keys_upsert_absent k v l :
  assoc k l = None -> keys (upsert k v l) = keys l ++ [k].
Proof.
  intros H. rewrite (upsert_absent _ v _ H). unfold keys. now rewrite map_app.
Qed.

Lemma NoDup_keys_upsert k v l : NoDup (keys l) -> NoDup (keys (upsert k v l)).
Proof.
  intros Hnd. destruct (assoc k l) eqn:E.
  - rewrite keys_upsert_present by congruence. exact Hnd.
  - rewrite keys_upsert_absent by exact E.
    apply assoc_absent_keys in E.
    apply NoDup_rev in Hnd. rewrite <- (rev_involutive (keys l ++ [k])).
    apply NoDup_rev. rewrite rev_app_distr. simpl. constructor; [| exact Hnd].
    now rewrite <- in_rev.
Qed.

Lemma length_upsert k v l :
  List.length (upsert k v l)
  = match assoc k l with Some _ => List.length l | None => S (List.length l) end.
Proof.
  induction l as [|[k' v'] t IH]; simpl; [reflexivity |].
  destruct (String.eqb k k'); simpl; [reflexivity |].
  rewrite IH. now destruct (assoc k t).
Qed.

Lemma upsert_in k v l e : In e (upsert k v l) -> e = (k, v) \/ In e l.
Proof.
  induction l as [|[k' v'] t IH]; simpl.
  - intros [H | []]. now left.
  - destruct (String.eqb k k'); simpl.
    + intros [H | H]; auto.
    + intros [H | H]; auto. destruct (IH H); auto.
Qed.

Variable B : Type.
Variable g : A -> B.

Lemma assoc_map_vals k l : assoc k (map_vals g l) = option_map g (assoc k l).
Proof.
  induction l as [|[k' v'] t IH]; simpl; [reflexivity |].
  destruct (String.eqb k k'); [reflexivity | exact IH].
Qed.

Lemma upsert_map_vals k v l :
  upsert k (g v) (map_vals g l) = map_vals g (upsert k v l).
Proof.
  induction l as [|[k' v'] t IH]; simpl; [reflexivity |].
  destruct (String.eqb k k'); simpl; [reflexivity | now rewrite IH].
Qed.

Lemma keys_map_vals l : keys (map_vals g l) = keys l.
Proof. unfold keys, map_vals. rewrite map_map. reflexivity. Qed.
End AssocFacts.

(** ** The output directory as the last entry of the script directory *)

Section OutputTree.
Variable others : list (string * node).
Hypothesis others_fresh : assoc "classified_images" others = None.
Implicit Types (classes : list (string * list (string * file))).

Lemma lookup_out q classes :
  lookup ("classified_images" :: q) (root_with others classes)
  = lookup q (out_tree classes).
Proof.
  unfold root_with. cbn [lookup]. rewrite assoc_app_absent, others_fresh.
  reflexivity.
Qed.

Lemma lookup_others s q classes :
  s <> "classified_images" ->
  lookup (s :: q) (root_with others classes) = lookup (s :: q) (Dir others).
Proof.
  intros Hne. unfold root_with. cbn [lookup]. rewrite assoc_app_absent.
  apply String.eqb_neq in Hne. rewrite Hne. now destruct (assoc s others).
Qed.

Lemma lookup_class l classes :
  lookup [l] (out_tree classes)
  = option_map (fun files => Dir (map_vals File files)) (assoc l classes).
Proof.
  unfold out_tree. cbn [lookup]. rewrite assoc_map_vals.
  now destruct (assoc l classes).
Qed.

Lemma lookup_class_file l name classes :
  lookup [l; name] (out_tree classes)
  = match assoc l classes with
    | Some files => option_map File (assoc name files)
    | None => None
    end.
Proof.
  unfold out_tree. cbn [lookup]. rewrite assoc_map_vals.
  destruct (assoc l classes) as [files|]; [| reflexivity].
  cbn [option_map]. rewrite assoc_map_vals. now destruct (assoc name files).
Qed.

Lemma put_class_file l name f files classes :
  assoc l classes = Some files ->
  put ["classified_images"; l; name] (File f) (root_with others classes)
  = Some (root_with others (upsert l (upsert name f files) classes)).
Proof.
  intros Hl. unfold root_with. cbn [put].
  rewrite assoc_app_absent, others_fresh, String.eqb_refl.
  unfold out_tree. cbn [put]. rewrite assoc_map_vals, Hl. cbn [option_map put].
  rewrite (upsert_map_vals _ _ File).
  pose proof (upsert_map_vals _ _ (fun fl => Dir (map_vals File fl))
                l (upsert name f files) classes) as E.
  cbv beta in E. rewrite E. now rewrite upsert_last.
Qed.

Lemma put_class_dir l classes :
  put ["classified_images"; l] (Dir []) (root_with others classes)
  = Some (root_with others (upsert l [] classes)).
Proof.
  unfold root_with. cbn [put].
  rewrite assoc_app_absent, others_fresh, String.eqb_refl.
  unfold out_tree. cbn [put].
  pose proof (upsert_map_vals _ _ (fun fl => Dir (map_vals File fl))
                l [] classes) as E.
  cbv beta in E. change (map_vals File []) with (@nil (string * node)) in E.
  rewrite E. now rewrite upsert_last.
Qed.
End OutputTree.

(** ** [setup_output_directory] *)

Lemma upsert_same_value A k (v : A) l : assoc k l = Some v -> upsert k v l = l.
Proof.
  induction l as [|[k' v'] t IH]; simpl; [discriminate |].
  destruct (String.eqb k k') eqn:E.
  - apply String.eqb_eq in E. subst. intros H. now inversion H.
  - intros H. now rewrite IH.
Qed.

Lemma assoc_const_dict A (v : A) labels k x :
  assoc k (const_dict v labels) = Some x -> x = v.
Proof.
  unfold const_dict.
  assert (G : forall d, (forall y, assoc k d = Some y -> y = v) ->
              assoc k (fold_left (fun d k => upsert k v d) labels d) = Some x -> x = v).
  { induction labels as [|l t IH]; intros d Hd; simpl; [apply Hd |].
    apply IH. intros y. destruct (String.eqb l k) eqn:E.
    - apply String.eqb_eq in E. subst. rewrite assoc_upsert_same. congruence.
    - apply String.eqb_neq in E. rewrite assoc_upsert_other by exact E. apply Hd. }
  apply G. discriminate.
Qed.

Lemma keys_const_dict A (v : A) labels k :
  In k (keys (const_dict v labels)) <-> In k labels.
Proof.
  unfold const_dict.
  assert (G : forall d, In k (keys (fold_left (fun d k => upsert k v d) labels d))
                        <-> In k (keys d) \/ In k labels).
  { induction labels as [|l t IH]; intros d; simpl; [tauto |].
    rewrite IH. rewrite <- !assoc_in_keys.
    destruct (String.eqb l k) eqn:E.
    - apply String.eqb_eq in E. subst. rewrite assoc_upsert_same.
      split; [auto | intros _; left; discriminate].
    - apply String.eqb_neq in E. rewrite assoc_upsert_other by exact E.
      split; [tauto | intros [H | [H | H]]; auto; congruence]. }
  rewrite G. simpl. tauto.
Qed.

Lemma NoDup_keys_const_dict A (v : A) labels : NoDup (keys (const_dict v labels)).
Proof.
  unfold const_dict.
  assert (G : forall d, NoDup (keys d) ->
                        NoDup (keys (fold_left (fun d k => upsert k v d) labels d))).
  { induction labels as [|l t IH]; intros d Hd; simpl; [exact Hd |].
    apply IH. now apply NoDup_keys_upsert. }
  apply G. constructor.
Qed.

Lemma map_vals_const_dict A B (g : A -> B) (v : A) labels :
  map_vals g (const_dict v labels) = const_dict (g v) labels.
Proof.
  unfold const_dict.
  assert (G : forall d, map_vals g (fold_left (fun d k => upsert k v d) labels d)
                        = fold_left (fun d k => upsert k (g v) d) labels (map_vals g d)).
  { induction labels as [|l t IH]; intros d; simpl; [reflexivity |].
    now rewrite IH, upsert_map_vals. }
  apply G.
Qed.

Section SetupFacts.
Variable others : list (string * node).
Hypothesis others_fresh : assoc "classified_images" others = None.

Lemma mkdir_class l classes fs calls log out :
  (forall files, assoc l classes = Some files -> files = []) ->
  fs = root_with others classes ->
  mkdir_exist_ok (path_join OUTPUT_DIR l)
    {| w_fs := fs; w_calls := calls; w_log := log; w_stdout := out |}
  = (Ok tt, {| w_fs := root_with others (upsert l [] classes);
               w_calls := calls ++ [Mkdir (path_join OUTPUT_DIR l)];
               w_log := log; w_stdout := out |}).
Proof.
  intros Hempty ->. unfold mkdir_exist_ok, bind, record_call, create, set_fs.
  cbn [w_fs w_calls w_log w_stdout path_join OUTPUT_DIR app path_parent removelast].
  rewrite (lookup_out others others_fresh), lookup_class.
  destruct (assoc l classes) as [files|] eqn:Hl; cbn [option_map].
  - rewrite (Hempty files eq_refl) in Hl.
    now rewrite (upsert_same_value _ _ _ _ Hl).
  - rewrite (lookup_out others others_fresh). unfold out_tree at 1.
    cbn [lookup]. now rewrite (put_class_dir others others_fresh).
Qed.

Lemma mkdir_classes labels : forall classes fs calls log out,
  (forall l files, assoc l classes = Some files -> files = []) ->
  fs = root_with others classes ->
  for_in (fun class_name => mkdir_exist_ok (path_join OUTPUT_DIR class_name)) labels
    {| w_fs := fs; w_calls := calls; w_log := log; w_stdout := out |}
  = (Ok tt, {| w_fs := root_with others
                         (fold_left (fun d k => upsert k [] d) labels classes);
               w_calls := calls ++ map (fun l => Mkdir (path_join OUTPUT_DIR l)) labels;
               w_log := log; w_stdout := out |}).
Proof.
  induction labels as [|l t IH]; intros classes fs calls log out Hempty Hfs.
  - simpl. unfold ret. now rewrite app_nil_r, Hfs.
  - cbn [for_in]. erewrite bind_ok
      by (apply mkdir_class; [apply Hempty | exact Hfs]).
    rewrite (IH (upsert l [] classes)); [| | reflexivity].
    + simpl. now rewrite <- app_assoc.
    + intros l' files. destruct (String.eqb l l') eqn:E.
      * apply String.eqb_eq in E. subst. rewrite assoc_upsert_same. congruence.
      * apply String.eqb_neq in E. rewrite assoc_upsert_other by exact E.
        apply Hempty.
Qed.
End SetupFacts.

Lemma rmtree_out es sub calls log out :
  assoc "classified_images" es = Some (Dir sub) ->
  rmtree OUTPUT_DIR {| w_fs := Dir es; w_calls := calls; w_log := log; w_stdout := out |}
  = (Ok tt, {| w_fs := Dir (remove_key "classified_images" es);
               w_calls := calls ++ [Rmtree OUTPUT_DIR];
               w_log := log; w_stdout := out |}).
Proof.
  intros Hout.
  cbv [bind rmtree record_call set_fs OUTPUT_DIR w_fs w_calls w_log w_stdout
       lookup unlink].
  now rewrite Hout.
Qed.

Lemma rmtree_out_file es f calls log out :
  assoc "classified_images" es = Some (File f) ->
  rmtree OUTPUT_DIR {| w_fs := Dir es; w_calls := calls; w_log := log; w_stdout := out |}
  = (Raise (NotADirectoryError OUTPUT_DIR),
     {| w_fs := Dir es; w_calls := calls ++ [Rmtree OUTPUT_DIR];
        w_log := log; w_stdout := out |}).
Proof.
  intros Hout.
  cbv [bind rmtree record_call set_fs OUTPUT_DIR w_fs w_calls w_log w_stdout
       lookup unlink].
  now rewrite Hout.
Qed.

Lemma mkdir_out es calls log out :
  assoc "classified_images" es = None ->
  mkdir_exist_ok OUTPUT_DIR
    {| w_fs := Dir es; w_calls := calls; w_log := log; w_stdout := out |}
  = (Ok tt, {| w_fs := root_with es [];
               w_calls := calls ++ [Mkdir OUTPUT_DIR];
               w_log := log; w_stdout := out |}).
Proof.
  intros Hout.
  cbv [bind mkdir_exist_ok record_call create set_fs OUTPUT_DIR
       w_fs w_calls w_log w_stdout lookup put path_parent removelast].
  rewrite Hout. rewrite upsert_absent by exact Hout. reflexivity.
Qed.

(* When the script directory is a directory and [classified_images] is not
   a file in it, the set-up ends normally and leaves an output directory
   with one empty folder per label, as the last entry of the script
   directory. *)
Lemma setup_ok svc es calls log out :
  is_file (assoc "classified_images" es) = false ->
  setup_output_directory svc
    {| w_fs := Dir es; w_calls := calls; w_log := log; w_stdout := out |}
  = (Ok tt,
     {| w_fs := root_with (remove_key "classified_images" es)
                          (const_dict [] (class_labels svc));
        w_calls := calls ++ setup_calls (is_some (assoc "classified_images" es))
                                        (class_labels svc);
        w_log := log ++ [(INFO, MsgCreatedOutput OUTPUT_DIR);
                         (INFO, MsgClassLabels (class_labels svc))];
        w_stdout := out |}).
Proof.
  intros Hnf. unfold setup_output_directory.
  pose proof (assoc_remove_key_same _ "classified_images" es) as Hfresh.
  erewrite bind_ok by reflexivity. cbn [w_fs OUTPUT_DIR lookup].
  destruct (assoc "classified_images" es) as [[f|sub]|] eqn:Hout;
    [discriminate | |]; cbn [is_some].
  - erewrite bind_ok by (eapply rmtree_out; exact Hout).
    erewrite bind_ok by (apply mkdir_out; exact Hfresh).
    erewrite bind_ok
      by (apply (mkdir_classes _ Hfresh (class_labels svc) []);
          [discriminate | reflexivity]).
    unfold bind, logger, setup_calls, const_dict.
    cbn [w_fs w_calls w_log w_stdout].
    now rewrite <- !app_assoc.
  - erewrite bind_ok by reflexivity.
    erewrite bind_ok by (apply mkdir_out; exact Hout).
    rewrite <- (remove_key_absent _ _ _ Hout) at 1.
    erewrite bind_ok
      by (apply (mkdir_classes _ Hfresh (class_labels svc) []);
          [discriminate | reflexivity]).
    unfold bind, logger, setup_calls, const_dict.
    cbn [w_fs w_calls w_log w_stdout].
    now rewrite <- !app_assoc.
Qed.

(** ** One iteration of the loop, with the output directory in place *)

Lemma path_join_name p name : path_name (path_join p name) = name.
Proof.
  unfold path_name, path_join. induction p as [|a t IH]; [reflexivity |].
  simpl. destruct (t ++ [name]) eqn:E; [now destruct t | exact IH].
Qed.

Lemma path_join_parent p name : path_parent (path_join p name) = p.
Proof. unfold path_parent, path_join. apply removelast_last. Qed.

Lemma service_answer_file svc fs p a :
  service_answer svc fs p = Some a -> exists f, lookup p fs = Some (File f).
Proof.
  unfold service_answer. destruct (lookup p fs) as [[f|es]|]; try discriminate.
  intros _. now exists f.
Qed.

Section LoopStep.
Variable svc : service.
Variable others : list (string * node).
Hypothesis others_fresh : assoc "classified_images" others = None.

Lemma copy2_into_class s q l name f files classes calls log out :
  s <> "classified_images" ->
  lookup (s :: q) (Dir others) = Some (File f) ->
  assoc l classes = Some files ->
  copy2 (s :: q) (path_join (path_join OUTPUT_DIR l) name)
    {| w_fs := root_with others classes; w_calls := calls;
       w_log := log; w_stdout := out |}
  = (Ok tt,
     {| w_fs := root_with others (upsert l (upsert name f files) classes);
        w_calls := calls ++ [Copy2 (s :: q) (path_join (path_join OUTPUT_DIR l) name)];
        w_log := log; w_stdout := out |}).
Proof.
  intros Hs Hsrc Hl. unfold copy2. erewrite bind_ok by reflexivity.
  cbn [w_fs w_calls w_log w_stdout].
  rewrite (lookup_others others s q classes Hs), Hsrc.
  assert (Hdst : lookup (path_join (path_join OUTPUT_DIR l) name)
                   (root_with others classes)
                 = option_map File (assoc name files)).
  { cbn [path_join OUTPUT_DIR app].
    now rewrite (lookup_out others others_fresh), lookup_class_file, Hl. }
  rewrite Hdst.
  replace (is_dir (option_map File (assoc name files))) with false
    by (now destruct (assoc name files)).
  replace (path_eqb (s :: q) (path_join (path_join OUTPUT_DIR l) name)) with false
    by (cbn [path_join OUTPUT_DIR app path_eqb];
        apply String.eqb_neq in Hs; now rewrite Hs).
  rewrite Hdst.
  replace (is_dir (option_map File (assoc name files))) with false
    by (now destruct (assoc name files)).
  unfold create, set_fs. rewrite path_join_parent.
  cbn [w_fs w_calls w_log w_stdout path_join OUTPUT_DIR app].
  rewrite (lookup_out others others_fresh), lookup_class, Hl. cbn [option_map].
  now rewrite (put_class_file others others_fresh l name f files classes Hl).
Qed.

Lemma copy2_unknown_class s q l name f classes calls log out :
  s <> "classified_images" ->
  lookup (s :: q) (Dir others) = Some (File f) ->
  assoc l classes = None ->
  copy2 (s :: q) (path_join (path_join OUTPUT_DIR l) name)
    {| w_fs := root_with others classes; w_calls := calls;
       w_log := log; w_stdout := out |}
  = (Raise (FileNotFoundError (path_join (path_join OUTPUT_DIR l) name)),
     {| w_fs := root_with others classes;
        w_calls := calls ++ [Copy2 (s :: q) (path_join (path_join OUTPUT_DIR l) name)];
        w_log := log; w_stdout := out |}).
Proof.
  intros Hs Hsrc Hl. unfold copy2. erewrite bind_ok by reflexivity.
  cbn [w_fs w_calls w_log w_stdout].
  rewrite (lookup_others others s q classes Hs), Hsrc.
  assert (Hdst : lookup (path_join (path_join OUTPUT_DIR l) name)
                   (root_with others classes) = None).
  { cbn [path_join OUTPUT_DIR app].
    now rewrite (lookup_out others others_fresh), lookup_class_file, Hl. }
  rewrite Hdst. cbn [is_dir].
  replace (path_eqb (s :: q) (path_join (path_join OUTPUT_DIR l) name)) with false
    by (cbn [path_join OUTPUT_DIR app path_eqb];
        apply String.eqb_neq in Hs; now rewrite Hs).
  rewrite Hdst. cbn [is_dir].
  unfold create. rewrite path_join_parent.
  cbn [w_fs w_calls w_log w_stdout path_join OUTPUT_DIR app].
  now rewrite (lookup_out others others_fresh), lookup_class, Hl.
Qed.

(* The success branch, when the predicted label has a folder: the copy is
   made, then the tally is looked up. *)
Lemma classify_one_copies s q l conf f files classes results processed
      calls log out :
  s <> "classified_images" ->
  service_answer svc (root_with others classes) (s :: q) = Some (l, conf) ->
  truthy l = true ->
  lookup (s :: q) (Dir others) = Some (File f) ->
  assoc l classes = Some files ->
  classify_one svc (s :: q) (results, processed)
    {| w_fs := root_with others classes; w_calls := calls;
       w_log := log; w_stdout := out |}
  = let fs' := root_with others
                 (upsert l (upsert (path_name (s :: q)) f files) classes) in
    let calls' := calls ++ [Copy2 (s :: q)
                              (path_join (path_join OUTPUT_DIR l) (path_name (s :: q)))] in
    match assoc l results with
    | Some n =>
        (Ok (upsert l (n + 1) results, processed + 1),
         {| w_fs := fs'; w_calls := calls';
            w_log := log ++ [(INFO, MsgProcessing (path_name (s :: q)));
                             (INFO, MsgClassifiedAs l conf)];
            w_stdout := out |})
    | None =>
        (Raise (KeyError l),
         {| w_fs := fs'; w_calls := calls';
            w_log := log ++ [(INFO, MsgProcessing (path_name (s :: q)))];
            w_stdout := out |})
    end.
Proof.
  intros Hs Ha Ht Hsrc Hl. unfold classify_one.
  erewrite bind_ok by reflexivity.
  erewrite bind_ok by (apply predict_some; exact Ha).
  cbv beta iota. rewrite Ht.
  erewrite bind_ok by (apply copy2_into_class; eassumption).
  destruct (assoc l results) as [n|]; unfold getitem, format_percent.
  - erewrite bind_ok by reflexivity. erewrite bind_ok by reflexivity.
    unfold bind, logger, ret. cbn [w_fs w_calls w_log w_stdout].
    now rewrite <- app_assoc.
  - reflexivity.
Qed.

(* The success branch, when the predicted label has no folder. *)
Lemma classify_one_unknown s q l conf classes results processed calls log out :
  s <> "classified_images" ->
  service_answer svc (root_with others classes) (s :: q) = Some (l, conf) ->
  truthy l = true ->
  assoc l classes = None ->
  classify_one svc (s :: q) (results, processed)
    {| w_fs := root_with others classes; w_calls := calls;
       w_log := log; w_stdout := out |}
  = (Raise (FileNotFoundError
              (path_join (path_join OUTPUT_DIR l) (path_name (s :: q)))),
     {| w_fs := root_with others classes;
        w_calls := calls ++ [Copy2 (s :: q)
                               (path_join (path_join OUTPUT_DIR l) (path_name (s :: q)))];
        w_log := log ++ [(INFO, MsgProcessing (path_name (s :: q)))];
        w_stdout := out |}).
Proof.
  intros Hs Ha Ht Hl. unfold classify_one.
  destruct (service_answer_file _ _ _ _ Ha) as [f Hf].
  rewrite (lookup_others others s q classes Hs) in Hf.
  erewrite bind_ok by reflexivity.
  erewrite bind_ok by (apply predict_some; exact Ha).
  cbv beta iota. rewrite Ht.
  erewrite bind_raise by (eapply copy2_unknown_class; eassumption).
  reflexivity.
Qed.
End LoopStep.

(** ** Finding the images *)

Lemma node_induction (P : node -> Prop) :
  (forall f, P (File f)) ->
  (forall es, Forall (fun e => P (snd e)) es -> P (Dir es)) ->
  forall n, P n.
Proof.
  intros Hfile Hdir. fix IH 1. intros [f|es].
  - apply Hfile.
  - apply Hdir. induction es as [|e t IHt]; constructor.
    + apply IH.
    + exact IHt.
Qed.

Lemma walk_dir_unfold root es :
  walk_dir root (Dir es)
  = (root, dirnames es, filenames es)
      :: flat_map (fun e => walk_dir (path_join root (fst e)) (snd e)) es.
Proof.
  cbn [walk_dir]. f_equal.
  induction es as [|[name child] t IH]; [reflexivity |].
  cbn [flat_map fst snd]. now rewrite <- IH.
Qed.

Lemma in_filenames name es :
  In name (filenames es) -> exists f, In (name, File f) es.
Proof.
  unfold filenames, keys. rewrite in_map_iff. intros [[k n] [Hk Hin]].
  simpl in Hk. subst k. apply filter_In in Hin. destruct Hin as [Hin Hf].
  destruct n as [f|sub]; [now exists f | discriminate].
Qed.

(* Every path listed by the search is a file of the tree, below the top
   directory, whose name passes the extension test. *)
Lemma walk_finds_files n : forall root p,
  In p (flat_map
          (fun t : path * list string * list string =>
             let '(r, _, files) := t in
             map (path_join r) (filter is_image_name files))
          (walk_dir root n)) ->
  exists q f, p = root ++ q /\ q <> [] /\ file_at q n f
              /\ is_image_name (path_name p) = true.
Proof.
  induction n as [f|es IH] using node_induction; intros root p.
  - simpl. tauto.
  - rewrite walk_dir_unfold. cbn [flat_map]. rewrite in_app_iff.
    intros [Hhere | Hbelow].
    + apply in_map_iff in Hhere. destruct Hhere as [name [<- Hin]].
      apply filter_In in Hin. destruct Hin as [Hin Himg].
      apply in_filenames in Hin. destruct Hin as [f Hf].
      exists [name], f. repeat split.
      * discriminate.
      * econstructor; [exact Hf | constructor].
      * now rewrite path_join_name.
    + apply in_flat_map in Hbelow. destruct Hbelow as [t [Ht Hp]].
      apply in_flat_map in Ht. destruct Ht as [[name child] [He Ht]].
      rewrite Forall_forall in IH. specialize (IH _ He). cbn [fst snd] in *.
      destruct (IH (path_join root name) p) as [q [f [Hq [Hne [Hat Himg]]]]].
      { apply in_flat_map. now exists t. }
      exists (name :: q), f. repeat split.
      * rewrite Hq. unfold path_join. now rewrite <- app_assoc.
      * discriminate.
      * econstructor; eassumption.
      * exact Himg.
Qed.

Lemma found_image p fs :
  In p (find_image_files_in SOURCE_DIR fs) ->
  exists n q f, lookup SOURCE_DIR fs = Some n /\ p = SOURCE_DIR ++ q /\ q <> []
                /\ file_at q n f /\ is_image_name (path_name p) = true.
Proof.
  unfold find_image_files_in, os_walk.
  destruct (lookup SOURCE_DIR fs) as [n|]; [| simpl; tauto].
  intros H. apply walk_finds_files in H.
  destruct H as [q [f H]]. exists n, q, f. tauto.
Qed.

Lemma found_image_head p fs :
  In p (find_image_files_in SOURCE_DIR fs) -> exists q, p = "colored_images" :: q.
Proof.
  intros H. apply found_image in H. destruct H as [n [q [f [_ [-> _]]]]].
  now exists q.
Qed.

(** ** Tallies and counts *)

Lemma sum_tally_upsert l n results :
  assoc l results = Some n ->
  sum_tally (upsert l (n + 1) results) = sum_tally results + 1.
Proof.
  induction results as [|[k v] t IH]; simpl; [discriminate |].
  destruct (String.eqb l k); simpl.
  - intros H. inversion H. lia.
  - intros H. rewrite (IH H). lia.
Qed.

Lemma sum_tally_const_zero labels : sum_tally (const_dict 0 labels) = 0.
Proof.
  assert (G : forall d : list (string * nat),
             (forall k x, assoc k d = Some x -> x = 0) -> NoDup (keys d) ->
             sum_tally d = 0).
  { induction d as [|[k v] t IH]; intros Hd Hnd; [reflexivity |].
    simpl. inversion Hnd as [|? ? Hk Ht]; subst.
    assert (v = 0) as -> by (apply (Hd k); simpl; now rewrite String.eqb_refl).
    rewrite IH; [reflexivity | | exact Ht].
    intros k' x Hx. apply (Hd k'). simpl.
    destruct (String.eqb k' k) eqn:E; [| exact Hx].
    apply String.eqb_eq in E. subst k'. exfalso. apply Hk.
    apply assoc_in_keys. congruence. }
  apply G.
  - intros k x. apply assoc_const_dict.
  - apply NoDup_keys_const_dict.
Qed.

Lemma count_where_snoc A (f : A -> bool) done x :
  count_where f (done ++ [x]) = count_where f done + (if f x then 1 else 0).
Proof.
  unfold count_where. rewrite filter_app, length_app. simpl.
  now destruct (f x).
Qed.

(** ** The loop of [classify_images] *)

Lemma assoc_same_keys A B k (l1 : list (string * A)) (l2 : list (string * B)) :
  keys l1 = keys l2 -> assoc k l1 <> None -> assoc k l2 <> None.
Proof.
  intros Hk. rewrite !assoc_in_keys. now rewrite Hk.
Qed.

Section Loop.
Variable svc : service.
Variable others : list (string * node).
Hypothesis others_fresh : assoc "classified_images" others = None.

Lemma service_answer_others s q classes :
  s <> "classified_images" ->
  service_answer svc (root_with others classes) (s :: q)
  = service_answer svc (Dir others) (s :: q).
Proof.
  intros Hs. unfold service_answer. now rewrite (lookup_others others s q classes Hs).
Qed.

Lemma labelled_others s q classes :
  s <> "classified_images" ->
  labelled svc (root_with others classes) (s :: q)
  = labelled svc (Dir others) (s :: q).
Proof.
  intros Hs. unfold labelled. now rewrite service_answer_others.
Qed.

Lemma classify_one_keeps_inv done q st :
  triple (loop_inv svc others done st)
         (classify_one svc ("colored_images" :: q) st)
         (loop_inv svc others (done ++ ["colored_images" :: q]))
         (fun _ _ => True).
Proof.
  destruct st as [results processed].
  intros [fs calls log out] [classes (Hfs & Hkc & Hkr & Hsum & Hcnt & Hcl)].
  cbn [w_fs fst snd] in *. subst fs.
  assert (Hs : "colored_images" <> "classified_images") by discriminate.
  set (x := "colored_images" :: q) in *.
  pose proof (labelled_others "colored_images" q classes Hs) as Hlab. fold x in Hlab.
  destruct (labelled svc (Dir others) x) eqn:Hlx.
  - (* the service gave a label *)
    assert (Ha := Hlab). unfold labelled in Ha.
    destruct (service_answer svc (root_with others classes) x) as [[l conf]|] eqn:Hans;
      [| discriminate].
    destruct (service_answer_file _ _ _ _ Hans) as [f Hf].
    unfold x in Hf. rewrite (lookup_others others _ q classes Hs) in Hf.
    destruct (assoc l classes) as [files|] eqn:Hl.
    + unfold x. rewrite (classify_one_copies svc others others_fresh
                 "colored_images" q l conf f files classes results processed
                 calls log out Hs Hans Ha Hf Hl).
      cbv zeta. fold x.
      destruct (assoc l results) as [n|] eqn:Hn; [| exact I].
      exists (upsert l (upsert (path_name x) f files) classes).
      cbn [w_fs fst snd]. repeat split.
      * rewrite keys_upsert_present by congruence. exact Hkc.
      * rewrite keys_upsert_present by congruence. exact Hkr.
      * rewrite (sum_tally_upsert _ _ _ Hn). now rewrite Hsum.
      * rewrite count_where_snoc, Hlx. now rewrite Hcnt.
      * destruct (String.eqb l l0) eqn:E.
        -- apply String.eqb_eq in E. subst l0.
           rewrite assoc_upsert_same in H. inversion H. subst files0.
           apply NoDup_keys_upsert. now apply (Hcl l files).
        -- apply String.eqb_neq in E. rewrite assoc_upsert_other in H by exact E.
           now apply (Hcl l0 files0).
      * intros name Hname. destruct (String.eqb l l0) eqn:E.
        -- apply String.eqb_eq in E. subst l0.
           rewrite assoc_upsert_same in H. inversion H. subst files0.
           unfold keys in Hname. apply in_map_iff in Hname.
           destruct Hname as [e [He Hin]]. apply upsert_in in Hin.
           destruct Hin as [-> | Hin].
           ++ exists x. split; [apply in_or_app; right; now left | exact He].
           ++ destruct (Hcl l files Hl) as (_ & Hnames & _).
              destruct (Hnames name) as [img [Hi Hn']].
              { unfold keys. apply in_map_iff. now exists e. }
              exists img. split; [apply in_or_app; now left | exact Hn'].
        -- apply String.eqb_neq in E. rewrite assoc_upsert_other in H by exact E.
           destruct (Hcl l0 files0 H) as (_ & Hnames & _).
           destruct (Hnames name Hname) as [img [Hi Hn']].
           exists img. split; [apply in_or_app; now left | exact Hn'].
      * destruct (String.eqb l l0) eqn:E.
        -- apply String.eqb_eq in E. subst l0.
           rewrite assoc_upsert_same in H. inversion H. subst files0.
           exists (n + 1). rewrite assoc_upsert_same. split; [reflexivity |].
           destruct (Hcl l files Hl) as (_ & _ & n' & Hn' & Hle).
           rewrite Hn in Hn'. inversion Hn'. subst n'.
           rewrite length_upsert. destruct (assoc (path_name x) files); lia.
        -- apply String.eqb_neq in E. rewrite assoc_upsert_other in H by exact E.
           destruct (Hcl l0 files0 H) as (_ & _ & n' & Hn' & Hle).
           exists n'. now rewrite assoc_upsert_other by exact E.
    + unfold x. now rewrite (classify_one_unknown svc others others_fresh
                 "colored_images" q l conf classes results processed
                 calls log out Hs Hans Ha Hl).
  - (* no label: the image is skipped *)
    destruct (classify_one_skip svc x results processed
                {| w_fs := root_with others classes; w_calls := calls;
                   w_log := log; w_stdout := out |} Hlab) as [extra [Hrun _]].
    rewrite Hrun. exists classes. cbn [w_fs add_log fst snd]. repeat split; auto.
    + rewrite count_where_snoc, Hlx, Nat.add_0_r. exact Hcnt.
    + now apply (Hcl l files).
    + destruct (Hcl l files H) as (_ & Hnames & _).
      intros name Hname. destruct (Hnames name Hname) as [img [Hi Hn']].
      exists img. split; [apply in_or_app; now left | exact Hn'].
    + now apply (Hcl l files).
Qed.
End Loop.

Section LoopRun.
Variable svc : service.
Variable others : list (string * node).
Hypothesis others_fresh : assoc "classified_images" others = None.
Variable images : list path.
Hypothesis images_in_source :
  forall x, In x images -> exists q, x = "colored_images" :: q.

Lemma loop_keeps_inv done st :
  triple (loop_inv svc others done st)
         (for_each (classify_one svc) images st)
         (loop_inv svc others (done ++ images))
         (fun _ _ => True).
Proof.
  apply triple_for_each. intros done' x st' Hx.
  destruct (images_in_source x Hx) as [q ->].
  now apply classify_one_keeps_inv.
Qed.

Lemma classify_one_keeps_frame calls0 log0 q st :
  triple (loop_frame svc others calls0 log0)
         (classify_one svc ("colored_images" :: q) st)
         (fun _ => loop_frame svc others calls0 log0)
         (fun _ => loop_frame svc others calls0 log0).
Proof.
  destruct st as [results processed].
  intros [fs calls log out] [[classes [Hfs [Hk Hnd]]] [[cs [Hcalls Hcs]] Hlog]].
  cbn [w_fs w_calls w_log] in *. subst fs calls.
  assert (Hs : "colored_images" <> "classified_images") by discriminate.
  set (x := "colored_images" :: q) in *.
  destruct (labelled svc (root_with others classes) x) eqn:Hlab.
  - assert (Ha := Hlab). unfold labelled in Ha.
    destruct (service_answer svc (root_with others classes) x) as [[l conf]|] eqn:Hans;
      [| discriminate].
    destruct (service_answer_file _ _ _ _ Hans) as [f Hf].
    unfold x in Hf. rewrite (lookup_others others _ q classes Hs) in Hf.
    assert (Hcopy : Forall copy_by_base_name
                      (cs ++ [Copy2 x (path_join (path_join OUTPUT_DIR l) (path_name x))])).
    { apply Forall_app. split; [exact Hcs |]. constructor; [| constructor].
      now exists l. }
    assert (Hlog1 : forall lv l' c,
               In (lv, MsgClassifiedAs l' c)
                  (log ++ [(INFO, MsgProcessing (path_name x))]) ->
               In (lv, MsgClassifiedAs l' c) log0
               \/ exists y, service_answer svc (Dir others) y = Some (l', c)).
    { intros lv l' c Hin. apply in_app_or in Hin.
      destruct Hin as [Hin | [Hin | []]]; [now apply Hlog | discriminate]. }
    assert (Hlog2 : forall lv l' c,
               In (lv, MsgClassifiedAs l' c)
                  (log ++ [(INFO, MsgProcessing (path_name x));
                           (INFO, MsgClassifiedAs l conf)]) ->
               In (lv, MsgClassifiedAs l' c) log0
               \/ exists y, service_answer svc (Dir others) y = Some (l', c)).
    { intros lv l' c Hin. apply in_app_or in Hin.
      destruct Hin as [Hin | [Hin | [Hin | []]]];
        [now apply Hlog | discriminate |].
      inversion Hin. subst lv l' c. right. exists x. unfold x.
      rewrite <- (service_answer_others svc others "colored_images" q classes Hs).
      exact Hans. }
    destruct (assoc l classes) as [files|] eqn:Hl.
    + unfold x. rewrite (classify_one_copies svc others others_fresh
                 "colored_images" q l conf f files classes results processed
                 (calls0 ++ cs) log out Hs Hans Ha Hf Hl).
      cbv zeta. fold x.
      assert (Hk' : keys (upsert l (upsert (path_name x) f files) classes)
                    = keys (zero_tally (class_labels svc)))
        by (rewrite keys_upsert_present by congruence; exact Hk).
      assert (Hnd' : forall l0 files0,
                 assoc l0 (upsert l (upsert (path_name x) f files) classes)
                 = Some files0 ->
                 NoDup (keys files0)).
      { intros l0 files0. destruct (String.eqb l l0) eqn:E.
        - apply String.eqb_eq in E. subst l0. rewrite assoc_upsert_same.
          intros H. inversion H. apply NoDup_keys_upsert. now apply (Hnd l).
        - apply String.eqb_neq in E. rewrite assoc_upsert_other by exact E.
          apply Hnd. }
      destruct (assoc l results) as [n|];
        (split; [eexists; split; [reflexivity | split; [exact Hk' | exact Hnd']] |]);
        cbn [w_calls w_log];
        (split; [eexists; (split; [now rewrite <- app_assoc | exact Hcopy]) |]);
        [exact Hlog2 | exact Hlog1].
    + unfold x. rewrite (classify_one_unknown svc others others_fresh
                 "colored_images" q l conf classes results processed
                 (calls0 ++ cs) log out Hs Hans Ha Hl).
      split; [eexists; split; [reflexivity | split; [exact Hk | exact Hnd]] |].
      cbn [w_calls w_log].
      split; [eexists; split; [now rewrite <- app_assoc | exact Hcopy] | exact Hlog1].
  - destruct (classify_one_skip svc x results processed
                {| w_fs := root_with others classes; w_calls := calls0 ++ cs;
                   w_log := log; w_stdout := out |} Hlab) as [extra [Hrun Hextra]].
    rewrite Hrun.
    split; [eexists; split; [reflexivity | split; [exact Hk | exact Hnd]] |].
    split; [exists cs; now split |].
    cbn [w_log add_log]. intros lv l c Hin. apply in_app_or in Hin.
    destruct Hin as [Hin | [Hin | Hin]]; [now apply Hlog | discriminate |].
    apply in_app_or in Hin. destruct Hin as [Hin | [Hin | []]]; [| discriminate].
    exfalso. destruct (service_answer svc _ x); [now subst extra |].
    destruct Hextra as [m [-> Hm]]. destruct Hin as [Hin | []].
    inversion Hin. subst m. discriminate.
Qed.

Lemma loop_keeps_frame calls0 log0 st :
  triple (loop_frame svc others calls0 log0)
         (for_each (classify_one svc) images st)
         (fun _ => loop_frame svc others calls0 log0)
         (fun _ => loop_frame svc others calls0 log0).
Proof.
  refine (triple_for_each _ _ (classify_one svc)
            (fun _ _ => loop_frame svc others calls0 log0) _ images _ [] st).
  intros done' x st' Hx. destruct (images_in_source x Hx) as [q ->].
  apply classify_one_keeps_frame.
Qed.
End LoopRun.

(** ** The run of [classify_images] *)

Lemma for_in_logger A (f : A -> message) l w :
  for_in (fun item => logger INFO (f item)) l w
  = (Ok tt, add_log (map (fun item => (INFO, f item)) l) w).
Proof.
  revert w. induction l as [|x t IH]; intros w.
  - unfold add_log. simpl. rewrite app_nil_r. now destruct w.
  - cbn [for_in]. unfold bind.
    change (logger INFO (f x) w) with (Ok tt, add_log [(INFO, f x)] w).
    cbv beta iota. rewrite IH. now rewrite add_log_app.
Qed.

Lemma run_source_missing svc w :
  lookup SOURCE_DIR (w_fs w) = None ->
  classify_images svc w = (Ok None, add_log source_missing_log w).
Proof.
  intros H. unfold classify_images, bind, logger, path_exists, ret, add_log.
  cbn [w_fs w_calls w_log w_stdout]. rewrite H. cbn [is_some negb].
  cbn [w_fs w_calls w_log w_stdout]. unfold source_missing_log.
  now rewrite <- !app_assoc.
Qed.

Lemma run_no_images svc w :
  lookup SOURCE_DIR (w_fs w) <> None ->
  find_image_files_in SOURCE_DIR (w_fs w) = [] ->
  classify_images svc w = (Ok None, add_log no_images_log w).
Proof.
  intros H Hnone.
  unfold classify_images, bind, logger, path_exists, find_image_files, ret, add_log.
  cbn [w_fs w_calls w_log w_stdout].
  destruct (lookup SOURCE_DIR (w_fs w)); [| congruence]. cbn [is_some negb].
  cbn [w_fs w_calls w_log w_stdout]. rewrite Hnone.
  cbn [w_fs w_calls w_log w_stdout]. unfold no_images_log.
  now rewrite <- !app_assoc.
Qed.

Lemma images_need_source fs :
  find_image_files_in SOURCE_DIR fs <> [] ->
  exists es n, fs = Dir es /\ assoc "colored_images" es = Some n.
Proof.
  unfold find_image_files_in, os_walk, SOURCE_DIR. cbn [lookup].
  destruct fs as [f|es]; [simpl; congruence |].
  destruct (assoc "colored_images" es) as [n|] eqn:E; [| simpl; congruence].
  intros _. now exists es, n.
Qed.

(* With at least one image found, the run is the set-up, the loop and the
   summary. *)
Lemma run_main svc w :
  find_image_files_in SOURCE_DIR (w_fs w) <> [] ->
  classify_images svc w
  = (setup_output_directory svc ;;
     st <- for_each (classify_one svc) (find_image_files_in SOURCE_DIR (w_fs w))
             (zero_tally (class_labels svc), 0) ;;
     fun w' => (Ok (Some st), add_log (summary_log st) w'))
      (add_log (found_log (List.length (find_image_files_in SOURCE_DIR (w_fs w)))) w).
Proof.
  intros Hne. destruct (images_need_source _ Hne) as [es [n [Hfs Hsrc]]].
  destruct w as [fs calls log out]. cbn [w_fs] in *. subst fs.
  unfold classify_images.
  erewrite bind_ok by reflexivity. erewrite bind_ok by reflexivity.
  erewrite bind_ok by reflexivity.
  cbn [w_fs w_calls w_log w_stdout]. unfold SOURCE_DIR at 1. cbn [lookup].
  rewrite Hsrc. cbn [is_some negb].
  erewrite bind_ok by reflexivity. cbn [w_fs w_calls w_log w_stdout].
  destruct (find_image_files_in SOURCE_DIR (Dir es)) as [|x t] eqn:Himgs;
    [congruence |].
  erewrite bind_ok by reflexivity.
  unfold add_log. cbn [w_fs w_calls w_log w_stdout].
  rewrite <- !app_assoc. cbn [app].
  set (w0 := {| w_fs := Dir es; w_calls := calls;
                w_log := log ++ _; w_stdout := out |}).
  apply bind_ext. intros [] w1. apply bind_ext. intros st w2.
  erewrite bind_ok by reflexivity. erewrite bind_ok by reflexivity.
  erewrite bind_ok by reflexivity.
  erewrite bind_ok by (apply for_in_logger).
  erewrite bind_ok by reflexivity. erewrite bind_ok by reflexivity.
  unfold ret, summary_log. f_equal.
  unfold add_log. cbn [w_fs w_calls w_log w_stdout].
  f_equal. rewrite <- !app_assoc. reflexivity.
Qed.

Lemma bind_assoc A B C (m : M A) (k : A -> M B) (h : B -> M C) w :
  bind (bind m k) h w = bind m (fun a => bind (k a) h) w.
Proof.
  unfold bind. destruct (m w) as [[a|e] w']; [| reflexivity].
  reflexivity.
Qed.

Lemma for_each_app A S (body : A -> S -> M S) l1 l2 s w :
  for_each body (l1 ++ l2) s w
  = (s' <- for_each body l1 s ;; for_each body l2 s') w.
Proof.
  revert s w. induction l1 as [|x t IH]; intros s w; [reflexivity |].
  cbn [app for_each]. rewrite bind_assoc. apply bind_ext. intros s' w'. apply IH.
Qed.

(* A run that is in its loop goes on with the remaining images and the
   summary. *)
Lemma run_passes_through svc w done st w2 rest :
  find_image_files_in SOURCE_DIR (w_fs w) = done ++ rest ->
  done ++ rest <> [] ->
  loop_state svc w done = (Ok st, w2) ->
  classify_images svc w
  = (st' <- for_each (classify_one svc) rest st ;;
     fun w' => (Ok (Some st'), add_log (summary_log st') w')) w2.
Proof.
  intros Himgs Hne Hrun. rewrite run_main by (rewrite Himgs; exact Hne).
  unfold loop_state in Hrun. rewrite Himgs in *.
  set (w0 := add_log _ w) in *.
  apply bind_inv_ok in Hrun. destruct Hrun as [[] [w1 [Hsetup Hloop]]].
  erewrite bind_ok by exact Hsetup.
  unfold bind at 1. rewrite for_each_app. erewrite bind_ok by exact Hloop.
  reflexivity.
Qed.

Lemma setup_out_is_file svc es f calls log out :
  assoc "classified_images" es = Some (File f) ->
  setup_output_directory svc
    {| w_fs := Dir es; w_calls := calls; w_log := log; w_stdout := out |}
  = (Raise (NotADirectoryError OUTPUT_DIR),
     {| w_fs := Dir es; w_calls := calls ++ [Rmtree OUTPUT_DIR];
        w_log := log; w_stdout := out |}).
Proof.
  intros Hout. unfold setup_output_directory.
  erewrite bind_ok by reflexivity. cbn [w_fs OUTPUT_DIR lookup].
  rewrite Hout. cbn [is_some].
  erewrite bind_raise by (eapply rmtree_out_file; exact Hout). reflexivity.
Qed.

Lemma keys_empty_classes labels :
  keys (const_dict (@nil (string * file)) labels) = keys (zero_tally labels).
Proof.
  change (zero_tally labels) with (const_dict 0 labels).
  rewrite <- (map_vals_const_dict _ _ (fun _ : nat => @nil (string * file)) 0 labels).
  apply keys_map_vals.
Qed.

Lemma loop_inv_start svc others w :
  w_fs w = root_with others (const_dict [] (class_labels svc)) ->
  loop_inv svc others [] (zero_tally (class_labels svc), 0) w.
Proof.
  intros Hfs. exists (const_dict [] (class_labels svc)). cbn [fst snd].
  split; [exact Hfs |]. split; [apply keys_empty_classes |].
  split; [reflexivity |]. split; [apply sum_tally_const_zero |].
  split; [reflexivity |].
  intros l files Hl. rewrite (assoc_const_dict _ _ _ _ _ Hl) in *.
  split; [constructor |]. split; [simpl; tauto |].
  destruct (assoc l (zero_tally (class_labels svc))) as [n|] eqn:Hn.
  - exists n. split; [reflexivity | simpl; lia].
  - exfalso. revert Hn.
    apply (assoc_same_keys _ _ l
             (const_dict (@nil (string * file)) (class_labels svc))).
    + apply keys_empty_classes.
    + congruence.
Qed.

Lemma labelled_without_out svc es q :
  labelled svc (Dir (remove_key "classified_images" es)) ("colored_images" :: q)
  = labelled svc (Dir es) ("colored_images" :: q).
Proof.
  unfold labelled, service_answer. cbn [lookup].
  now rewrite assoc_remove_key_other by discriminate.
Qed.

(* The world in which the loop starts, after a set-up that ends normally. *)
Lemma loop_frame_start svc es calls log out :
  loop_frame svc (remove_key "classified_images" es)
    (calls ++ setup_calls (is_some (assoc "classified_images" es)) (class_labels svc))
    log
    {| w_fs := root_with (remove_key "classified_images" es)
                 (const_dict [] (class_labels svc));
       w_calls := calls ++ setup_calls (is_some (assoc "classified_images" es))
                                       (class_labels svc);
       w_log := log ++ [(INFO, MsgCreatedOutput OUTPUT_DIR);
                        (INFO, MsgClassLabels (class_labels svc))];
       w_stdout := out |}.
Proof.
  split; [| split].
  - eexists. split; [reflexivity |]. split; [apply keys_empty_classes |].
    intros l files Hl. rewrite (assoc_const_dict _ _ _ _ _ Hl). constructor.
  - exists []. split; [now rewrite app_nil_r | constructor].
  - cbn [w_log]. intros lv l c Hin. apply in_app_or in Hin.
    destruct Hin as [Hin | [Hin | [Hin | []]]]; [now left | discriminate..].
Qed.

(* What is known of a run that is in its loop. *)
Lemma in_loop_facts svc w done st w2 :
  in_loop svc w done st w2 ->
  exists es,
    w_fs w = Dir es
    /\ is_file (assoc "classified_images" es) = false
    /\ loop_inv svc (remove_key "classified_images" es) done st w2
    /\ loop_frame svc (remove_key "classified_images" es)
         (w_calls w ++ setup_calls (is_some (assoc "classified_images" es))
                                   (class_labels svc))
         (w_log w) w2.
Proof.
  intros [rest (Himgs & Hne & Hrun)].
  unfold loop_state in Hrun. rewrite Himgs in Hrun.
  destruct (images_need_source (w_fs w)) as [es [n [Hfs Hsrc]]];
    [now rewrite Himgs |].
  exists es. split; [exact Hfs |].
  destruct w as [fs calls log out]. cbn [w_fs w_calls w_log] in *. subst fs.
  unfold add_log in Hrun. cbn [w_fs w_calls w_log w_stdout] in Hrun.
  pose proof (assoc_remove_key_same _ "classified_images" es) as Hfresh.
  assert (Hdone : forall x, In x done -> exists q, x = "colored_images" :: q).
  { intros x Hx. apply (found_image_head x (Dir es)). rewrite Himgs.
    apply in_or_app. now left. }
  destruct (is_file (assoc "classified_images" es)) eqn:Hout.
  - destruct (assoc "classified_images" es) as [[f|sub]|] eqn:Hout';
      try discriminate.
    erewrite bind_raise in Hrun by (eapply setup_out_is_file; exact Hout').
    discriminate.
  - split; [reflexivity |].
    erewrite bind_ok in Hrun by (apply setup_ok; exact Hout).
    match type of Hrun with for_each _ _ _ ?x = _ => set (w1 := x) in * end.
    split.
    + pose proof (loop_keeps_inv svc _ Hfresh done Hdone [] _ w1
                    (loop_inv_start svc _ w1 eq_refl)) as H.
      now rewrite Hrun in H.
    + pose proof (loop_keeps_frame svc _ Hfresh done Hdone _ _
                    (zero_tally (class_labels svc), 0) w1
                    (loop_frame_start svc es calls _ out)) as H.
      rewrite Hrun in H. destruct H as (H1 & H2 & H3).
      split; [exact H1 |]. split; [exact H2 |].
      intros lv l c Hin. destruct (H3 lv l c Hin) as [Hold | Hnew]; [| now right].
      left. apply in_app_or in Hold.
      destruct Hold as [Hold | [Hold | [Hold | [Hold | []]]]];
        [exact Hold | discriminate..].
Qed.

Lemma count_where_ext_in A (f g : A -> bool) l :
  (forall x, In x l -> f x = g x) -> count_where f l = count_where g l.
Proof.
  intros H. unfold count_where. f_equal. now apply filter_ext_in.
Qed.

(* A run that returns its tallies went through the loop on every image. *)
Lemma run_completed svc w st w' :
  classify_images svc w = (Ok (Some st), w') ->
  exists w2,
    in_loop svc w (find_image_files_in SOURCE_DIR (w_fs w)) st w2
    /\ w' = add_log (summary_log st) w2.
Proof.
  intros Hrun.
  destruct (lookup SOURCE_DIR (w_fs w)) as [n|] eqn:Hsrc;
    [| rewrite run_source_missing in Hrun by exact Hsrc; discriminate].
  destruct (find_image_files_in SOURCE_DIR (w_fs w)) as [|x t] eqn:Himgs;
    [rewrite run_no_images in Hrun by congruence; discriminate |].
  rewrite run_main in Hrun by (rewrite Himgs; discriminate).
  rewrite Himgs in Hrun.
  apply bind_inv_ok in Hrun. destruct Hrun as [[] [w1 [Hsetup Hrun]]].
  apply bind_inv_ok in Hrun. destruct Hrun as [st' [w2 [Hloop Hend]]].
  inversion Hend. subst st' w'.
  exists w2. split; [| reflexivity].
  exists []. rewrite app_nil_r. split; [exact Himgs |]. split; [discriminate |].
  unfold loop_state. rewrite Himgs.
  erewrite bind_ok by exact Hsetup. exact Hloop.
Qed.




(* The same happens when the successful result lacks its confidence: reading
   the key raises, and the exception handler reports a failure. *)
Example missing_confidence_is_not_tallied :
  fst (classify_images keyless_service (start sample_fs))
  = Ok (Some ([("Mild", 0); ("Moderate", 0); ("No_DR", 0);
               ("Proliferate_DR", 0); ("Severe", 0)], 0))
  /\ count_where (reports_success keyless_service sample_fs)
                 (find_image_files_in SOURCE_DIR sample_fs) = 4.
Proof. split; vm_compute; reflexivity. Qed.

(* A label that is not listed stops the run at the first copy: its folder
   does not exist. *)
Example stray_label_stops_the_run :
  fst (classify_images stray_service (start sample_fs))
  = Raise (FileNotFoundError ["classified_images"; "Unknown"; "a.png"]).
Proof. vm_compute. reflexivity. Qed.

(** ** Writing at a path *)

Lemma lookup_put_same p : forall new n n',
  put p new n = Some n' -> lookup p n' = Some new.
Proof.
  induction p as [|c p' IH]; intros new n n'.
  - simpl. congruence.
  - cbn [put]. destruct n as [f|es]; [discriminate |].
    destruct p' as [|c' p''].
    + intros H. inversion H. cbn [lookup]. now rewrite assoc_upsert_same.
    + destruct (assoc c es) as [m|]; [| discriminate].
      destruct (put (c' :: p'') new m) as [m'|] eqn:Hm; [| discriminate].
      intros H. inversion H. cbn [lookup]. rewrite assoc_upsert_same.
      apply (IH new m m' Hm).
Qed.

Lemma lookup_put_diverge p : forall new n n' q,
  put p new n = Some n' -> diverge p q -> lookup q n' = lookup q n.
Proof.
  induction p as [|c p' IH]; intros new n n' q.
  - simpl. tauto.
  - cbn [put]. destruct n as [f|es]; [discriminate |].
    destruct q as [|b q']; [simpl; tauto |].
    destruct (String.eqb c b) eqn:E.
    + apply String.eqb_eq in E. subst b.
      destruct p' as [|c' p''].
      * intros _ [Hne | Hd]; [congruence | destruct Hd].
      * destruct (assoc c es) as [m|] eqn:Hc; [| discriminate].
        destruct (put (c' :: p'') new m) as [m'|] eqn:Hm; [| discriminate].
        intros H [Hne | Hd]; [congruence |].
        inversion H. cbn [lookup]. rewrite assoc_upsert_same, Hc.
        apply (IH new m m' q' Hm Hd).
    + apply String.eqb_neq in E. intros H _.
      assert (exists v, n' = Dir (upsert c v es)) as [v ->].
      { destruct p' as [|c' p''].
        - inversion H. now eexists.
        - destruct (assoc c es) as [m|]; [| discriminate].
          destruct (put (c' :: p'') new m) as [m'|]; [| discriminate].
          inversion H. now eexists. }
      cbn [lookup]. now rewrite assoc_upsert_other by exact E.
Qed.

(** ** Properties of the batch classifier *)



(** C5.  In a run of the batch classifier, when the prediction for the next
    image returns a non-empty label that is one of the class labels, the
    iteration ends normally: one copy is attempted, the destination, named
    by the label and the base name of the image, holds the bytes and the
    stat of the source file, the source file is still in place, every path
    that parts ways with the destination is unchanged, the tally of the
    label grows by one, the other tallies are unchanged and the processed
    count grows by one. *)
Theorem classified_image_is_copied svc w done results processed w2 x rest l conf :
  in_loop svc w done (results, processed) w2 ->
  find_image_files_in SOURCE_DIR (w_fs w) = done ++ x :: rest ->
  fst (predict_image_using_django_service svc x w2) = Ok (Some l, Some conf) ->
  truthy l = true ->
  In l (class_labels svc) ->
  exists f n w3,
    lookup x (w_fs w2) = Some (File f)
    /\ assoc l results = Some n
    /\ classify_one svc x (results, processed) w2
       = (Ok (upsert l (n + 1) results, processed + 1), w3)
    /\ w_calls w3
       = w_calls w2 ++ [Copy2 x (path_join (path_join OUTPUT_DIR l) (path_name x))]
    /\ lookup (path_join (path_join OUTPUT_DIR l) (path_name x)) (w_fs w3)
       = Some (File f)
    /\ lookup x (w_fs w3) = Some (File f)
    /\ (forall p, diverge (path_join (path_join OUTPUT_DIR l) (path_name x)) p ->
                  lookup p (w_fs w3) = lookup p (w_fs w2))
    /\ assoc l (upsert l (n + 1) results) = Some (n + 1)
    /\ (forall l', l <> l' -> assoc l' (upsert l (n + 1) results) = assoc l' results).
Proof.
  intros Hloop Himgs Hpred Ht Hl.
  destruct (in_loop_facts _ _ _ _ _ Hloop) as [es (Hfs & Hnf & Hinv & _)].
  destruct Hinv as [classes (Hfs2 & Hkc & Hkr & _)]. cbn [fst] in Hkr.
  pose proof (assoc_remove_key_same _ "classified_images" es) as Hfresh.
  set (others := remove_key "classified_images" es) in *.
  destruct (found_image_head x (w_fs w)) as [q ->].
  { rewrite Himgs. apply in_or_app. right. now left. }
  assert (Hs : "colored_images" <> "classified_images") by discriminate.
  apply predict_answer in Hpred.
  destruct w2 as [fs2 calls log out]. cbn [w_fs w_calls] in *. subst fs2.
  destruct (service_answer_file _ _ _ _ Hpred) as [f Hf].
  assert (Hf' := Hf). rewrite (lookup_others others _ q classes Hs) in Hf'.
  destruct (assoc l classes) as [files|] eqn:Hlc.
  2:{ exfalso. apply (proj1 (assoc_absent_keys _ l classes) Hlc).
      rewrite Hkc. now apply keys_const_dict. }
  destruct (assoc l results) as [n|] eqn:Hn.
  2:{ exfalso. apply (proj1 (assoc_absent_keys _ l results) Hn).
      rewrite Hkr. now apply keys_const_dict. }
  pose proof (classify_one_copies svc others Hfresh "colored_images" q l conf f
                files classes results processed calls log out Hs Hpred Ht Hf' Hlc)
    as Hrun.
  cbv zeta in Hrun. rewrite Hn in Hrun.
  pose proof (put_class_file others Hfresh l (path_name ("colored_images" :: q))
                f files classes Hlc) as Hput.
  change ["classified_images"; l; path_name ("colored_images" :: q)]
    with (path_join (path_join OUTPUT_DIR l) (path_name ("colored_images" :: q)))
    in Hput.
  eexists f, n, _. split; [exact Hf |]. split; [reflexivity |].
  split; [exact Hrun |]. cbn [w_fs w_calls].
  split; [reflexivity |].
  split; [apply (lookup_put_same _ _ _ _ Hput) |].
  split.
  { rewrite <- Hf. apply (lookup_put_diverge _ _ _ _ _ Hput).
    left. discriminate. }
  split; [intros p Hp; apply (lookup_put_diverge _ _ _ _ _ Hput Hp) |].
  split; [apply assoc_upsert_same | intros l' Hne; now apply assoc_upsert_other].
Qed.

Lemma classified_image_is_copied_witness :
  exists w3,
    classify_one sample_service ["colored_images"; "b.jpg"]
      ([("Mild", 1); ("Moderate", 0); ("No_DR", 0);
        ("Proliferate_DR", 0); ("Severe", 0)], 1)
      (snd (loop_state sample_service (start sample_fs) [["colored_images"; "a.png"]]))
    = (Ok ([("Mild", 1); ("Moderate", 0); ("No_DR", 1);
            ("Proliferate_DR", 0); ("Severe", 0)], 2), w3)
    /\ lookup ["classified_images"; "No_DR"; "b.jpg"] (w_fs w3)
       = Some (File (sample_file "healthy fundus"))
    /\ lookup ["colored_images"; "b.jpg"] (w_fs w3)
       = Some (File (sample_file "healthy fundus")).
Proof.
  destruct (classified_image_is_copied sample_service (start sample_fs)
              [["colored_images"; "a.png"]]
              [("Mild", 1); ("Moderate", 0); ("No_DR", 0);
               ("Proliferate_DR", 0); ("Severe", 0)] 1
              (snd (loop_state sample_service (start sample_fs)
                      [["colored_images"; "a.png"]]))
              ["colored_images"; "b.jpg"]
              [["colored_images"; "c.PNG"]; ["colored_images"; "d.bmp"]]
              "No_DR" (199 # 200)%Q)
    as (f & n & w3 & Hf & Hn & Hrun & _ & Hdst & Hsrc & _).
  - exists [["colored_images"; "b.jpg"]; ["colored_images"; "c.PNG"];
            ["colored_images"; "d.bmp"]].
    split; [vm_compute; reflexivity |]. split; [discriminate |].
    vm_compute. reflexivity.
  - vm_compute. reflexivity.
  - vm_compute. reflexivity.
  - reflexivity.
  - vm_compute. tauto.
  - assert (f = sample_file "healthy fundus") as ->.
    { vm_compute in Hf. now inversion Hf. }
    assert (n = 0) as ->.
    { vm_compute in Hn. now inversion Hn. }
    exists w3. split; [exact Hrun |]. split; [exact Hdst | exact Hsrc].
Defined.

(** C3.  When the source directory does not exist, or holds no file whose
    name passes the extension test (at any depth), the batch classifier logs
    its opening records, the error or warning and the instruction to add
    images, and returns: it makes no call that changes the file system and
    leaves the file system, hence the output directory, as it found it. *)
Theorem no_images_no_output svc w :
  (lookup SOURCE_DIR (w_fs w) = None
   \/ forall n q f,
        lookup SOURCE_DIR (w_fs w) = Some n -> file_at q n f ->
        is_image_name (path_name (SOURCE_DIR ++ q)) = false) ->
  exists w',
    classify_images svc w = (Ok None, w')
    /\ w_fs w' = w_fs w
    /\ lookup OUTPUT_DIR (w_fs w') = lookup OUTPUT_DIR (w_fs w)
    /\ w_calls w' = w_calls w
    /\ w_log w' = w_log w ++ (if is_some (lookup SOURCE_DIR (w_fs w))
                              then no_images_log else source_missing_log).
Proof.
  intros H.
  destruct (lookup SOURCE_DIR (w_fs w)) as [n|] eqn:Hsrc.
  - destruct H as [H | H]; [discriminate |].
    assert (Hnone : find_image_files_in SOURCE_DIR (w_fs w) = []).
    { destruct (find_image_files_in SOURCE_DIR (w_fs w)) as [|x t] eqn:Himgs;
        [reflexivity |].
      destruct (found_image x (w_fs w)) as (n' & q & f & Hn & -> & _ & Hat & Himg);
        [rewrite Himgs; now left |].
      rewrite Hsrc in Hn. inversion Hn. subst n'.
      rewrite (H n q f eq_refl Hat) in Himg. discriminate. }
    exists (add_log no_images_log w).
    rewrite run_no_images by congruence. repeat split.
  - exists (add_log source_missing_log w).
    rewrite run_source_missing by exact Hsrc. repeat split.
Qed.

Lemma no_images_no_output_witness :
  (forall n q f,
      lookup SOURCE_DIR imageless_fs = Some n -> file_at q n f ->
      is_image_name (path_name (SOURCE_DIR ++ q)) = false)
  /\ fst (classify_images sample_service (start imageless_fs)) = Ok None
  /\ w_fs (snd (classify_images sample_service (start imageless_fs))) = imageless_fs
  /\ fst (classify_images sample_service (start bare_fs)) = Ok None
  /\ w_fs (snd (classify_images sample_service (start bare_fs))) = bare_fs.
Proof.
  assert (Himageless : forall n q f,
             lookup SOURCE_DIR imageless_fs = Some n -> file_at q n f ->
             is_image_name (path_name (SOURCE_DIR ++ q)) = false).
  { intros n q f Hn Hat. vm_compute in Hn. inversion Hn. subst n. clear Hn.
    inversion Hat as [|c q' es m f' Hin Hat']; subst.
    destruct Hin as [E | [E | [E | []]]]; inversion E; subst; clear E.
    - inversion Hat'. reflexivity.
    - inversion Hat'. reflexivity.
    - inversion Hat' as [|c q'' es m f'' Hin Hat'']; subst.
      destruct Hin as [E | []]. inversion E; subst.
      inversion Hat''. reflexivity. }
  split; [exact Himageless |].
  destruct (no_images_no_output sample_service (start imageless_fs)
              (or_intror Himageless)) as (w1 & Hrun1 & Hfs1 & _).
  destruct (no_images_no_output sample_service (start bare_fs)
              (or_introl eq_refl)) as (w2 & Hrun2 & Hfs2 & _).
  rewrite Hrun1, Hrun2. cbn [fst snd]. rewrite Hfs1, Hfs2.
  repeat split.
Defined.

(** ** Properties of the consistency checker *)

Lemma preprocess_image_run array (pil : string -> option array) img w :
  preprocess_image pil img w
  = match lookup (Path img) (w_fs w) with
    | Some (File f) =>
        match pil (f_bytes f) with
        | Some a => (Ok (Some a), w)
        | None =>
            (Ok None,
             add_stdout [PErrorPreprocessing img (UnidentifiedImageError (Path img))] w)
        end
    | Some (Dir _) =>
        (Ok None, add_stdout [PErrorPreprocessing img (IsADirectoryError (Path img))] w)
    | None =>
        (Ok None, add_stdout [PErrorPreprocessing img (FileNotFoundError (Path img))] w)
    end.
Proof.
  unfold preprocess_image, try_catch, bind, open_rb.
  destruct (lookup (Path img) (w_fs w)) as [[f|es]|]; try reflexivity.
  now destruct (pil (f_bytes f)).
Qed.

(* The prediction part of [check_case], for a file that can be read. *)
Lemma check_prediction_run svc img expected f w :
  lookup (Path img) (w_fs w) = Some (File f) ->
  try_catch
    (img_bytes <- open_rb (Path img) ;;
     result <- call_service svc img_bytes ;;
     if negb (get_default (r_success result) false) then
       print (PPredictionFailed (get_default (r_error result) "Unknown error"))
     else
       prediction <- getitem "prediction" (r_prediction result) ;;
       confidence <- getitem "confidence" (r_confidence result) ;;
       print (PPredicted prediction) ;;
       print (PConfidence (confidence / 100)%Q) ;;
       if String.eqb prediction expected then print PMatch
       else print (PMismatch expected prediction))
    (fun e => print (PErrorGetting e)) w
  = (Ok tt,
     add_stdout
       match process_image svc (f_bytes f) with
       | Raises msg => [PErrorGetting (ServiceError msg)]
       | Returns r =>
           if get_default (r_success r) false then
             match r_prediction r, r_confidence r with
             | None, _ => [PErrorGetting (KeyError "prediction")]
             | Some _, None => [PErrorGetting (KeyError "confidence")]
             | Some l, Some c =>
                 [PPredicted l; PConfidence (c / 100)%Q;
                  if String.eqb l expected then PMatch else PMismatch expected l]
             end
           else [PPredictionFailed (get_default (r_error r) "Unknown error")]
       end w).
Proof.
  intros Hp. unfold try_catch, bind at 1, open_rb. rewrite Hp.
  unfold bind at 1, call_service.
  destruct (process_image svc (f_bytes f)) as [r|msg]; [| reflexivity].
  unfold ret. destruct (get_default (r_success r) false); [| reflexivity].
  cbn [negb]. unfold bind at 1, getitem.
  destruct (r_prediction r) as [l|]; [| reflexivity].
  unfold ret, bind at 1.
  destruct (r_confidence r) as [c|]; [| reflexivity].
  unfold bind, print. cbn [w_fs w_calls w_log w_stdout].
  destruct (String.eqb l expected); unfold add_stdout;
    cbn [w_fs w_calls w_log w_stdout]; now rewrite <- !app_assoc.
Qed.

Lemma check_case_lines svc array (pil : string -> option array) tc w :
  check_case svc pil tc w = (Ok tt, add_stdout (case_lines svc pil (w_fs w) tc) w).
Proof.
  destruct tc as [img expected]. unfold check_case, case_lines. cbn [fst snd].
  erewrite bind_ok by reflexivity.
  destruct (lookup (Path img) (w_fs w)) as [n|] eqn:Hp; cbn [is_some negb];
    [| reflexivity].
  erewrite bind_ok by reflexivity. erewrite bind_ok by reflexivity.
  unfold bind at 1. rewrite preprocess_image_run.
  match goal with
  | |- context [preprocess_image_run] => idtac
  | |- context [lookup (Path img) (w_fs ?x)] =>
      lazymatch x with w => fail | _ => set (w1 := x) end
  end.
  assert (Hw1 : w1 = add_stdout [PTestingFrom (path_name (path_parent (Path img)));
                                  PImage (path_name (Path img))] w).
  { unfold w1, print, add_stdout. cbn [snd w_fs w_calls w_log w_stdout].
    now rewrite <- app_assoc. }
  assert (Hfs1 : w_fs w1 = w_fs w) by (now rewrite Hw1).
  rewrite Hfs1, Hp.
  destruct n as [f|es].
  - destruct (pil (f_bytes f)) as [a|].
    + rewrite (check_prediction_run svc img expected f w1) by (now rewrite Hfs1).
      now rewrite Hw1, add_stdout_app.
    + unfold print. rewrite Hw1. unfold add_stdout.
      cbn [w_fs w_calls w_log w_stdout]. now rewrite <- !app_assoc.
  - unfold print. rewrite Hw1. unfold add_stdout.
    cbn [w_fs w_calls w_log w_stdout]. now rewrite <- !app_assoc.
Qed.

Lemma for_in_check_case svc array (pil : string -> option array) cases : forall w,
  for_in (check_case svc pil) cases w
  = (Ok tt, add_stdout (flat_map (case_lines svc pil (w_fs w)) cases) w).
Proof.
  induction cases as [|tc t IH]; intros w.
  - unfold add_stdout. simpl. rewrite app_nil_r. now destruct w.
  - cbn [for_in flat_map]. erewrite bind_ok by apply check_case_lines.
    rewrite IH. cbn [w_fs add_stdout]. now rewrite add_stdout_app.
Qed.

(** ** What a run reads of the world *)

Lemma fs_only_ret A (a : A) : fs_only (ret a).
Proof. intros w1 w2 H. now split. Qed.

Lemma fs_only_raise A e : fs_only (@raise A e).
Proof. intros w1 w2 H. now split. Qed.

Lemma fs_only_bind A B (m : M A) (k : A -> M B) :
  fs_only m -> (forall a, fs_only (k a)) -> fs_only (bind m k).
Proof.
  intros Hm Hk w1 w2 H. unfold bind. destruct (Hm w1 w2 H) as [Ho Hfs].
  destruct (m w1) as [[a1|e1] w1'], (m w2) as [[a2|e2] w2'];
    cbn [fst snd] in *; try discriminate.
  - inversion Ho. subst a2. now apply Hk.
  - inversion Ho. now split.
Qed.

Lemma fs_only_try A (m : M A) (h : exn -> M A) :
  fs_only m -> (forall e, fs_only (h e)) -> fs_only (try_catch m h).
Proof.
  intros Hm Hh w1 w2 H. unfold try_catch. destruct (Hm w1 w2 H) as [Ho Hfs].
  destruct (m w1) as [[a1|e1] w1'], (m w2) as [[a2|e2] w2'];
    cbn [fst snd] in *; try discriminate.
  - now split.
  - inversion Ho. subst e2. now apply Hh.
Qed.

Lemma fs_only_for_each A S (body : A -> S -> M S) l :
  (forall x s, fs_only (body x s)) -> forall s, fs_only (for_each body l s).
Proof.
  intros Hbody. induction l as [|x t IH]; intros s; cbn [for_each].
  - apply fs_only_ret.
  - apply fs_only_bind; [apply Hbody | exact IH].
Qed.

Lemma fs_only_for_in A (body : A -> M unit) l :
  (forall x, fs_only (body x)) -> fs_only (for_in body l).
Proof.
  intros Hbody. induction l as [|x t IH]; cbn [for_in].
  - apply fs_only_ret.
  - apply fs_only_bind; [apply Hbody | intros _; exact IH].
Qed.

Lemma fs_only_logger lv m : fs_only (logger lv m).
Proof. intros w1 w2 H. now split. Qed.

Lemma fs_only_record_call c : fs_only (record_call c).
Proof. intros w1 w2 H. now split. Qed.

Lemma fs_only_path_exists p : fs_only (path_exists p).
Proof. intros w1 w2 H. unfold path_exists. cbn [fst snd]. now rewrite H. Qed.

Lemma fs_only_find_image_files d : fs_only (find_image_files d).
Proof. intros w1 w2 H. unfold find_image_files. cbn [fst snd]. now rewrite H. Qed.

Lemma fs_only_open_rb p : fs_only (open_rb p).
Proof.
  intros w1 w2 H. unfold open_rb. rewrite H.
  destruct (lookup p (w_fs w2)) as [[f|es]|]; now split.
Qed.

Lemma fs_only_create p new : fs_only (create p new).
Proof.
  intros w1 w2 H. unfold create. rewrite H.
  destruct (lookup (path_parent p) (w_fs w2)) as [[f|es]|]; try now split.
  destruct (put p new (w_fs w2)); now split.
Qed.

Lemma fs_only_rmtree p : fs_only (rmtree p).
Proof.
  unfold rmtree. apply fs_only_bind; [apply fs_only_record_call | intros _].
  intros w1 w2 H. rewrite H.
  destruct (lookup p (w_fs w2)) as [[f|es]|]; try now split.
  destruct (unlink p (w_fs w2)); now split.
Qed.

Lemma fs_only_mkdir p : fs_only (mkdir_exist_ok p).
Proof.
  unfold mkdir_exist_ok. apply fs_only_bind; [apply fs_only_record_call | intros _].
  intros w1 w2 H. rewrite H.
  destruct (lookup p (w_fs w2)) as [[f|es]|]; try now split.
  now apply fs_only_create.
Qed.

Lemma fs_only_copy2 src dst : fs_only (copy2 src dst).
Proof.
  unfold copy2. apply fs_only_bind; [apply fs_only_record_call | intros _].
  intros w1 w2 H. rewrite H.
  destruct (lookup src (w_fs w2)) as [[f|es]|]; try now split.
  cbv zeta.
  destruct (path_eqb src _); [now split |].
  destruct (is_dir (lookup _ (w_fs w2))); [now split |].
  now apply fs_only_create.
Qed.

Lemma fs_only_getitem A k (o : option A) : fs_only (getitem k o).
Proof. destruct o; [apply fs_only_ret | apply fs_only_raise]. Qed.

Lemma fs_only_format_percent c : fs_only (format_percent c).
Proof. destruct c; [apply fs_only_ret | apply fs_only_raise]. Qed.

Lemma fs_only_call_service svc b : fs_only (call_service svc b).
Proof.
  unfold call_service.
  destruct (process_image svc b); [apply fs_only_ret | apply fs_only_raise].
Qed.

Create HintDb fs_only.
#[local] Hint Resolve fs_only_ret fs_only_raise fs_only_logger fs_only_record_call
  fs_only_path_exists fs_only_find_image_files fs_only_open_rb fs_only_create
  fs_only_rmtree fs_only_mkdir fs_only_copy2 fs_only_getitem
  fs_only_format_percent fs_only_call_service : fs_only.

Ltac fs_only_step :=
  lazymatch goal with
  | |- fs_only (bind _ _) => apply fs_only_bind; [| intro]
  | |- fs_only (try_catch _ _) => apply fs_only_try; [| intro]
  | |- fs_only (for_each _ _ _) => apply fs_only_for_each; intros
  | |- fs_only (for_in _ _) => apply fs_only_for_in; intros
  | |- fs_only (if ?b then _ else _) => destruct b
  | |- fs_only (match ?x with _ => _ end) => destruct x
  | |- _ => solve [auto with fs_only]
  end.

Lemma fs_only_predict svc p : fs_only (predict_image_using_django_service svc p).
Proof. unfold predict_image_using_django_service. repeat fs_only_step. Qed.

Lemma fs_only_classify_one svc p st : fs_only (classify_one svc p st).
Proof.
  unfold classify_one. destruct st as [results processed].
  apply fs_only_bind; [apply fs_only_logger | intros _].
  apply fs_only_bind; [apply fs_only_predict | intros [predicted_class confidence]].
  cbv zeta. repeat fs_only_step.
Qed.

Lemma fs_only_setup svc : fs_only (setup_output_directory svc).
Proof. unfold setup_output_directory. repeat fs_only_step. Qed.

Lemma fs_only_classify_images svc : fs_only (classify_images svc).
Proof.
  unfold classify_images.
  repeat first [apply fs_only_setup
               | apply fs_only_for_each; intros; apply fs_only_classify_one
               | fs_only_step].
Qed.

(** ** Any run of [classify_images] *)

Lemma find_same_source es1 es2 :
  assoc "colored_images" es1 = assoc "colored_images" es2 ->
  find_image_files_in SOURCE_DIR (Dir es1) = find_image_files_in SOURCE_DIR (Dir es2).
Proof.
  intros H. unfold find_image_files_in, os_walk, SOURCE_DIR. cbn [lookup].
  now rewrite H.
Qed.

Lemma run_from_setup svc es calls log out :
  find_image_files_in SOURCE_DIR (Dir es) <> [] ->
  is_file (assoc "classified_images" es) = false ->
  classify_images svc {| w_fs := Dir es; w_calls := calls; w_log := log; w_stdout := out |}
  = (st <- for_each (classify_one svc) (find_image_files_in SOURCE_DIR (Dir es))
             (zero_tally (class_labels svc), 0) ;;
     fun w' => (Ok (Some st), add_log (summary_log st) w'))
      {| w_fs := root_with (remove_key "classified_images" es)
                   (const_dict [] (class_labels svc));
         w_calls := calls ++ setup_calls (is_some (assoc "classified_images" es))
                                         (class_labels svc);
         w_log := (log ++ found_log (List.length (find_image_files_in SOURCE_DIR (Dir es))))
                  ++ [(INFO, MsgCreatedOutput OUTPUT_DIR);
                      (INFO, MsgClassLabels (class_labels svc))];
         w_stdout := out |}.
Proof.
  intros Hne Hnf. rewrite run_main by exact Hne.
  unfold add_log. cbn [w_fs w_calls w_log w_stdout].
  erewrite bind_ok by (apply setup_ok; exact Hnf). reflexivity.
Qed.

Lemma run_setup_fails svc es f calls log out :
  find_image_files_in SOURCE_DIR (Dir es) <> [] ->
  assoc "classified_images" es = Some (File f) ->
  classify_images svc {| w_fs := Dir es; w_calls := calls; w_log := log; w_stdout := out |}
  = (Raise (NotADirectoryError OUTPUT_DIR),
     {| w_fs := Dir es; w_calls := calls ++ [Rmtree OUTPUT_DIR];
        w_log := log ++ found_log (List.length (find_image_files_in SOURCE_DIR (Dir es)));
        w_stdout := out |}).
Proof.
  intros Hne Hout. rewrite run_main by exact Hne.
  unfold add_log. cbn [w_fs w_calls w_log w_stdout].
  erewrite bind_raise by (eapply setup_out_is_file; exact Hout). reflexivity.
Qed.

(* The rest of a run whose set-up ended normally: the loop and the
   summary. *)
Lemma loop_and_summary svc others images calls0 log0 w :
  assoc "classified_images" others = None ->
  (forall x, In x images -> exists q, x = "colored_images" :: q) ->
  loop_frame svc others calls0 log0 w ->
  loop_frame svc others calls0 log0
    (snd ((st <- for_each (classify_one svc) images (zero_tally (class_labels svc), 0) ;;
           fun w' => (Ok (Some st), add_log (summary_log st) w')) w)).
Proof.
  intros Hfresh Himgs Hw.
  pose proof (loop_keeps_frame svc others Hfresh images Himgs calls0 log0
                (zero_tally (class_labels svc), 0) w Hw) as H.
  unfold bind.
  destruct (for_each (classify_one svc) images _ w) as [[st|e] w2]; [| exact H].
  destruct H as (H1 & H2 & H3). cbn [snd]. split; [exact H1 |]. split; [exact H2 |].
  cbn [w_log add_log]. intros lv l c Hin. apply in_app_or in Hin.
  destruct Hin as [Hin | Hin]; [now apply H3 |].
  exfalso. unfold summary_log in Hin.
  destruct Hin as [Hin | [Hin | [Hin | Hin]]]; try discriminate.
  apply in_app_or in Hin. destruct Hin as [Hin | [Hin | [Hin | []]]]; try discriminate.
  apply in_map_iff in Hin. destruct Hin as [item [Hitem _]]. discriminate.
Qed.

(* How a run ends: without a change, or with the output directory rebuilt
   as the last entry of the script directory. *)
Lemma run_end svc w :
  (w_fs (snd (classify_images svc w)) = w_fs w
   /\ forall lv l c,
        In (lv, MsgClassifiedAs l c) (w_log (snd (classify_images svc w))) ->
        In (lv, MsgClassifiedAs l c) (w_log w))
  \/ exists es,
       w_fs w = Dir es
       /\ find_image_files_in SOURCE_DIR (Dir es) <> []
       /\ is_file (assoc "classified_images" es) = false
       /\ loop_frame svc (remove_key "classified_images" es)
            (w_calls w ++ setup_calls (is_some (assoc "classified_images" es))
                                      (class_labels svc))
            (w_log w) (snd (classify_images svc w)).
Proof.
  destruct (lookup SOURCE_DIR (w_fs w)) as [n|] eqn:Hsrc.
  2:{ left. rewrite run_source_missing by exact Hsrc. split; [reflexivity |].
      cbn [snd w_log add_log]. intros lv l c Hin. apply in_app_or in Hin.
      destruct Hin as [Hin | Hin]; [exact Hin |].
      destruct Hin as [Hin | [Hin | [Hin | [Hin | []]]]]; discriminate. }
  destruct (find_image_files_in SOURCE_DIR (w_fs w)) as [|x t] eqn:Himgs.
  { left. rewrite run_no_images by congruence. split; [reflexivity |].
    cbn [snd w_log add_log]. intros lv l c Hin. apply in_app_or in Hin.
    destruct Hin as [Hin | Hin]; [exact Hin |].
    destruct Hin as [Hin | [Hin | [Hin | [Hin | []]]]]; discriminate. }
  destruct (images_need_source (w_fs w)) as [es [n' [Hfs Hsrc']]];
    [rewrite Himgs; discriminate |].
  destruct w as [fs calls log out]. cbn [w_fs w_calls w_log] in *. subst fs.
  destruct (is_file (assoc "classified_images" es)) eqn:Hout.
  - destruct (assoc "classified_images" es) as [[f|sub]|] eqn:Hout';
      try discriminate.
    left. rewrite (run_setup_fails svc es f) by (rewrite ?Himgs; congruence).
    split; [reflexivity |].
    cbn [snd w_log]. intros lv l c Hin. apply in_app_or in Hin.
    destruct Hin as [Hin | Hin]; [exact Hin |].
    destruct Hin as [Hin | [Hin | [Hin | []]]]; discriminate.
  - right. exists es. rewrite Himgs. split; [reflexivity |].
    split; [discriminate |]. split; [exact Hout |].
    rewrite run_from_setup by (rewrite ?Himgs; first [discriminate | exact Hout]).
    pose proof (loop_and_summary svc (remove_key "classified_images" es)
                  (find_image_files_in SOURCE_DIR (Dir es))
                  _ _ _ (assoc_remove_key_same _ _ es)
                  (fun x => found_image_head x (Dir es))
                  (loop_frame_start svc es calls
                     (log ++ found_log (List.length
                               (find_image_files_in SOURCE_DIR (Dir es)))) out))
      as Hframe.
    destruct Hframe as (H1 & H2 & H3).
    split; [exact H1 |]. split; [exact H2 |].
    intros lv l c Hin. destruct (H3 lv l c Hin) as [Hold | Hnew]; [| now right].
    left. apply in_app_or in Hold.
    destruct Hold as [Hold | [Hold | [Hold | [Hold | []]]]];
      [exact Hold | discriminate..].
Qed.

(** ** Two runs on the same source directory *)

Section TwoRuns.
Variable svc : service.
Variables others1 others2 : list (string * node).
Hypothesis fresh1 : assoc "classified_images" others1 = None.
Hypothesis fresh2 : assoc "classified_images" others2 = None.
Hypothesis same_source :
  assoc "colored_images" others1 = assoc "colored_images" others2.

Lemma lookup_same_source q :
  lookup ("colored_images" :: q) (Dir others1)
  = lookup ("colored_images" :: q) (Dir others2).
Proof. cbn [lookup]. now rewrite same_source. Qed.

Lemma service_answer_same_source q :
  service_answer svc (Dir others1) ("colored_images" :: q)
  = service_answer svc (Dir others2) ("colored_images" :: q).
Proof. unfold service_answer. now rewrite lookup_same_source. Qed.

(* One iteration, in two worlds that agree on the source directory and on
   the output directory: same end, same output directory. *)
Lemma classify_one_two_runs q st classes w1 w2 :
  w_fs w1 = root_with others1 classes ->
  w_fs w2 = root_with others2 classes ->
  exists classes',
    fst (classify_one svc ("colored_images" :: q) st w1)
    = fst (classify_one svc ("colored_images" :: q) st w2)
    /\ w_fs (snd (classify_one svc ("colored_images" :: q) st w1))
       = root_with others1 classes'
    /\ w_fs (snd (classify_one svc ("colored_images" :: q) st w2))
       = root_with others2 classes'.
Proof.
  destruct st as [results processed].
  destruct w1 as [fs1 calls1 log1 out1], w2 as [fs2 calls2 log2 out2].
  cbn [w_fs]. intros -> ->.
  assert (Hs : "colored_images" <> "classified_images") by discriminate.
  set (x := "colored_images" :: q).
  pose proof (service_answer_others svc others1 "colored_images" q classes Hs)
    as Ha1.
  pose proof (service_answer_others svc others2 "colored_images" q classes Hs)
    as Ha2.
  pose proof (service_answer_same_source q) as Hsame.
  fold x in Ha1, Ha2, Hsame.
  destruct (service_answer svc (Dir others1) x) as [[l conf]|] eqn:Hans.
  - destruct (truthy l) eqn:Ht.
    + assert (Hf1 : exists f, lookup x (Dir others1) = Some (File f))
        by (now apply service_answer_file with svc (l, conf)).
      destruct Hf1 as [f Hf1].
      assert (Hf2 : lookup x (Dir others2) = Some (File f))
        by (unfold x in *; now rewrite <- lookup_same_source).
      rewrite <- Hsame in Ha2.
      destruct (assoc l classes) as [files|] eqn:Hl.
      * unfold x in *.
        rewrite (classify_one_copies svc others1 fresh1 "colored_images" q l conf f
                   files classes results processed calls1 log1 out1 Hs Ha1 Ht Hf1 Hl).
        rewrite (classify_one_copies svc others2 fresh2 "colored_images" q l conf f
                   files classes results processed calls2 log2 out2 Hs Ha2 Ht Hf2 Hl).
        cbv zeta. eexists.
        destruct (assoc l results) as [n|]; cbn [fst snd w_fs];
          (split; [reflexivity |]); split; reflexivity.
      * unfold x in *.
        rewrite (classify_one_unknown svc others1 fresh1 "colored_images" q l conf
                   classes results processed calls1 log1 out1 Hs Ha1 Ht Hl).
        rewrite (classify_one_unknown svc others2 fresh2 "colored_images" q l conf
                   classes results processed calls2 log2 out2 Hs Ha2 Ht Hl).
        exists classes. cbn [fst snd w_fs]. now repeat split.
    + rewrite <- Hsame in Ha2.
      destruct (classify_one_skip svc x results processed
                  {| w_fs := root_with others1 classes; w_calls := calls1;
                     w_log := log1; w_stdout := out1 |}) as [e1 [H1 _]];
        [unfold labelled; cbn [w_fs]; now rewrite Ha1, Ht |].
      destruct (classify_one_skip svc x results processed
                  {| w_fs := root_with others2 classes; w_calls := calls2;
                     w_log := log2; w_stdout := out2 |}) as [e2 [H2 _]];
        [unfold labelled; cbn [w_fs]; now rewrite Ha2, Ht |].
      rewrite H1, H2. exists classes. now repeat split.
  - rewrite <- Hsame in Ha2.
    destruct (classify_one_skip svc x results processed
                {| w_fs := root_with others1 classes; w_calls := calls1;
                   w_log := log1; w_stdout := out1 |}) as [e1 [H1 _]];
      [unfold labelled; cbn [w_fs]; now rewrite Ha1 |].
    destruct (classify_one_skip svc x results processed
                {| w_fs := root_with others2 classes; w_calls := calls2;
                   w_log := log2; w_stdout := out2 |}) as [e2 [H2 _]];
      [unfold labelled; cbn [w_fs]; now rewrite Ha2 |].
    rewrite H1, H2. exists classes. now repeat split.
Qed.

Lemma loop_two_runs images :
  (forall x, In x images -> exists q, x = "colored_images" :: q) ->
  forall st classes w1 w2,
    w_fs w1 = root_with others1 classes ->
    w_fs w2 = root_with others2 classes ->
    exists classes',
      fst (for_each (classify_one svc) images st w1)
      = fst (for_each (classify_one svc) images st w2)
      /\ w_fs (snd (for_each (classify_one svc) images st w1))
         = root_with others1 classes'
      /\ w_fs (snd (for_each (classify_one svc) images st w2))
         = root_with others2 classes'.
Proof.
  induction images as [|x t IH]; intros Hhead st classes w1 w2 H1 H2.
  - exists classes. now repeat split.
  - destruct (Hhead x (or_introl eq_refl)) as [q ->].
    destruct (classify_one_two_runs q st classes w1 w2 H1 H2)
      as (classes1 & Ho & Hf1 & Hf2).
    cbn [for_each]. unfold bind.
    destruct (classify_one svc ("colored_images" :: q) st w1) as [[st1|e1] w1'],
             (classify_one svc ("colored_images" :: q) st w2) as [[st2|e2] w2'];
      cbn [fst snd] in *; try discriminate.
    + inversion Ho. subst st2.
      apply (IH (fun y Hy => Hhead y (or_intror Hy)) st1 classes1 w1' w2' Hf1 Hf2).
    + exists classes1. now repeat split.
Qed.
End TwoRuns.

(* A run leaves the source directory as it found it. *)
Lemma run_keeps_source svc w :
  lookup SOURCE_DIR (w_fs (snd (classify_images svc w)))
  = lookup SOURCE_DIR (w_fs w).
Proof.
  destruct (run_end svc w) as [[Hsame _] | (es & Hfs & _ & _ & Hframe)].
  - now rewrite Hsame.
  - destruct Hframe as [[classes [Hfs' _]] _]. rewrite Hfs', Hfs.
    unfold SOURCE_DIR.
    rewrite (lookup_others _ "colored_images" [] classes) by discriminate.
    cbn [lookup]. now rewrite assoc_remove_key_other by discriminate.
Qed.

Lemma find_reads_source fs1 fs2 :
  lookup SOURCE_DIR fs1 = lookup SOURCE_DIR fs2 ->
  find_image_files_in SOURCE_DIR fs1 = find_image_files_in SOURCE_DIR fs2.
Proof. intros H. unfold find_image_files_in, os_walk. now rewrite H. Qed.

(** C6.  A second run of the batch classifier, started when the source
    directory is what it was and the output directory is what the first run
    left (the service being the same function), ends as the first run did
    and leaves the same output directory. *)
Theorem second_run_same_output svc w w1 :
  lookup SOURCE_DIR (w_fs w1) = lookup SOURCE_DIR (w_fs w) ->
  lookup OUTPUT_DIR (w_fs w1)
  = lookup OUTPUT_DIR (w_fs (snd (classify_images svc w))) ->
  lookup OUTPUT_DIR (w_fs (snd (classify_images svc w1)))
  = lookup OUTPUT_DIR (w_fs (snd (classify_images svc w)))
  /\ fst (classify_images svc w1) = fst (classify_images svc w).
Proof.
  intros Hsrc Hout.
  destruct (lookup SOURCE_DIR (w_fs w)) as [n|] eqn:Hsrc0.
  2:{ rewrite (run_source_missing svc w Hsrc0) in *.
      rewrite (run_source_missing svc w1 Hsrc). cbn [fst snd w_fs add_log] in *.
      now split. }
  assert (Himgs : find_image_files_in SOURCE_DIR (w_fs w1)
                  = find_image_files_in SOURCE_DIR (w_fs w))
    by (apply find_reads_source; congruence).
  destruct (find_image_files_in SOURCE_DIR (w_fs w)) as [|x t] eqn:Himgs0.
  { rewrite (run_no_images svc w) in * by congruence.
    rewrite (run_no_images svc w1) by congruence.
    cbn [fst snd w_fs add_log] in *. now split. }
  destruct (images_need_source (w_fs w)) as [es [n0 [Hfs Hs0]]];
    [rewrite Himgs0; discriminate |].
  destruct (images_need_source (w_fs w1)) as [es1 [n1 [Hfs1 Hs1]]];
    [rewrite Himgs; discriminate |].
  destruct w as [fs calls log out], w1 as [fs1 calls1 log1 out1].
  cbn [w_fs] in *. subst fs fs1.
  assert (Hne : find_image_files_in SOURCE_DIR (Dir es) <> [])
    by (rewrite Himgs0; discriminate).
  assert (Hne1 : find_image_files_in SOURCE_DIR (Dir es1) <> [])
    by (rewrite Himgs; discriminate).
  assert (Hsame : assoc "colored_images" es1 = assoc "colored_images" es).
  { unfold SOURCE_DIR in Hsrc, Hsrc0. cbn [lookup] in Hsrc, Hsrc0.
    destruct (assoc "colored_images" es1), (assoc "colored_images" es);
      congruence. }
  destruct (is_file (assoc "classified_images" es)) eqn:Hnf.
  - (* the first run stops in the set-up, and so does the second *)
    destruct (assoc "classified_images" es) as [[f|sub]|] eqn:Hout0;
      try discriminate.
    rewrite (run_setup_fails svc es f calls log out Hne Hout0) in *.
    cbn [fst snd w_fs] in *. unfold OUTPUT_DIR in Hout. cbn [lookup] in Hout.
    rewrite Hout0 in Hout.
    assert (Hout1 : assoc "classified_images" es1 = Some (File f))
      by (destruct (assoc "classified_images" es1); congruence).
    rewrite (run_setup_fails svc es1 f calls1 log1 out1 Hne1 Hout1).
    cbn [fst snd w_fs]. unfold OUTPUT_DIR. cbn [lookup].
    now rewrite Hout0, Hout1.
  - pose proof (assoc_remove_key_same _ "classified_images" es) as Hfresh.
    pose proof (assoc_remove_key_same _ "classified_images" es1) as Hfresh1.
    assert (Hsame' : assoc "colored_images" (remove_key "classified_images" es1)
                     = assoc "colored_images" (remove_key "classified_images" es))
      by (now rewrite !assoc_remove_key_other by discriminate).
    rewrite (run_from_setup svc es calls log out Hne Hnf) in *.
    rewrite Himgs0 in *.
    match type of Hout with
    | context [snd ((bind ?m ?k) ?x)] => set (wa := x) in *
    end.
    destruct (loop_two_runs svc _ _ Hfresh Hfresh (eq_refl _) (x :: t)) with
      (st := (zero_tally (class_labels svc), 0))
      (classes := const_dict (@nil (string * file)) (class_labels svc))
      (w1 := wa) (w2 := wa)
      as (classes_b & _ & Hfsb & _); try reflexivity.
    { intros y Hy. apply (found_image_head y (Dir es)). now rewrite Himgs0. }
    assert (Hend : w_fs (snd ((st <- for_each (classify_one svc) (x :: t)
                                         (zero_tally (class_labels svc), 0) ;;
                               fun w' => (Ok (Some st), add_log (summary_log st) w')) wa))
                   = root_with (remove_key "classified_images" es) classes_b).
    { unfold bind.
      destruct (for_each (classify_one svc) (x :: t) _ wa) as [[st|e] wb];
        exact Hfsb. }
    rewrite Hend in *. unfold OUTPUT_DIR in Hout |- *.
    rewrite (lookup_out _ Hfresh) in Hout |- *. cbn [lookup] in Hout.
    assert (Hout1 : assoc "classified_images" es1 = Some (out_tree classes_b))
      by (destruct (assoc "classified_images" es1); [exact Hout | discriminate Hout]).
    assert (Hnf1 : is_file (assoc "classified_images" es1) = false)
      by (now rewrite Hout1).
    rewrite (run_from_setup svc es1 calls1 log1 out1 Hne1 Hnf1).
    rewrite Himgs.
    match goal with
    | |- context [snd ((bind ?m ?k) ?x)] => set (wa1 := x) in *
    end.
    destruct (loop_two_runs svc _ _ Hfresh1 Hfresh Hsame' (x :: t)) with
      (st := (zero_tally (class_labels svc), 0))
      (classes := const_dict (@nil (string * file)) (class_labels svc))
      (w1 := wa1) (w2 := wa)
      as (classes_c & Ho & Hfsc1 & Hfsc); try reflexivity.
    { intros y Hy. apply (found_image_head y (Dir es)). now rewrite Himgs0. }
    assert (classes_c = classes_b) as ->.
    { rewrite Hfsb in Hfsc. unfold root_with in Hfsc. inversion Hfsc as [E].
      apply app_inv_head in E. inversion E as [E'].
      unfold out_tree in E'. inversion E' as [E''].
      clear - E''. revert classes_c E''.
      induction classes_b as [|[k files] tl IH]; intros [|[k' files'] tl'] E;
        try discriminate; [reflexivity |].
      cbn [map_vals map fst snd] in E. inversion E as [[Hk Hf Ht]].
      f_equal.
      - f_equal. clear - Hf. revert files' Hf.
        induction files as [|[a b] r IHr]; intros [|[a' b'] r'] E;
          try discriminate; [reflexivity |].
        cbn [map_vals map fst snd] in E. inversion E. f_equal. now apply IHr.
      - now apply IH. }
    unfold bind in *.
    destruct (for_each (classify_one svc) (x :: t) _ wa1) as [[st1|e1] wb1],
             (for_each (classify_one svc) (x :: t) _ wa) as [[st0|e0] wb0];
      cbn [fst snd] in *; try discriminate;
      inversion Ho; subst; cbn [w_fs add_log];
      rewrite ?Hfsc1; rewrite (lookup_out _ Hfresh1); now split.
Qed.

Lemma second_run_same_output_witness :
  lookup OUTPUT_DIR
    (w_fs (snd (classify_images sample_service
                  (start (w_fs (snd (classify_images sample_service
                                       (start sample_fs))))))))
  = Some (Dir [("Mild", Dir [("a.png", File (sample_file "mild fundus"))]);
               ("Moderate", Dir []);
               ("No_DR", Dir [("b.jpg", File (sample_file "healthy fundus"))]);
               ("Proliferate_DR", Dir []);
               ("Severe", Dir [])])
  /\ lookup OUTPUT_DIR (w_fs (snd (classify_images sample_service (start sample_fs))))
     = Some (Dir [("Mild", Dir [("a.png", File (sample_file "mild fundus"))]);
                  ("Moderate", Dir []);
                  ("No_DR", Dir [("b.jpg", File (sample_file "healthy fundus"))]);
                  ("Proliferate_DR", Dir []);
                  ("Severe", Dir [])]).
Proof.
  destruct (second_run_same_output sample_service (start sample_fs)
              (start (w_fs (snd (classify_images sample_service (start sample_fs))))))
    as [H _].
  - vm_compute. reflexivity.
  - vm_compute. reflexivity.
  - rewrite H. split; vm_compute; reflexivity.
Defined.

(* The script as it is written: on a file system where none of its three
   test images exists, it prints three not-found lines between its header and
   its footer. *)
Example test_prediction_consistency_example :
  test_prediction_consistency sample_service (fun b : string => Some b)
    (start sample_fs)
  = (Ok tt,
     add_stdout [PTesting; PRule;
                 PNotFound "classified_images/Mild/0773a1c326ad.png";
                 PNotFound "classified_images/No_DR/0151781fe50b.png";
                 PNotFound "classified_images/Moderate/000c1434d8d7.png";
                 PRule; PComplete] (start sample_fs)).
Proof. vm_compute. reflexivity. Qed.

(** ** The checker against the classifier, and the confidences *)



(** C8.  A test case whose file does not exist prints the not-found line
    and nothing else, so neither a pass nor a fail; a case whose
    preprocessing raises, whose prediction call raises, or for which the
    service reports a failure prints a failure line and no verdict; a case
    never raises and leaves the file system alone, and the loop goes on
    with the remaining cases. *)
Theorem checker_reports_and_continues svc array (pil : string -> option array)
        img expected rest w :
  (lookup (Path img) (w_fs w) = None ->
   check_case svc pil (img, expected) w = (Ok tt, add_stdout [PNotFound img] w))
  /\ (forall n,
        lookup (Path img) (w_fs w) = Some n ->
        match n with File f => pil (f_bytes f) = None | Dir _ => True end ->
        exists e,
          check_case svc pil (img, expected) w
          = (Ok tt, add_stdout [PTestingFrom (path_name (path_parent (Path img)));
                                PImage (path_name (Path img));
                                PErrorPreprocessing img e; PFailedPreprocess] w))
  /\ (forall f a,
        lookup (Path img) (w_fs w) = Some (File f) ->
        pil (f_bytes f) = Some a ->
        attempt_fails svc (w_fs w) (Path img) ->
        exists report,
          check_case svc pil (img, expected) w
          = (Ok tt, add_stdout [PTestingFrom (path_name (path_parent (Path img)));
                                PImage (path_name (Path img)); report] w)
          /\ is_failure_report report = true
          /\ (forall msg, process_image svc (f_bytes f) = Raises msg ->
                          report = PErrorGetting (ServiceError msg))
          /\ (forall r, process_image svc (f_bytes f) = Returns r ->
                        get_default (r_success r) false = false ->
                        report = PPredictionFailed
                                   (get_default (r_error r) "Unknown error")))
  /\ (exists lines,
        check_case svc pil (img, expected) w = (Ok tt, add_stdout lines w)
        /\ (existsb is_verdict lines = true ->
            exists l conf,
              fst (predict_image_using_django_service svc (Path img) w)
              = Ok (Some l, Some conf)))
  /\ for_in (check_case svc pil) ((img, expected) :: rest) w
     = for_in (check_case svc pil) rest (snd (check_case svc pil (img, expected) w)).
Proof.
  split; [| split; [| split; [| split]]].
  - intros Hp. rewrite check_case_lines. unfold case_lines. cbn [fst]. now rewrite Hp.
  - intros n Hp Hpre. rewrite check_case_lines. unfold case_lines. cbn [fst].
    rewrite Hp. destruct n as [f|es].
    + rewrite Hpre. eexists. reflexivity.
    + eexists. reflexivity.
  - intros f a Hp Hpil Hfail. rewrite check_case_lines. unfold case_lines.
    cbn [fst snd]. rewrite Hp, Hpil.
    apply attempt_fails_answer in Hfail. unfold service_answer in Hfail.
    rewrite Hp in Hfail.
    destruct (process_image svc (f_bytes f)) as [r|msg].
    + destruct (get_default (r_success r) false) eqn:Hs.
      * destruct (r_prediction r) as [l'|], (r_confidence r) as [c'|];
          try discriminate;
          (eexists; split; [reflexivity |]; split; [reflexivity |];
           split; [intros msg0 H0; discriminate H0
                  | intros r0 Hr H0; inversion Hr; subst r0; congruence]).
      * eexists. split; [reflexivity |]. split; [reflexivity |].
        split; [intros msg0 H0; discriminate H0 |]. intros r0 Hr _. now inversion Hr.
    + eexists. split; [reflexivity |]. split; [reflexivity |].
      split; [| intros r0 H0; discriminate H0]. intros msg0 Hm. now inversion Hm.
  - exists (case_lines svc pil (w_fs w) (img, expected)).
    split; [apply check_case_lines |].
    unfold case_lines. cbn [fst snd].
    destruct (lookup (Path img) (w_fs w)) as [[f|es]|] eqn:Hp; try discriminate.
    destruct (pil (f_bytes f)) as [a|]; try discriminate.
    intros Hv.
    assert (exists l conf, service_answer svc (w_fs w) (Path img) = Some (l, conf))
      as (l & conf & Ha).
    { unfold service_answer. rewrite Hp.
      destruct (process_image svc (f_bytes f)) as [r|msg]; [| discriminate].
      destruct (get_default (r_success r) false); [| discriminate].
      destruct (r_prediction r) as [l'|], (r_confidence r) as [c'|];
        try discriminate.
      now eexists _, _. }
    exists l, conf. now apply predict_answer.
  - cbn [for_in]. unfold bind. rewrite check_case_lines. reflexivity.
Qed.

Lemma checker_reports_and_continues_witness :
  check_case sample_service (fun b : string => Some b)
    ("classified_images/Mild/0773a1c326ad.png", "Mild") (start sample_fs)
  = (Ok tt, add_stdout [PNotFound "classified_images/Mild/0773a1c326ad.png"]
              (start sample_fs))
  /\ w_stdout (snd (run_cases sample_service (fun b : string => Some b)
                      [("classified_images/Mild/0773a1c326ad.png", "Mild");
                       ("colored_images/c.PNG", "Mild");
                       ("colored_images/d.bmp", "Mild");
                       ("colored_images/b.jpg", "Mild")]
                      (start sample_fs)))
     = [PTesting; PRule;
        PNotFound "classified_images/Mild/0773a1c326ad.png";
        PTestingFrom "colored_images"; PImage "c.PNG";
        PErrorGetting (ServiceError "cannot identify image file");
        PTestingFrom "colored_images"; PImage "d.bmp";
        PPredictionFailed "not a fundus image";
        PTestingFrom "colored_images"; PImage "b.jpg";
        PPredicted "No_DR"; PConfidence ((199 # 2) / 100)%Q; PMismatch "Mild" "No_DR";
        PRule; PComplete].
Proof.
  destruct (checker_reports_and_continues sample_service string
              (fun b : string => Some b)
              "classified_images/Mild/0773a1c326ad.png" "Mild" [] (start sample_fs))
    as (Hmissing & _).
  split; [apply Hmissing; reflexivity |].
  vm_compute. reflexivity.
Defined.


Lemma run_cases_lines svc array (pil : string -> option array) cases w :
  run_cases svc pil cases w
  = (Ok tt,
     add_stdout (PTesting :: PRule :: flat_map (case_lines svc pil (w_fs w)) cases
                 ++ [PRule; PComplete]) w).
Proof.
  unfold run_cases.
  erewrite bind_ok by reflexivity. erewrite bind_ok by reflexivity.
  erewrite bind_ok by apply for_in_check_case.
  unfold bind, print, add_stdout. cbn [w_fs w_calls w_log w_stdout].
  now rewrite <- !app_assoc.
Qed.

Section Confidence.
Variable svc : service.
Hypothesis service_range :
  forall b r c,
    process_image svc b = Returns r -> r_success r = Some true ->
    r_confidence r = Some c -> (0 <= c <= 100)%Q.



End Confidence.



(** C10.  A run of the batch classifier either leaves the file system as it
    found it (no image, or a set-up that fails) or rebuilds the output
    directory, and then, however the run ends: every copy is made into a
    class folder under the base name of its source, and the entries of each
    class folder have distinct names.  When the run ends normally after its
    loop, each entry of a class folder bears the base name of a discovered
    image and the folder holds at most as many entries as the tally of its
    class.  With two images named [eye.png] in two source sub-directories,
    both predicted [Mild], the tally of [Mild] is 2 while its folder holds the
    single file copied last. *)
Theorem one_file_per_base_name svc w :
  (w_fs (snd (classify_images svc w)) = w_fs w
   \/ (forall l entries,
          lookup (path_join OUTPUT_DIR l) (w_fs (snd (classify_images svc w)))
          = Some (Dir entries) ->
          NoDup (keys entries))
      /\ exists out_existed copies,
           w_calls (snd (classify_images svc w))
           = w_calls w ++ setup_calls out_existed (class_labels svc) ++ copies
           /\ Forall copy_by_base_name copies)
  /\ (forall st w',
        classify_images svc w = (Ok (Some st), w') ->
        forall l entries,
          lookup (path_join OUTPUT_DIR l) (w_fs w') = Some (Dir entries) ->
          (forall name, In name (keys entries) ->
             exists img, In img (find_image_files_in SOURCE_DIR (w_fs w))
                         /\ path_name img = name)
          /\ exists n, assoc l (fst st) = Some n /\ List.length entries <= n)
  /\ (exists results twin_end,
        classify_images sample_service (start twin_fs)
        = (Ok (Some (results, 2)), twin_end)
        /\ assoc "Mild" results = Some 2
        /\ lookup (path_join OUTPUT_DIR "Mild") (w_fs twin_end)
           = Some (Dir [("eye.png",
                         File {| f_bytes := "mild fundus";
                                 f_stat := {| st_mode := 384%N; st_atime := 5%Z;
                                              st_mtime := 7%Z |} |})])
        /\ w_calls twin_end
           = setup_calls false dr_labels
             ++ [Copy2 ["colored_images"; "left"; "eye.png"]
                       ["classified_images"; "Mild"; "eye.png"];
                 Copy2 ["colored_images"; "right"; "eye.png"]
                       ["classified_images"; "Mild"; "eye.png"]]).
Proof.
  split; [| split].
  - destruct (run_end svc w) as [[Hsame _] | (es & Hfs & _ & _ & Hframe)];
      [now left | right].
    destruct Hframe as [[classes (Hfs' & _ & Hnd)] [[cs [Hcalls Hcs]] _]].
    pose proof (assoc_remove_key_same _ "classified_images" es) as Hfresh.
    split.
    + intros l entries. rewrite Hfs'. cbn [path_join OUTPUT_DIR app].
      rewrite (lookup_out _ Hfresh), lookup_class.
      destruct (assoc l classes) as [files|] eqn:Hl; [| discriminate].
      cbn [option_map]. intros H. inversion H. rewrite keys_map_vals.
      now apply (Hnd l).
    + exists (is_some (assoc "classified_images" es)), cs.
      split; [now rewrite Hcalls, <- app_assoc | exact Hcs].
  - intros st w' Hrun. destruct (run_completed _ _ _ _ Hrun) as [w2 [Hloop ->]].
    destruct (in_loop_facts _ _ _ _ _ Hloop) as [es (Hfs & _ & Hinv & _)].
    destruct Hinv as [classes (Hfs2 & _ & _ & _ & _ & Hcl)].
    pose proof (assoc_remove_key_same _ "classified_images" es) as Hfresh.
    intros l entries. cbn [w_fs add_log]. rewrite Hfs2.
    cbn [path_join OUTPUT_DIR app]. rewrite (lookup_out _ Hfresh), lookup_class.
    destruct (assoc l classes) as [files|] eqn:Hl; [| discriminate].
    cbn [option_map]. intros H. inversion H. subst entries.
    rewrite keys_map_vals. unfold map_vals at 1. rewrite length_map.
    apply (Hcl l files Hl).
  - eexists _, _. split; [vm_compute; reflexivity |].
    split; [reflexivity |]. split; reflexivity.
Qed.

Lemma one_file_per_base_name_witness :
  fst (classify_images sample_service (start twin_fs))
  = Ok (Some ([("Mild", 2); ("Moderate", 0); ("No_DR", 0);
               ("Proliferate_DR", 0); ("Severe", 0)], 2))
  /\ forall entries,
       lookup (path_join OUTPUT_DIR "Mild")
              (w_fs (snd (classify_images sample_service (start twin_fs))))
       = Some (Dir entries) ->
       List.length entries <= 2.
Proof.
  split; [vm_compute; reflexivity |].
  intros entries Hentries.
  destruct (one_file_per_base_name sample_service (start twin_fs))
    as (_ & Hgen & _).
  destruct (Hgen ([("Mild", 2); ("Moderate", 0); ("No_DR", 0);
                   ("Proliferate_DR", 0); ("Severe", 0)], 2)
                 (snd (classify_images sample_service (start twin_fs))))
    with (l := "Mild") (entries := entries) as (_ & n & Hn & Hle).
  - vm_compute. reflexivity.
  - exact Hentries.
  - vm_compute in Hn. inversion Hn. subst n. exact Hle.
Defined.

(** * Further properties *)

(** ** The loop, tally by tally and file by file *)

Section LoopAccount.
Variable svc : service.
Variable others : list (string * node).
Hypothesis others_fresh : assoc "classified_images" others = None.
Variable images : list path.

Lemma answered_others s q l classes :
  s <> "classified_images" ->
  answered svc (root_with others classes) l (s :: q)
  = answered svc (Dir others) l (s :: q).
Proof.
  intros Hs. unfold answered. now rewrite (service_answer_others svc others s q classes Hs).
Qed.

Lemma unlabelled_not_answered fs x l :
  labelled svc fs x = false -> answered svc fs l x = false.
Proof.
  unfold labelled, answered. destruct (service_answer svc fs x) as [[l' c]|];
    [| reflexivity].
  now intros ->.
Qed.

Lemma classify_one_keeps_account done q st :
  In ("colored_images" :: q) images ->
  triple (loop_account svc others done st)
         (classify_one svc ("colored_images" :: q) st)
         (loop_account svc others (done ++ ["colored_images" :: q]))
         (fun e _ => stray_answer svc (Dir others) images e).
Proof.
  intros Hx. destruct st as [results processed].
  intros [fs calls log out] [classes (Hfs & Hkc & Hkr & Hcnt & Hprov & Hcov)].
  cbn [w_fs fst snd] in *. subst fs.
  assert (Hs : "colored_images" <> "classified_images") by discriminate.
  set (x := "colored_images" :: q) in *.
  pose proof (labelled_others svc others "colored_images" q classes Hs) as Hlab.
  pose proof (service_answer_others svc others "colored_images" q classes Hs) as Hsa.
  fold x in Hlab, Hsa.
  destruct (labelled svc (Dir others) x) eqn:Hlx.
  - assert (Ha := Hlx). unfold labelled in Ha.
    destruct (service_answer svc (Dir others) x) as [[l conf]|] eqn:Hans;
      [| discriminate].
    destruct (service_answer_file _ _ _ _ Hans) as [f Hf].
    assert (Hax : answered svc (Dir others) l x = true)
      by (unfold answered; now rewrite Hans, Ha, String.eqb_refl).
    destruct (assoc l classes) as [files|] eqn:Hl.
    + unfold x. rewrite (classify_one_copies svc others others_fresh
                 "colored_images" q l conf f files classes results processed
                 calls log out Hs Hsa Ha Hf Hl).
      cbv zeta. fold x.
      destruct (assoc l results) as [n|] eqn:Hn.
      2:{ exfalso. apply (proj1 (assoc_absent_keys _ l results) Hn).
          rewrite Hkr, <- Hkc. apply assoc_in_keys. congruence. }
      exists (upsert l (upsert (path_name x) f files) classes).
      cbn [w_fs fst snd]. split; [reflexivity |].
      split; [rewrite keys_upsert_present by congruence; exact Hkc |].
      split; [rewrite keys_upsert_present by congruence; exact Hkr |].
      split; [| split].
      * intros l0 n0. rewrite count_where_snoc.
        destruct (String.eqb l l0) eqn:E.
        -- apply String.eqb_eq in E. subst l0. rewrite assoc_upsert_same, Hax.
           intros H. inversion H. now rewrite (Hcnt l n Hn).
        -- rewrite assoc_upsert_other by (now apply String.eqb_neq).
           intros H. unfold answered at 2. rewrite Hans, E, andb_false_r.
           rewrite Nat.add_0_r. now apply Hcnt.
      * intros l0 files0 name f0.
        destruct (String.eqb l l0) eqn:E.
        -- apply String.eqb_eq in E. subst l0. rewrite assoc_upsert_same.
           intros H. inversion H. subst files0. clear H.
           destruct (String.eqb (path_name x) name) eqn:En.
           ++ apply String.eqb_eq in En. subst name. rewrite assoc_upsert_same.
              intros H. inversion H. subst f0.
              exists x. split; [apply in_or_app; right; now left |].
              now repeat split.
           ++ rewrite assoc_upsert_other by (now apply String.eqb_neq).
              intros H. destruct (Hprov l files name f0 Hl H)
                as (img & Hin & Hname & Hsrc & Himg).
              exists img. split; [apply in_or_app; now left | now repeat split].
        -- rewrite assoc_upsert_other by (now apply String.eqb_neq).
           intros H1 H2. destruct (Hprov l0 files0 name f0 H1 H2)
             as (img & Hin & Hname & Hsrc & Himg).
           exists img. split; [apply in_or_app; now left | now repeat split].
      * intros img l0 Hin Himg.
        apply in_app_or in Hin. destruct Hin as [Hin | [<- | []]].
        -- destruct (Hcov img l0 Hin Himg) as (files0 & f0 & H1 & H2).
           destruct (String.eqb l l0) eqn:E.
           ++ apply String.eqb_eq in E. subst l0. rewrite assoc_upsert_same.
              assert (files0 = files) by congruence. subst files0.
              exists (upsert (path_name x) f files).
              destruct (String.eqb (path_name x) (path_name img)) eqn:En.
              ** apply String.eqb_eq in En. rewrite <- En, assoc_upsert_same.
                 now exists f.
              ** rewrite assoc_upsert_other by (now apply String.eqb_neq).
                 now exists f0.
           ++ rewrite assoc_upsert_other by (now apply String.eqb_neq).
              now exists files0, f0.
        -- unfold answered in Himg. rewrite Hans in Himg.
           apply andb_prop in Himg. destruct Himg as [_ E].
           apply String.eqb_eq in E. subst l0.
           exists (upsert (path_name x) f files), f.
           now rewrite !assoc_upsert_same.
    + unfold x. rewrite (classify_one_unknown svc others others_fresh
                 "colored_images" q l conf classes results processed
                 calls log out Hs Hsa Ha Hl).
      exists x, l, conf. repeat split; try assumption.
      intros Hin. apply (proj1 (assoc_absent_keys _ l classes) Hl).
      rewrite Hkc. now apply keys_const_dict.
  - destruct (classify_one_skip svc x results processed
                {| w_fs := root_with others classes; w_calls := calls;
                   w_log := log; w_stdout := out |} Hlab) as [extra [Hrun _]].
    rewrite Hrun. exists classes. cbn [w_fs add_log fst snd].
    split; [reflexivity |]. split; [exact Hkc |]. split; [exact Hkr |].
    split; [| split].
    + intros l0 n0 H. rewrite count_where_snoc.
      rewrite (unlabelled_not_answered _ _ l0 Hlx), Nat.add_0_r. now apply Hcnt.
    + intros l0 files0 name f0 H1 H2.
      destruct (Hprov l0 files0 name f0 H1 H2) as (img & Hin & Hname & Hsrc & Himg).
      exists img. split; [apply in_or_app; now left | now repeat split].
    + intros img l0 Hin Himg.
      apply in_app_or in Hin. destruct Hin as [Hin | [<- | []]].
      * now apply Hcov.
      * rewrite (unlabelled_not_answered _ _ l0 Hlx) in Himg. discriminate.
Qed.

Lemma loop_keeps_account todo :
  (forall x, In x todo -> In x images /\ exists q, x = "colored_images" :: q) ->
  forall done st,
    triple (loop_account svc others done st)
           (for_each (classify_one svc) todo st)
           (loop_account svc others (done ++ todo))
           (fun e _ => stray_answer svc (Dir others) images e).
Proof.
  intros Htodo. apply triple_for_each. intros done x st Hx.
  destruct (Htodo x Hx) as [Hin [q ->]]. now apply classify_one_keeps_account.
Qed.

Lemma loop_account_start w :
  w_fs w = root_with others (const_dict [] (class_labels svc)) ->
  loop_account svc others [] (zero_tally (class_labels svc), 0) w.
Proof.
  intros Hfs. exists (const_dict [] (class_labels svc)). cbn [fst snd].
  split; [exact Hfs |]. split; [apply keys_empty_classes |].
  split; [reflexivity |]. split; [| split].
  - intros l n Hn. apply (assoc_const_dict _ 0 (class_labels svc) l n Hn).
  - intros l files name f Hl. rewrite (assoc_const_dict _ _ _ _ _ Hl). discriminate.
  - intros img l [].
Qed.
End LoopAccount.

(** ** Runs that get past the set-up *)

Lemma service_answer_same_file svc fs1 fs2 p1 p2 f :
  lookup p1 fs1 = Some (File f) -> lookup p2 fs2 = Some (File f) ->
  service_answer svc fs1 p1 = service_answer svc fs2 p2.
Proof. intros H1 H2. unfold service_answer. now rewrite H1, H2. Qed.

Lemma lookup_without_out es q :
  lookup ("colored_images" :: q) (Dir (remove_key "classified_images" es))
  = lookup ("colored_images" :: q) (Dir es).
Proof. cbn [lookup]. now rewrite assoc_remove_key_other by discriminate. Qed.

Lemma service_answer_without_out svc es q :
  service_answer svc (Dir (remove_key "classified_images" es)) ("colored_images" :: q)
  = service_answer svc (Dir es) ("colored_images" :: q).
Proof. unfold service_answer. now rewrite lookup_without_out. Qed.

Lemma answered_without_out svc es l q :
  answered svc (Dir (remove_key "classified_images" es)) l ("colored_images" :: q)
  = answered svc (Dir es) l ("colored_images" :: q).
Proof. unfold answered. now rewrite service_answer_without_out. Qed.

Lemma out_is_file_root es :
  is_file (lookup OUTPUT_DIR (Dir es)) = is_file (assoc "classified_images" es).
Proof.
  unfold OUTPUT_DIR. cbn [lookup]. now destruct (assoc "classified_images" es).
Qed.

(* A run that finds an image, with an output directory that is not a file:
   it ends after its loop with every tally and every output file accounted
   for, or it raises on the copy of an image that got an unlisted label. *)
Lemma run_accounted svc w :
  find_image_files_in SOURCE_DIR (w_fs w) <> [] ->
  is_file (lookup OUTPUT_DIR (w_fs w)) = false ->
  exists es,
    w_fs w = Dir es
    /\ match classify_images svc w with
       | (Ok (Some st), w') =>
           loop_account svc (remove_key "classified_images" es)
             (find_image_files_in SOURCE_DIR (w_fs w)) st w'
       | (Ok None, _) => False
       | (Raise e, _) =>
           stray_answer svc (w_fs w) (find_image_files_in SOURCE_DIR (w_fs w)) e
       end.
Proof.
  intros Hne Hnf. destruct (images_need_source _ Hne) as [es [n [Hfs _]]].
  exists es. split; [exact Hfs |].
  destruct w as [fs calls log out]. cbn [w_fs] in *. subst fs.
  rewrite out_is_file_root in Hnf.
  rewrite (run_from_setup svc es calls log out Hne Hnf).
  pose proof (assoc_remove_key_same _ "classified_images" es) as Hfresh.
  set (others := remove_key "classified_images" es) in *.
  set (images := find_image_files_in SOURCE_DIR (Dir es)) in *.
  match goal with |- context [bind _ _ ?x] => set (w1 := x) end.
  assert (Htodo : forall x, In x images ->
                    In x images /\ exists q, x = "colored_images" :: q).
  { intros x Hx. split; [exact Hx | now apply (found_image_head x (Dir es))]. }
  pose proof (loop_keeps_account svc others Hfresh images images Htodo []
                (zero_tally (class_labels svc), 0) w1
                (loop_account_start svc others w1 eq_refl)) as H.
  unfold bind.
  destruct (for_each (classify_one svc) images _ w1) as [[st|e] w2].
  - destruct H as [classes H]. exists classes. exact H.
  - destruct H as (x & l & c & Hx & Ha & Ht & Hl & He).
    exists x, l, c. split; [exact Hx |]. split; [| now repeat split].
    destruct (found_image_head x (Dir es) Hx) as [q ->].
    now rewrite <- service_answer_without_out.
Qed.

(* A run that returns its tallies found an image and an output directory
   that is not a file. *)
Lemma completed_run_is_main svc w st w' :
  classify_images svc w = (Ok (Some st), w') ->
  find_image_files_in SOURCE_DIR (w_fs w) <> []
  /\ is_file (lookup OUTPUT_DIR (w_fs w)) = false.
Proof.
  intros Hrun. destruct (run_completed _ _ _ _ Hrun) as [w2 [Hloop _]].
  destruct (in_loop_facts _ _ _ _ _ Hloop) as [es (Hfs & Hnf & _)].
  destruct Hloop as [rest (Himgs & Hne & _)].
  split; [now rewrite Himgs |]. now rewrite Hfs, out_is_file_root.
Qed.

Lemma completed_run_account svc w st w' :
  classify_images svc w = (Ok (Some st), w') ->
  exists es,
    w_fs w = Dir es
    /\ loop_account svc (remove_key "classified_images" es)
         (find_image_files_in SOURCE_DIR (w_fs w)) st w'.
Proof.
  intros Hrun. destruct (completed_run_is_main _ _ _ _ Hrun) as [Hne Hnf].
  destruct (run_accounted svc w Hne Hnf) as [es [Hfs H]].
  rewrite Hrun in H. now exists es.
Qed.

Lemma answered_label svc fs l x :
  answered svc fs l x = true <->
  exists c, service_answer svc fs x = Some (l, c) /\ truthy l = true.
Proof.
  unfold answered. destruct (service_answer svc fs x) as [[l' c]|]; split.
  - intros H. apply andb_prop in H. destruct H as [Ht E].
    apply String.eqb_eq in E. subst l'. now exists c.
  - intros [c' [E Ht]]. inversion E. subst. now rewrite Ht, String.eqb_refl.
  - discriminate.
  - now intros [c [E _]].
Qed.

Lemma answered_is_labelled svc fs l x :
  answered svc fs l x = true -> labelled svc fs x = true.
Proof.
  intros H. destruct (labelled svc fs x) eqn:E; [reflexivity |].
  now rewrite (unlabelled_not_answered svc fs x l E) in H.
Qed.

Lemma count_answered_without_out svc es l :
  count_where (answered svc (Dir (remove_key "classified_images" es)) l)
              (find_image_files_in SOURCE_DIR (Dir es))
  = count_where (answered svc (Dir es) l) (find_image_files_in SOURCE_DIR (Dir es)).
Proof.
  apply count_where_ext_in. intros x Hx.
  destruct (found_image_head x (Dir es) Hx) as [q ->].
  apply answered_without_out.
Qed.

(** X1.  In a run of [classify_images] that returns its tallies, the tally
    has exactly one entry for each distinct label listed by the service, and
    the entry of a label is the number of discovered images for which the
    service answered that label. *)
Theorem tally_counts_answers svc w results processed w' :
  classify_images svc w = (Ok (Some (results, processed)), w') ->
  NoDup (keys results)
  /\ (forall l, In l (keys results) <-> In l (class_labels svc))
  /\ forall l, In l (class_labels svc) ->
       assoc l results
       = Some (count_where (answered svc (w_fs w) l)
                           (find_image_files_in SOURCE_DIR (w_fs w))).
Proof.
  intros Hrun.
  destruct (completed_run_account _ _ _ _ Hrun)
    as (es & Hfs & classes & _ & _ & Hkr & Hcnt & _).
  cbn [fst] in *. rewrite Hfs in *.
  change (zero_tally (class_labels svc)) with (const_dict 0 (class_labels svc)) in Hkr.
  split; [rewrite Hkr; apply NoDup_keys_const_dict |].
  split; [intros l; rewrite Hkr; apply keys_const_dict |].
  intros l Hl.
  destruct (assoc l results) as [n|] eqn:Hn.
  - rewrite (Hcnt l n Hn). now rewrite count_answered_without_out.
  - exfalso. apply (proj1 (assoc_absent_keys _ l results) Hn).
    rewrite Hkr. now apply keys_const_dict.
Qed.

Lemma tally_counts_answers_witness :
  assoc "No_DR" [("Mild", 1); ("Moderate", 0); ("No_DR", 1);
                 ("Proliferate_DR", 0); ("Severe", 0)]
  = Some (count_where (answered sample_service sample_fs "No_DR")
                      (find_image_files_in SOURCE_DIR sample_fs)).
Proof.
  destruct (tally_counts_answers sample_service (start sample_fs)
              [("Mild", 1); ("Moderate", 0); ("No_DR", 1);
               ("Proliferate_DR", 0); ("Severe", 0)] 2
              (snd (classify_images sample_service (start sample_fs))))
    as (_ & _ & H).
  - vm_compute. reflexivity.
  - apply (H "No_DR"). vm_compute. tauto.
Defined.

(** X2.  After a run of [classify_images] that returns its tallies, the
    class folders hold what was answered and nothing else: a file
    [classified_images/l/name] has the bytes and the metadata of a
    discovered image of base name [name] for which the service answered the
    listed label [l], and every discovered image for which the service
    answered [l] has a file of its base name in [classified_images/l].
    Nothing of an earlier output directory is left. *)
Theorem output_is_what_was_answered svc w st w' :
  classify_images svc w = (Ok (Some st), w') ->
  (forall l name f,
      lookup (path_join (path_join OUTPUT_DIR l) name) (w_fs w') = Some (File f) ->
      In l (class_labels svc)
      /\ exists img,
           In img (find_image_files_in SOURCE_DIR (w_fs w))
           /\ path_name img = name
           /\ lookup img (w_fs w) = Some (File f)
           /\ answered svc (w_fs w) l img = true)
  /\ (forall img l,
        In img (find_image_files_in SOURCE_DIR (w_fs w)) ->
        answered svc (w_fs w) l img = true ->
        exists f,
          lookup (path_join (path_join OUTPUT_DIR l) (path_name img)) (w_fs w')
          = Some (File f))
  /\ (forall l name q,
        q <> [] ->
        lookup (path_join (path_join OUTPUT_DIR l) name ++ q) (w_fs w') = None).
Proof.
  intros Hrun.
  destruct (completed_run_account _ _ _ _ Hrun)
    as (es & Hfs & classes & Hfs' & Hkc & _ & _ & Hprov & Hcov).
  pose proof (assoc_remove_key_same _ "classified_images" es) as Hfresh.
  rewrite Hfs in *. rewrite Hfs'.
  change (zero_tally (class_labels svc)) with (const_dict 0 (class_labels svc)) in Hkc.
  split; [| split].
  - intros l name f. unfold OUTPUT_DIR, path_join. cbn [app].
    rewrite (lookup_out _ Hfresh), lookup_class_file.
    destruct (assoc l classes) as [files|] eqn:Hl; [| discriminate].
    destruct (assoc name files) as [f'|] eqn:Hname; [| discriminate].
    intros H. inversion H. subst f'. clear H.
    split.
    + apply (keys_const_dict _ 0). rewrite <- Hkc. apply assoc_in_keys. congruence.
    + destruct (Hprov l files name f Hl Hname) as (img & Hin & Hn & Hsrc & Himg).
      exists img. destruct (found_image_head img (Dir es) Hin) as [q ->].
      rewrite lookup_without_out in Hsrc. rewrite answered_without_out in Himg.
      now repeat split.
  - intros img l Hin Himg.
    destruct (found_image_head img (Dir es) Hin) as [q ->].
    rewrite <- answered_without_out in Himg.
    destruct (Hcov _ l Hin Himg) as (files & f & Hl & Hf).
    exists f. unfold OUTPUT_DIR, path_join. cbn [app].
    rewrite (lookup_out _ Hfresh), lookup_class_file, Hl, Hf. reflexivity.
  - intros l name q Hq. unfold OUTPUT_DIR, path_join. cbn [app].
    rewrite (lookup_out _ Hfresh). destruct q as [|c q]; [congruence |].
    unfold out_tree. cbn [lookup]. rewrite assoc_map_vals.
    destruct (assoc l classes) as [files|]; [| reflexivity].
    cbn [option_map lookup]. rewrite assoc_map_vals.
    destruct (assoc name files); reflexivity.
Qed.

Lemma output_is_what_was_answered_witness :
  (exists img,
      In img (find_image_files_in SOURCE_DIR sample_fs)
      /\ path_name img = "b.jpg"
      /\ lookup img sample_fs = Some (File (sample_file "healthy fundus"))
      /\ answered sample_service sample_fs "No_DR" img = true)
  /\ lookup (path_join (path_join OUTPUT_DIR "Mild") "old.png")
            (w_fs (snd (classify_images sample_service (start sample_fs))))
     = None.
Proof.
  destruct (output_is_what_was_answered sample_service (start sample_fs)
              ([("Mild", 1); ("Moderate", 0); ("No_DR", 1);
                ("Proliferate_DR", 0); ("Severe", 0)], 2)
              (snd (classify_images sample_service (start sample_fs))))
    as (H & _ & _).
  - vm_compute. reflexivity.
  - split.
    + apply (H "No_DR" "b.jpg" (sample_file "healthy fundus")).
      vm_compute. reflexivity.
    + vm_compute. reflexivity.
Defined.



(** X4.  When an image is found, [classified_images] is not a regular file
    and every non-empty label that the service answers for a discovered
    image is among its class labels, [classify_images] raises nothing: it
    goes through every image and returns its tallies. *)
Theorem listed_answers_complete_the_run svc w :
  find_image_files_in SOURCE_DIR (w_fs w) <> [] ->
  is_file (lookup OUTPUT_DIR (w_fs w)) = false ->
  (forall x l,
      In x (find_image_files_in SOURCE_DIR (w_fs w)) ->
      answered svc (w_fs w) l x = true -> In l (class_labels svc)) ->
  exists st w', classify_images svc w = (Ok (Some st), w').
Proof.
  intros Hne Hf Hlisted.
  destruct (run_accounted svc w Hne Hf) as [es [_ H]].
  destruct (classify_images svc w) as [[[st|]|e] w'].
  - now exists st, w'.
  - destruct H.
  - exfalso. destruct H as (x & l & c & Hx & Ha & Ht & Hl & _).
    apply Hl, (Hlisted x l Hx). apply answered_label. now exists c.
Qed.

Lemma listed_answers_complete_the_run_witness :
  exists st w', classify_images sample_service (start sample_fs) = (Ok (Some st), w').
Proof.
  apply (listed_answers_complete_the_run sample_service (start sample_fs)).
  - vm_compute. discriminate.
  - vm_compute. reflexivity.
  - intros x l Hx Ha. vm_compute in Hx.
    apply answered_label in Ha. destruct Ha as [c [Ha _]].
    destruct Hx as [<- | [<- | [<- | [<- | []]]]]; vm_compute in Ha;
      try discriminate Ha; inversion Ha; vm_compute; tauto.
Defined.

Lemma count_where_none A (f : A -> bool) l :
  (forall x, In x l -> f x = false) -> count_where f l = 0.
Proof.
  intros H. unfold count_where. induction l as [|a t IH]; [reflexivity |].
  simpl. rewrite (H a) by now left. apply IH. intros x Hx. apply H. now right.
Qed.

(** X5.  When images are found but the loop of [classify_images] takes its
    success branch on none of them, the run still replaces the output
    directory: it returns tallies that are all zero with a processed count of
    zero, and leaves one empty folder for each class label. *)
Theorem all_failures_leave_empty_folders svc w :
  find_image_files_in SOURCE_DIR (w_fs w) <> [] ->
  is_file (lookup OUTPUT_DIR (w_fs w)) = false ->
  (forall x, In x (find_image_files_in SOURCE_DIR (w_fs w)) ->
             labelled svc (w_fs w) x = false) ->
  exists results w',
    classify_images svc w = (Ok (Some (results, 0)), w')
    /\ forall l, In l (class_labels svc) ->
         assoc l results = Some 0
         /\ lookup (path_join OUTPUT_DIR l) (w_fs w') = Some (Dir []).
Proof.
  intros Hne Hf Hall.
  assert (Hnone : forall l x, In x (find_image_files_in SOURCE_DIR (w_fs w)) ->
                              answered svc (w_fs w) l x = false).
  { intros l x Hx. apply unlabelled_not_answered. now apply Hall. }
  destruct (run_accounted svc w Hne Hf) as [es [Hfs H]].
  destruct (classify_images svc w) as [[[[results processed]|]|e] w'] eqn:Hrun.
  - destruct H as (classes & Hfs' & Hkc & Hkr & Hcnt & Hprov & _).
    cbn [fst] in *.
    assert (Hp : processed = 0).
    { destruct (run_completed _ _ _ _ Hrun) as [w2 [Hloop _]].
      destruct (in_loop_facts _ _ _ _ _ Hloop)
        as [es' (Hfs2 & _ & (cl & _ & _ & _ & _ & Hp & _) & _)].
      cbn [snd] in Hp. rewrite Hp. apply count_where_none. intros x Hx.
      assert (es' = es) by congruence. subst es'.
      rewrite Hfs in Hx. destruct (found_image_head x (Dir es) Hx) as [q ->].
      rewrite labelled_without_out, <- Hfs. apply Hall. now rewrite Hfs. }
    subst processed. exists results, w'. split; [reflexivity |].
    intros l Hl.
    change (zero_tally (class_labels svc)) with (const_dict 0 (class_labels svc))
      in Hkr.
    change (zero_tally (class_labels svc)) with (const_dict 0 (class_labels svc))
      in Hkc.
    split.
    + destruct (assoc l results) as [n|] eqn:Hn.
      * rewrite (Hcnt l n Hn). f_equal. rewrite Hfs.
        rewrite count_answered_without_out, <- Hfs.
        apply count_where_none. intros x Hx. now apply Hnone.
      * exfalso. apply (proj1 (assoc_absent_keys _ l results) Hn).
        rewrite Hkr. now apply keys_const_dict.
    + rewrite Hfs'. unfold OUTPUT_DIR, path_join. cbn [app].
      rewrite (lookup_out _ (assoc_remove_key_same _ "classified_images" es)).
      rewrite lookup_class.
      destruct (assoc l classes) as [files|] eqn:Hc.
      * destruct files as [|[name f] t]; [reflexivity |]. exfalso.
        destruct (Hprov l ((name, f) :: t) name f Hc) as (img & Hin & _ & _ & Ha).
        { simpl. now rewrite String.eqb_refl. }
        rewrite Hfs in Hin. destruct (found_image_head img (Dir es) Hin) as [q ->].
        rewrite answered_without_out, <- Hfs, Hnone in Ha; [discriminate |].
        now rewrite Hfs.
      * exfalso. apply (proj1 (assoc_absent_keys _ l classes) Hc).
        rewrite Hkc. now apply keys_const_dict.
  - destruct H.
  - exfalso. destruct H as (x & l & c & Hx & Ha & Ht & _).
    specialize (Hall x Hx). unfold labelled in Hall. rewrite Ha in Hall. congruence.
Qed.

Lemma all_failures_leave_empty_folders_witness :
  exists results w',
    classify_images keyless_service (start sample_fs) = (Ok (Some (results, 0)), w')
    /\ assoc "Mild" results = Some 0
    /\ lookup (path_join OUTPUT_DIR "Mild") (w_fs w') = Some (Dir []).
Proof.
  destruct (all_failures_leave_empty_folders keyless_service (start sample_fs))
    as (results & w' & Hrun & H).
  - vm_compute. discriminate.
  - vm_compute. reflexivity.
  - intros x Hx. vm_compute in Hx.
    destruct Hx as [<- | [<- | [<- | [<- | []]]]]; vm_compute; reflexivity.
  - exists results, w'. split; [exact Hrun |]. apply (H "Mild").
    vm_compute. tauto.
Defined.



(** ** The functions called by the loop *)



(** X8.  [predict_image_using_django_service] never raises and touches
    neither the file system nor the standard output.  It returns a label
    together with a confidence, the confidence of the service divided by
    100, exactly when the file can be read and the service returns a result
    that says success and carries both keys; it then logs nothing.  In every
    other case it returns the pair of two [None] and logs one record, at
    level ERROR. *)
Theorem predict_never_raises svc p w :
  exists r w',
    predict_image_using_django_service svc p w = (Ok r, w')
    /\ w_fs w' = w_fs w /\ w_calls w' = w_calls w /\ w_stdout w' = w_stdout w
    /\ ((w' = w
         /\ exists f res l c,
              lookup p (w_fs w) = Some (File f)
              /\ process_image svc (f_bytes f) = Returns res
              /\ r_success res = Some true
              /\ r_prediction res = Some l
              /\ r_confidence res = Some c
              /\ r = (Some l, Some (c / 100)%Q))
        \/ (r = (None, None)
            /\ attempt_fails svc (w_fs w) p
            /\ exists m, w_log w' = w_log w ++ [(ERROR, m)]
                         /\ error_message m = true)).
Proof.
  destruct (service_answer svc (w_fs w) p) as [[l c]|] eqn:Ha.
  - rewrite (predict_some svc p w l c Ha). exists (Some l, Some c), w.
    repeat (split; [reflexivity |]). left. split; [reflexivity |].
    unfold service_answer in Ha.
    destruct (lookup p (w_fs w)) as [[f|sub]|]; try discriminate.
    destruct (process_image svc (f_bytes f)) as [res|msg] eqn:Hp; try discriminate.
    destruct (r_success res) as [[|]|] eqn:Hs; try discriminate.
    destruct (r_prediction res) as [l'|] eqn:Hl; try discriminate.
    destruct (r_confidence res) as [c'|] eqn:Hc; try discriminate.
    cbn in Ha. inversion Ha. subst. exists f, res, l, c'. now repeat split.
  - destruct (predict_none svc p w Ha) as [m [Hrun Hm]]. rewrite Hrun.
    exists (None, None), (add_log [(ERROR, m)] w).
    repeat (split; [reflexivity |]). right. split; [reflexivity |].
    split; [now apply attempt_fails_answer |]. now exists m.
Qed.

(** ** Discovery of the images *)

Lemma in_filenames_file name f es :
  In (name, File f) es -> In name (filenames es).
Proof.
  intros H. unfold filenames, keys. apply in_map_iff.
  exists (name, File f). split; [reflexivity |]. apply filter_In. now split.
Qed.

Lemma walk_reaches_files q n f :
  file_at q n f ->
  forall root,
    q <> [] -> is_image_name (path_name (root ++ q)) = true ->
    In (root ++ q)
       (flat_map
          (fun t : path * list string * list string =>
             let '(r, _, files) := t in
             map (path_join r) (filter is_image_name files))
          (walk_dir root n)).
Proof.
  induction 1 as [f|c q es m f Hin Hat IH]; intros root Hne Himg; [congruence |].
  rewrite walk_dir_unfold. cbn [flat_map]. apply in_or_app.
  destruct q as [|c' q'].
  - left. inversion Hat; subst. apply in_map_iff. exists c.
    split; [reflexivity |]. apply filter_In.
    split; [now apply (in_filenames_file c f) |].
    change (root ++ [c]) with (path_join root c) in Himg.
    now rewrite path_join_name in Himg.
  - right. apply in_flat_map.
    assert (E : root ++ c :: c' :: q' = path_join root c ++ c' :: q')
      by (unfold path_join; now rewrite <- app_assoc).
    rewrite E in *.
    specialize (IH (path_join root c) ltac:(discriminate) Himg).
    apply in_flat_map in IH. destruct IH as [t [Ht Hp]].
    exists t. split; [| exact Hp].
    apply in_flat_map. exists (c, m). now split.
Qed.

(** X9.  [find_image_files] returns exactly the paths of the regular files
    found at any depth below the directory whose name passes the extension
    test: each returned path leads to such a file, and each such file is
    returned.  It returns nothing when the directory is missing. *)
Theorem find_image_files_exact directory fs p :
  In p (find_image_files_in directory fs) <->
  exists n q f,
    lookup directory fs = Some n /\ p = directory ++ q /\ q <> []
    /\ file_at q n f /\ is_image_name (path_name p) = true.
Proof.
  unfold find_image_files_in, os_walk. split.
  - destruct (lookup directory fs) as [n|]; [| simpl; tauto].
    intros H. apply walk_finds_files in H.
    destruct H as [q [f H]]. exists n, q, f. tauto.
  - intros (n & q & f & Hn & -> & Hne & Hat & Himg). rewrite Hn.
    now apply (walk_reaches_files q n f Hat).
Qed.

Lemma lower_ascii_dot c : lower_ascii c = "."%char <-> c = "."%char.
Proof.
  destruct c as [[] [] [] [] [] [] [] []]; vm_compute; split;
    intros H; solve [reflexivity | discriminate H].
Qed.

Lemma length_lower s : String.length (lower s) = String.length s.
Proof. induction s as [|a t IH]; [reflexivity |]. simpl. now rewrite IH. Qed.

Lemma rfind_dot_lower s : rfind "."%char (lower s) = None -> rfind "."%char s = None.
Proof.
  induction s as [|a t IH]; [reflexivity |]. simpl.
  destruct (rfind "."%char (lower t)); [discriminate |].
  rewrite IH by reflexivity.
  destruct (Ascii.eqb (lower_ascii a) ".") eqn:E; [discriminate |]. intros _.
  destruct (Ascii.eqb a ".") eqn:E'; [| reflexivity].
  apply Ascii.eqb_eq in E'. subst a. discriminate E.
Qed.

Lemma rfind_last c stem : forall t,
  rfind c t = None ->
  rfind c (stem ++ String c t) = Some (String.length stem).
Proof.
  induction stem as [|a s IH]; intros t Ht; simpl.
  - now rewrite Ht, Ascii.eqb_refl.
  - now rewrite (IH t Ht).
Qed.

Lemma rfind_bound c s : forall i, rfind c s = Some i -> i < String.length s.
Proof.
  induction s as [|a t IH]; intros i; simpl; [discriminate |].
  destruct (rfind c t) as [j|].
  - intros H. inversion H. specialize (IH j eq_refl). lia.
  - destruct (Ascii.eqb a c); [| discriminate]. intros H. inversion H. lia.
Qed.

Lemma length_app_string s t :
  String.length (s ++ t) = String.length s + String.length t.
Proof. induction s as [|a s IH]; [reflexivity |]. simpl. now rewrite IH. Qed.

Lemma substring_all t : substring 0 (String.length t) t = t.
Proof. induction t as [|a t IH]; [reflexivity |]. simpl. now rewrite IH. Qed.

Lemma substring_after stem t :
  substring (String.length stem) (String.length t) (stem ++ t) = t.
Proof.
  induction stem as [|a s IH]; simpl; [apply substring_all | exact IH].
Qed.

Lemma substring_split s : forall i,
  i <= String.length s ->
  s = (substring 0 i s ++ substring i (String.length s - i) s)%string.
Proof.
  induction s as [|a t IH]; intros [|i] Hi; simpl in *; try reflexivity; try lia.
  - now rewrite substring_all.
  - f_equal. apply IH. lia.
Qed.

Lemma mem_In s l : mem s l = true <-> In s l.
Proof.
  unfold mem. rewrite existsb_exists. split.
  - intros [x [Hx E]]. apply String.eqb_eq in E. now subst.
  - intros H. exists s. split; [exact H | apply String.eqb_refl].
Qed.

(* An extension of the allow-list: a dot, then at least one character and
   no further dot. *)
Lemma extension_shape ext :
  In (lower ext) image_extensions ->
  exists t, ext = String "."%char t /\ t <> ""%string /\ rfind "."%char t = None.
Proof.
  intros H.
  assert (G : exists t', lower ext = String "."%char t' /\ t' <> ""%string
                         /\ rfind "."%char t' = None).
  { simpl in H.
    destruct H as [H | [H | [H | [H | [H | [H | []]]]]]]; rewrite <- H;
      eexists; (split; [reflexivity |]); split;
        solve [discriminate | reflexivity]. }
  destruct G as (t' & E & Hne & Hdot).
  destruct ext as [|a t]; [discriminate |]. simpl in E. injection E as Ea Et.
  apply (proj1 (lower_ascii_dot a)) in Ea. subst a. exists t.
  split; [reflexivity |]. split.
  - intros ->. now apply Hne.
  - apply rfind_dot_lower. now rewrite Et.
Qed.

(** X10.  The extension test of [find_image_files].  A name that passes is a
    non-empty stem followed by one of the six extensions, written in any
    mix of upper and lower case; so a name that is only an extension, such
    as [.png], does not pass.  Conversely every name made of a stem that
    does not start with a dot, followed by one of the six extensions in
    any letter case, passes. *)
Theorem image_name_is_stem_and_extension name :
  (is_image_name name = true ->
   exists stem ext,
     name = (stem ++ ext)%string /\ stem <> ""%string
     /\ In (lower ext) image_extensions)
  /\ forall c stem ext,
       name = (String c stem ++ ext)%string ->
       c <> "."%char ->
       In (lower ext) image_extensions ->
       is_image_name name = true.
Proof.
  unfold is_image_name. split.
  - intros H. apply mem_In in H. unfold suffix in *.
    destruct (rfind "."%char name) as [i|] eqn:Hi;
      [| simpl in H; intuition discriminate].
    destruct ((0 <? i) && (i <? String.length name - 1))%nat eqn:Hc;
      [| simpl in H; intuition discriminate].
    apply andb_prop in Hc. destruct Hc as [H0 H1].
    apply Nat.ltb_lt in H0. apply Nat.ltb_lt in H1.
    exists (substring 0 i name), (substring i (String.length name - i) name).
    split; [apply substring_split; lia |]. split; [| exact H].
    destruct name as [|a t]; [simpl in H1; lia |].
    destruct i as [|i]; [lia |]. discriminate.
  - intros c stem ext -> Hc Hext. apply mem_In.
    destruct (extension_shape ext Hext) as (t & -> & Hne & Hdot).
    unfold suffix. rewrite (rfind_last "."%char (String c stem) t Hdot).
    rewrite length_app_string.
    assert (Ht : 0 < String.length t) by (destruct t; [congruence | simpl; lia]).
    replace ((0 <? String.length (String c stem))
             && (String.length (String c stem)
                 <? String.length (String c stem) + String.length (String "." t) - 1))%nat
      with true.
    + replace (String.length (String c stem) + String.length (String "." t)
               - String.length (String c stem))
        with (String.length (String "." t)) by lia.
      now rewrite substring_after.
    + symmetry. apply andb_true_intro. split; apply Nat.ltb_lt; simpl in *; lia.
Qed.

Lemma image_name_is_stem_and_extension_witness :
  is_image_name "scan.01.JpEg" = true.
Proof.
  apply (proj2 (image_name_is_stem_and_extension "scan.01.JpEg")
           "s"%char "can.01" ".JpEg").
  - reflexivity.
  - discriminate.
  - vm_compute. tauto.
Defined.

(** ** The consistency checker *)

Lemma case_lines_answer svc array (pil : string -> option array) fs img expected
      f a l c :
  lookup (Path img) fs = Some (File f) ->
  pil (f_bytes f) = Some a ->
  service_answer svc fs (Path img) = Some (l, c) ->
  case_lines svc pil fs (img, expected)
  = [PTestingFrom (path_name (path_parent (Path img)));
     PImage (path_name (Path img));
     PPredicted l; PConfidence c;
     if String.eqb l expected then PMatch else PMismatch expected l].
Proof.
  intros Hf Hp Ha. unfold case_lines, service_answer in *. cbn [fst snd].
  rewrite Hf in *. rewrite Hp.
  destruct (process_image svc (f_bytes f)) as [r|msg]; [| discriminate].
  destruct (get_default (r_success r) false); [| discriminate].
  destruct (r_prediction r) as [l'|]; [| discriminate].
  destruct (r_confidence r) as [c'|]; [| discriminate].
  now inversion Ha.
Qed.

Lemma case_lines_no_answer svc array (pil : string -> option array) fs img expected :
  (forall f a, lookup (Path img) fs = Some (File f) -> pil (f_bytes f) = Some a ->
               service_answer svc fs (Path img) = None) ->
  forall l, In l (case_lines svc pil fs (img, expected)) -> is_verdict l = false.
Proof.
  intros Hno l. unfold case_lines. cbn [fst snd].
  destruct (lookup (Path img) fs) as [[f|sub]|] eqn:Hf.
  - destruct (pil (f_bytes f)) as [a|] eqn:Hp.
    + specialize (Hno f a eq_refl Hp). unfold service_answer in Hno.
      rewrite Hf in Hno.
      destruct (process_image svc (f_bytes f)) as [r|msg].
      * destruct (get_default (r_success r) false).
        -- destruct (r_prediction r) as [l'|];
             [destruct (r_confidence r) as [c'|]; [discriminate |] |];
             simpl; intros [<- | [<- | [<- | []]]]; reflexivity.
        -- simpl. intros [<- | [<- | [<- | []]]]; reflexivity.
      * simpl. intros [<- | [<- | [<- | []]]]; reflexivity.
    + simpl. intros [<- | [<- | [<- | [<- | []]]]]; reflexivity.
  - simpl. intros [<- | [<- | [<- | [<- | []]]]]; reflexivity.
  - simpl. intros [<- | []]; reflexivity.
Qed.

(** X11.  The verdict of one test case of the checker.  The case prints the
    pass line exactly when the image exists as a regular file, PIL can
    decode it and the service answers the expected folder for it; it prints
    the mismatch line, with the expected folder and the answered label,
    exactly when the service answers another label.  In every other case it
    prints no verdict at all. *)
Theorem verdict_follows_answer svc array (pil : string -> option array)
        img expected w :
  exists lines,
    check_case svc pil (img, expected) w = (Ok tt, add_stdout lines w)
    /\ (In PMatch lines <->
        exists f a c,
          lookup (Path img) (w_fs w) = Some (File f)
          /\ pil (f_bytes f) = Some a
          /\ service_answer svc (w_fs w) (Path img) = Some (expected, c))
    /\ (forall e l,
          In (PMismatch e l) lines <->
          e = expected /\ l <> expected
          /\ exists f a c,
               lookup (Path img) (w_fs w) = Some (File f)
               /\ pil (f_bytes f) = Some a
               /\ service_answer svc (w_fs w) (Path img) = Some (l, c)).
Proof.
  exists (case_lines svc pil (w_fs w) (img, expected)).
  split; [apply check_case_lines |].
  destruct (lookup (Path img) (w_fs w)) as [[f|sub]|] eqn:Hf.
  2,3: (assert (Hno : forall l, In l (case_lines svc pil (w_fs w) (img, expected)) ->
                                is_verdict l = false)
         by (apply case_lines_no_answer; intros f a Hf'; congruence);
        split; [| intros e l]; (split;
          [intros H; apply Hno in H; discriminate
          | intros H; decompose [ex and] H; discriminate])).
  destruct (pil (f_bytes f)) as [a|] eqn:Hp.
  2:{ assert (Hno : forall l, In l (case_lines svc pil (w_fs w) (img, expected)) ->
                              is_verdict l = false).
      { apply case_lines_no_answer. intros f' a' Hf' Hp'. exfalso. congruence. }
      split; [| intros e l]; (split;
        [intros H; apply Hno in H; discriminate
        | intros H; decompose [ex and] H; congruence]). }
  destruct (service_answer svc (w_fs w) (Path img)) as [[l c]|] eqn:Ha.
  2:{ assert (Hno : forall l, In l (case_lines svc pil (w_fs w) (img, expected)) ->
                              is_verdict l = false).
      { apply case_lines_no_answer. intros f' a' _ _. exact Ha. }
      split; [| intros e l]; (split;
        [intros H; apply Hno in H; discriminate
        | intros H; decompose [ex and] H; congruence]). }
  rewrite (case_lines_answer svc array pil (w_fs w) img expected f a l c Hf Hp Ha).
  destruct (String.eqb l expected) eqn:E.
  - apply String.eqb_eq in E. subst l. split.
    + split; [intros _; now exists f, a, c | intros _; simpl; tauto].
    + intros e l. split.
      * simpl. intros [H | [H | [H | [H | [H | []]]]]]; discriminate.
      * intros (_ & Hne & f' & a' & c' & _ & _ & H). congruence.
  - apply String.eqb_neq in E. split.
    + split.
      * simpl. intros [H | [H | [H | [H | [H | []]]]]]; discriminate.
      * intros (f' & a' & c' & _ & _ & H). congruence.
    + intros e l'. split.
      * simpl. intros [H | [H | [H | [H | [H | []]]]]]; try discriminate.
        inversion H. subst. split; [reflexivity |]. split; [exact E |].
        now exists f, a, c.
      * intros (-> & Hne & f' & a' & c' & _ & _ & H).
        inversion H. subst. simpl. tauto.
Qed.

(** X12.  The checker agrees with the classifier on what the classifier
    wrote.  After a run of [classify_images] that returns its tallies, a
    test case that names a file of a class folder and expects that folder
    prints the pass line, provided PIL can decode the file: the prediction
    it prints is the folder the file was copied into. *)
Theorem checker_passes_on_classifier_output svc array (pil : string -> option array)
        w st w' w2 img l name f a :
  classify_images svc w = (Ok (Some st), w') ->
  w_fs w2 = w_fs w' ->
  Path img = path_join (path_join OUTPUT_DIR l) name ->
  lookup (Path img) (w_fs w2) = Some (File f) ->
  pil (f_bytes f) = Some a ->
  exists c,
    check_case svc pil (img, l) w2
    = (Ok tt, add_stdout [PTestingFrom l; PImage name; PPredicted l;
                          PConfidence c; PMatch] w2).
Proof.
  intros Hrun Hw2 Hpath Hf Hp.
  destruct (completed_run_account _ _ _ _ Hrun)
    as (es & Hfs & classes & Hfs' & _ & _ & _ & Hprov & _).
  pose proof (assoc_remove_key_same _ "classified_images" es) as Hfresh.
  assert (Hout : exists files, assoc l classes = Some files
                               /\ assoc name files = Some f).
  { rewrite Hpath, Hw2, Hfs' in Hf. unfold OUTPUT_DIR, path_join in Hf.
    cbn [app] in Hf. rewrite (lookup_out _ Hfresh), lookup_class_file in Hf.
    destruct (assoc l classes) as [files|]; [| discriminate].
    exists files. split; [reflexivity |].
    destruct (assoc name files) as [f'|]; [| discriminate]. now inversion Hf. }
  destruct Hout as (files & Hl & Hname).
  destruct (Hprov l files name f Hl Hname) as (src & _ & _ & Hsrc & Ha).
  apply answered_label in Ha. destruct Ha as [c [Ha _]].
  rewrite (service_answer_same_file svc _ (w_fs w2) src (Path img) f Hsrc Hf) in Ha.
  exists c. rewrite check_case_lines.
  rewrite (case_lines_answer svc array pil (w_fs w2) img l f a l c Hf Hp Ha).
  now rewrite Hpath, path_join_parent, !path_join_name, String.eqb_refl.
Qed.

Lemma checker_passes_on_classifier_output_witness :
  exists c,
    check_case sample_service (fun b => Some b)
      ("classified_images/No_DR/b.jpg", "No_DR")
      (snd (classify_images sample_service (start sample_fs)))
    = (Ok tt,
       add_stdout [PTestingFrom "No_DR"; PImage "b.jpg"; PPredicted "No_DR";
                   PConfidence c; PMatch]
         (snd (classify_images sample_service (start sample_fs)))).
Proof.
  apply (checker_passes_on_classifier_output sample_service string
           (fun b => Some b) (start sample_fs)
           ([("Mild", 1); ("Moderate", 0); ("No_DR", 1);
             ("Proliferate_DR", 0); ("Severe", 0)], 2)
           (snd (classify_images sample_service (start sample_fs)))
           (snd (classify_images sample_service (start sample_fs)))
           "classified_images/No_DR/b.jpg" "No_DR" "b.jpg"
           (sample_file "healthy fundus") "healthy fundus").
  - vm_compute. reflexivity.
  - reflexivity.
  - vm_compute. reflexivity.
  - vm_compute. reflexivity.
  - reflexivity.
Defined.

Lemma count_where_app A (f : A -> bool) l1 l2 :
  count_where f (l1 ++ l2) = count_where f l1 + count_where f l2.
Proof.
  unfold count_where. induction l1 as [|a t IH]; [reflexivity |].
  simpl. destruct (f a); simpl; now rewrite IH.
Qed.

Lemma case_lines_one_outcome svc array (pil : string -> option array) fs tc :
  count_where is_outcome (case_lines svc pil fs tc) = 1
  /\ count_where is_verdict (case_lines svc pil fs tc) <= 1.
Proof.
  unfold case_lines.
  destruct (lookup (Path (fst tc)) fs) as [[f|sub]|]; [| now split; auto ..].
  destruct (pil (f_bytes f)) as [a|]; [| now split; auto].
  destruct (process_image svc (f_bytes f)) as [r|msg]; [| now split; auto].
  destruct (get_default (r_success r) false); [| now split; auto].
  destruct (r_prediction r) as [l|]; [| now split; auto].
  destruct (r_confidence r) as [c|]; [| now split; auto].
  destruct (String.eqb l (snd tc)); now split; auto.
Qed.

(** X13.  The checker never raises, whatever the files and the service do,
    and changes nothing but the standard output.  Between its two header
    lines and its two closing lines it prints, for each test case, exactly
    one line that closes the case (image not found, no prediction, pass or
    mismatch), so at most one verdict for each case. *)
Theorem checker_closes_every_case svc array (pil : string -> option array)
        cases w :
  exists lines,
    run_cases svc pil cases w
    = (Ok tt, add_stdout (PTesting :: PRule :: lines ++ [PRule; PComplete]) w)
    /\ count_where is_outcome lines = List.length cases
    /\ count_where is_verdict lines <= List.length cases.
Proof.
  exists (flat_map (case_lines svc pil (w_fs w)) cases).
  split; [apply run_cases_lines |].
  induction cases as [|tc t [IH1 IH2]]; [split; [reflexivity | apply Nat.le_refl] |].
  cbn [flat_map List.length]. rewrite !count_where_app.
  destruct (case_lines_one_outcome svc array pil (w_fs w) tc) as [H1 H2].
  split; lia.
Qed.

(** X14.  [preprocess_image] never raises and touches neither the file
    system nor the log.  It returns an array exactly when the path leads to
    a regular file that the PIL pipeline can decode, and then prints
    nothing; in every other case it returns [None] after printing one line
    that reports the error. *)
Theorem preprocess_image_result array (pil : string -> option array) img w :
  exists r w',
    preprocess_image pil img w = (Ok r, w')
    /\ w_fs w' = w_fs w /\ w_calls w' = w_calls w /\ w_log w' = w_log w
    /\ match r with
       | Some a =>
           w' = w
           /\ exists f, lookup (Path img) (w_fs w) = Some (File f)
                        /\ pil (f_bytes f) = Some a
       | None =>
           (forall f, lookup (Path img) (w_fs w) = Some (File f) ->
                      pil (f_bytes f) = None)
           /\ exists e, w_stdout w' = w_stdout w ++ [PErrorPreprocessing img e]
       end.
Proof.
  rewrite preprocess_image_run.
  destruct (lookup (Path img) (w_fs w)) as [[f|sub]|].
  - destruct (pil (f_bytes f)) as [a|] eqn:Hp.
    + exists (Some a), w. repeat (split; [reflexivity |]). now exists f.
    + eexists None, _. split; [reflexivity |]. repeat (split; [reflexivity |]).
      split; [| eexists; reflexivity]. intros f' H. inversion H. now subst.
  - eexists None, _. split; [reflexivity |]. repeat (split; [reflexivity |]).
    split; [discriminate | eexists; reflexivity].
  - eexists None, _. split; [reflexivity |]. repeat (split; [reflexivity |]).
    split; [discriminate | eexists; reflexivity].
Qed.

(** ** What the log tells about each image *)

Section LoopLog.
Variable svc : service.
Variable others : list (string * node).
Hypothesis others_fresh : assoc "classified_images" others = None.
Variable images : list path.
Variable log0 : list (level * message).

Lemma classify_one_log q st w classes :
  w_fs w = root_with others classes ->
  match classify_one svc ("colored_images" :: q) st w with
  | (Ok _, w') =>
      exists extra,
        w_log w' = w_log w ++ extra
        /\ filter progress extra
           = image_records svc (Dir others) ("colored_images" :: q)
  | (Raise _, _) => True
  end.
Proof.
  destruct st as [results processed]. destruct w as [fs calls log out].
  cbn [w_fs w_log]. intros ->.
  assert (Hs : "colored_images" <> "classified_images") by discriminate.
  set (x := "colored_images" :: q) in *.
  pose proof (labelled_others svc others "colored_images" q classes Hs) as Hlab.
  pose proof (service_answer_others svc others "colored_images" q classes Hs) as Hsa.
  fold x in Hlab, Hsa. unfold image_records.
  destruct (labelled svc (Dir others) x) eqn:Hlx.
  - assert (Ha := Hlx). unfold labelled in Ha.
    destruct (service_answer svc (Dir others) x) as [[l conf]|] eqn:Hans;
      [| discriminate].
    destruct (service_answer_file _ _ _ _ Hans) as [f Hf].
    destruct (assoc l classes) as [files|] eqn:Hl.
    + unfold x. rewrite (classify_one_copies svc others others_fresh
                 "colored_images" q l conf f files classes results processed
                 calls log out Hs Hsa Ha Hf Hl).
      cbv zeta. fold x. destruct (assoc l results) as [n|]; [| exact I].
      cbn [w_log]. eexists. split; [reflexivity |]. now rewrite Ha.
    + unfold x. now rewrite (classify_one_unknown svc others others_fresh
                 "colored_images" q l conf classes results processed
                 calls log out Hs Hsa Ha Hl).
  - destruct (classify_one_skip svc x results processed
                {| w_fs := root_with others classes; w_calls := calls;
                   w_log := log; w_stdout := out |} Hlab) as [extra [Hrun Hextra]].
    rewrite Hrun. cbn [w_log add_log w_fs] in *. eexists. split; [reflexivity |].
    rewrite Hsa in Hextra. unfold labelled in Hlx.
    destruct (service_answer svc (Dir others) x) as [[l conf]|].
    + subst extra. now rewrite Hlx.
    + destruct Hextra as [m [-> Hm]]. cbn [filter app progress snd].
      destruct m; try discriminate Hm; reflexivity.
Qed.

Lemma loop_keeps_log todo :
  (forall x, In x todo -> In x images /\ exists q, x = "colored_images" :: q) ->
  forall done st,
    triple (fun w => loop_account svc others done st w
                     /\ exists gained,
                          w_log w = log0 ++ gained
                          /\ filter progress gained
                             = flat_map (image_records svc (Dir others)) done)
           (for_each (classify_one svc) todo st)
           (fun st' w => exists gained,
                           w_log w = log0 ++ gained
                           /\ filter progress gained
                              = flat_map (image_records svc (Dir others))
                                         (done ++ todo))
           (fun _ _ => True).
Proof.
  intros Htodo done st.
  pose proof (triple_for_each _ _ (classify_one svc)
                (fun done st w =>
                   loop_account svc others done st w
                   /\ exists gained,
                        w_log w = log0 ++ gained
                        /\ filter progress gained
                           = flat_map (image_records svc (Dir others)) done)
                (fun _ _ => True) todo) as H.
  cbv beta in H.
  assert (Hloop : forall done st,
             triple (fun w => loop_account svc others done st w
                              /\ exists gained,
                                   w_log w = log0 ++ gained
                                   /\ filter progress gained
                                      = flat_map (image_records svc (Dir others)) done)
                    (for_each (classify_one svc) todo st)
                    (fun st' w => loop_account svc others (done ++ todo) st' w
                                  /\ exists gained,
                                       w_log w = log0 ++ gained
                                       /\ filter progress gained
                                          = flat_map (image_records svc (Dir others))
                                                     (done ++ todo))
                    (fun _ _ => True)).
  { apply H. clear H. intros done' x st' Hx w [Hacc (gained & Hlog & Hrec)].
    destruct (Htodo x Hx) as [Hin [q ->]].
    pose proof (classify_one_keeps_account svc others others_fresh images
                  done' q st' Hin w Hacc) as Hstep.
    destruct Hacc as (classes & Hfs & _).
    pose proof (classify_one_log q st' w classes Hfs) as Hl.
    destruct (classify_one svc ("colored_images" :: q) st' w) as [[st2|e] w2];
      [| exact I].
    split; [exact Hstep |].
    destruct Hl as (extra & Hlog2 & Hextra).
    exists (gained ++ extra). split.
    - now rewrite Hlog2, Hlog, app_assoc.
    - rewrite filter_app, flat_map_app, Hrec, Hextra. cbn [flat_map].
      now rewrite app_nil_r. }
  intros w Hw. specialize (Hloop done st w Hw).
  destruct (for_each (classify_one svc) todo st w) as [[st2|e] w2]; [| exact I].
  exact (proj2 Hloop).
Qed.
End LoopLog.

Lemma summary_has_no_progress st : filter progress (summary_log st) = [].
Proof.
  unfold summary_log. cbn [filter progress snd]. rewrite filter_app.
  cbn [filter progress snd]. rewrite app_nil_r.
  induction (fst st) as [|item t IH]; [reflexivity | exact IH].
Qed.

Lemma image_records_without_out svc es :
  flat_map (image_records svc (Dir (remove_key "classified_images" es)))
           (find_image_files_in SOURCE_DIR (Dir es))
  = flat_map (image_records svc (Dir es)) (find_image_files_in SOURCE_DIR (Dir es)).
Proof.
  assert (G : forall l : list path,
             (forall x, In x l -> exists q, x = "colored_images" :: q) ->
             flat_map (image_records svc (Dir (remove_key "classified_images" es))) l
             = flat_map (image_records svc (Dir es)) l).
  { induction l as [|x t IH]; intros Hl; [reflexivity |]. cbn [flat_map].
    rewrite IH by (intros y Hy; apply Hl; now right).
    destruct (Hl x (or_introl eq_refl)) as [q ->].
    unfold image_records. now rewrite service_answer_without_out. }
  apply G. intros x Hx. now apply (found_image_head x (Dir es)).
Qed.

(** X15.  The log of a run of [classify_images] that returns its tallies
    accounts for every discovered image, in the order of discovery: it
    gains for each image the record of its name, followed either by the
    record of the label and the confidence that the service answered for it
    or by the warning that it could not be classified, and it gains no
    other record of these three kinds. *)
Theorem log_accounts_for_every_image svc w st w' :
  classify_images svc w = (Ok (Some st), w') ->
  exists gained,
    w_log w' = w_log w ++ gained
    /\ filter progress gained
       = flat_map (image_records svc (w_fs w))
                  (find_image_files_in SOURCE_DIR (w_fs w)).
Proof.
  intros Hrun. destruct (completed_run_is_main _ _ _ _ Hrun) as [Hne Hnf].
  destruct (images_need_source _ Hne) as [es [n [Hfs _]]].
  destruct w as [fs calls log out]. cbn [w_fs w_log] in *. subst fs.
  rewrite out_is_file_root in Hnf.
  rewrite (run_from_setup svc es calls log out Hne Hnf) in Hrun.
  pose proof (assoc_remove_key_same _ "classified_images" es) as Hfresh.
  set (others := remove_key "classified_images" es) in *.
  set (images := find_image_files_in SOURCE_DIR (Dir es)) in *.
  match type of Hrun with bind _ _ ?x = _ => set (w1 := x) in * end.
  assert (Htodo : forall x, In x images ->
                    In x images /\ exists q, x = "colored_images" :: q).
  { intros x Hx. split; [exact Hx | now apply (found_image_head x (Dir es))]. }
  pose proof (loop_keeps_log svc others Hfresh images (w_log w1) images Htodo []
                (zero_tally (class_labels svc), 0) w1) as H.
  unfold bind in Hrun.
  destruct (for_each (classify_one svc) images _ w1) as [[st2|e] w2];
    [| discriminate].
  inversion Hrun. subst st2 w'. clear Hrun.
  destruct H as (gained & Hlog & Hrec).
  { split; [now apply loop_account_start |].
    exists []. split; [now rewrite app_nil_r | reflexivity]. }
  cbn [app] in Hrec.
  exists (found_log (List.length images)
          ++ [(INFO, MsgCreatedOutput OUTPUT_DIR);
              (INFO, MsgClassLabels (class_labels svc))]
          ++ gained ++ summary_log st).
  split.
  - unfold add_log. cbn [w_log]. rewrite Hlog. unfold w1. cbn [w_log].
    now rewrite <- !app_assoc.
  - rewrite !filter_app, summary_has_no_progress, app_nil_r, Hrec.
    cbn [filter found_log progress snd app].
    apply image_records_without_out.
Qed.

Lemma log_accounts_for_every_image_witness :
  exists gained,
    w_log (snd (classify_images sample_service (start sample_fs))) = [] ++ gained
    /\ filter progress gained
       = [(INFO, MsgProcessing "a.png"); (INFO, MsgClassifiedAs "Mild" ((87 # 1) / 100)%Q);
          (INFO, MsgProcessing "b.jpg");
          (INFO, MsgClassifiedAs "No_DR" ((199 # 2) / 100)%Q);
          (INFO, MsgProcessing "c.PNG"); (WARNING, MsgFailedToClassify "c.PNG");
          (INFO, MsgProcessing "d.bmp"); (WARNING, MsgFailedToClassify "d.bmp")].
Proof.
  destruct (log_accounts_for_every_image sample_service (start sample_fs)
              ([("Mild", 1); ("Moderate", 0); ("No_DR", 1);
                ("Proliferate_DR", 0); ("Severe", 0)], 2)
              (snd (classify_images sample_service (start sample_fs))))
    as (gained & Hlog & Hrec).
  - vm_compute. reflexivity.
  - exists gained. split; [exact Hlog |]. rewrite Hrec. reflexivity.
Defined.
